(** * The asbestos monitoring session engine

    A shallow embedding of [asbestos_monitoring_system.py]: the class
    [AsbestosMonitoringSystem] (risk classification, live plot update, CSV
    export, the sampling loop with its try/except/finally) and [main], followed
    by the properties its specification states about them.

    Conventions of the embedding.
    - Python floats are binary64 primitive floats; Python ints are [Z].
    - The object [self] is the record [system]; a method is a function in the
      state-and-exception monad [py].
    - Whatever the program reads from outside (the wall clock, the sensor
      draw, [datetime.now()], the outcome of a database or display call, the
      number of animation frames the display draws during a pause) is supplied
      by a [world] script, one [tick_io] per evaluation of the loop test.
    - An exception is raised where the script says: at a call of the loop
      body, between its two appends, or at a call of the handlers and of
      the [finally] clause. The calls before the [try] return or raise as
      their arguments decide.
    - A Python [str] that is only stored or printed is a [string]; the answer
      parsed by [int] is the list of its code points, and what [int] asks the
      Unicode database is a parameter ([unicode]).
    - What the program does to the outside (lines printed, the file written,
      the connection and the figure closed) is appended to [output].
    - The file uses [time.time()] without importing [time]; whether the name
      resolves is a parameter of the embedding ([globals]), and the file as
      it stands is the instance [shipped]. *)

From Stdlib Require Import ZArith List String Ascii Bool Lia Floats.
Import ListNotations.
#[local] Open Scope string_scope.
#[local] Open Scope Z_scope.
#[local] Set Warnings "-inexact-float".

(** ** Exceptions and outcomes *)

(** The three classes of exception the handlers of [real_time_monitoring] tell
    apart: [KeyboardInterrupt], any instance of [Exception] (with its class
    name and [str(e)]), and any other [BaseException] such as [SystemExit]. *)
Inductive exn :=
| KeyboardInterrupt
| Exception (cls msg : string)
| BaseException (cls : string).

Inductive outcome (A : Type) :=
| Returned (a : A)
| Raised (e : exn).
Arguments Returned {A} a.
Arguments Raised {A} e.

(** ** Numbers *)

(** [float(n)] for a Python int: correctly rounded, [OverflowError] when the
    rounded value is out of range. This is the conversion behind
    [start_time + duration_minutes * 60]. *)
Definition float_of_int (n : Z) : outcome float :=
  let f := SF2Prim (binary_normalize prec emax n 0 false) in
  if is_infinity f
  then Raised (Exception "OverflowError" "int too large to convert to float")
  else Returned f.

(** [int(f)] for a Python float: truncation towards zero. *)
Definition int_of_float (f : float) : outcome Z :=
  match Prim2SF f with
  | S754_zero _ => Returned 0
  | S754_finite s m e =>
      let a := if 0 <=? e then Zpos m * 2 ^ e else Zpos m / 2 ^ (- e) in
      Returned (if s then - a else a)
  | S754_infinity _ =>
      Raised (Exception "OverflowError" "cannot convert float infinity to integer")
  | S754_nan =>
      Raised (Exception "ValueError" "cannot convert float NaN to integer")
  end.

(** The builtin [max(a, b)]: [b] when [b > a], else [a]. *)
Definition max2 (a b : float) : float :=
  if (a <? b)%float then b else a.

(** The builtin [max(xs)] on a list: [ValueError] on the empty list, else a
    left-to-right scan that replaces the candidate by every strictly larger
    item. *)
Definition py_max (xs : list float) : outcome float :=
  match xs with
  | [] => Raised (Exception "ValueError" "max() arg is an empty sequence")
  | x :: rest => Returned (fold_left max2 rest x)
  end.

(** ** Dates and times *)

(** A naive [datetime.datetime], by its fields. *)
Record datetime := {
  year : Z; month : Z; day : Z;
  hour : Z; minute : Z; second : Z; microsecond : Z
}.

(** The fields are those of a date the [datetime] class can hold; years below
    1000 are left out because [%Y] prints them with a platform-dependent
    width. *)
Definition valid_datetime (d : datetime) : bool :=
  (1000 <=? year d) && (year d <=? 9999) &&
  (1 <=? month d) && (month d <=? 12) &&
  (1 <=? day d) && (day d <=? 31) &&
  (0 <=? hour d) && (hour d <=? 23) &&
  (0 <=? minute d) && (minute d <=? 59) &&
  (0 <=? second d) && (second d <=? 59) &&
  (0 <=? microsecond d) && (microsecond d <=? 999999).

Definition lex (c1 c2 : comparison) : comparison :=
  match c1 with Eq => c2 | _ => c1 end.

(** Order of two datetimes down to the second, and the full order Python's
    comparison operators use. *)
Definition dt_compare_seconds (a b : datetime) : comparison :=
  lex (year a ?= year b) (lex (month a ?= month b) (lex (day a ?= day b)
  (lex (hour a ?= hour b) (lex (minute a ?= minute b) (second a ?= second b))))).

Definition dt_compare (a b : datetime) : comparison :=
  lex (dt_compare_seconds a b) (microsecond a ?= microsecond b).

Definition dt_leb (a b : datetime) : bool :=
  match dt_compare a b with Gt => false | _ => true end.

Definition is_leap (y : Z) : bool :=
  (y mod 4 =? 0) && (negb (y mod 100 =? 0) || (y mod 400 =? 0)).

Definition days_before_year (y : Z) : Z :=
  let p := y - 1 in p * 365 + p / 4 - p / 100 + p / 400.

Definition days_before_month (y m : Z) : Z :=
  nth (Z.to_nat (m - 1)) [0; 31; 59; 90; 120; 151; 181; 212; 243; 273; 304; 334] 0
  + (if (2 <? m) && is_leap y then 1 else 0).

(** [d.toordinal()] and the microseconds elapsed since the start of day 0. *)
Definition toordinal (d : datetime) : Z :=
  days_before_year (year d) + days_before_month (year d) (month d) + day d.

Definition to_microseconds (d : datetime) : Z :=
  ((toordinal d * 24 + hour d) * 60 + minute d) * 60 * 1000000
  + second d * 1000000 + microsecond d.

(** [n / d] on two Python ints, [d > 0]: the float nearest to the exact
    quotient, ties to even. The quotient is taken with 128 extra bits, the
    last bit of the mantissa records whether the division left a remainder,
    and one rounding to binary64 follows, so that no value is rounded twice.
    The quotients formed here stay far below the range where Python raises
    [OverflowError]. *)
Definition true_divide (n d : Z) : float :=
  let a := Z.abs n * 2 ^ 128 in
  let m := 2 * (a / d) + (if a mod d =? 0 then 0 else 1) in
  SF2Prim (binary_normalize prec emax (if n <? 0 then - m else m) (-129) false).

(** [(a - b).total_seconds()]: the microseconds of the difference divided by
    [10**6]. *)
Definition total_seconds (a b : datetime) : float :=
  true_divide (to_microseconds a - to_microseconds b) 1000000.

(** *** [strftime] *)

Definition digit (n : Z) : ascii := ascii_of_nat (48 + Z.to_nat (n mod 10)).

Definition pad2 (n : Z) : string :=
  String (digit (n / 10)) (String (digit n) "").

Definition pad4 (n : Z) : string := pad2 (n / 100) ++ pad2 (n mod 100).

(** ["%Y%m%d_%H%M%S"], the stamp of the export's file name. *)
Definition strftime_compact (d : datetime) : string :=
  pad4 (year d) ++ pad2 (month d) ++ pad2 (day d) ++ "_"
  ++ pad2 (hour d) ++ pad2 (minute d) ++ pad2 (second d).

(** ["%Y-%m-%d %H:%M:%S"], the time of the status line. *)
Definition strftime_display (d : datetime) : string :=
  pad4 (year d) ++ "-" ++ pad2 (month d) ++ "-" ++ pad2 (day d) ++ " "
  ++ pad2 (hour d) ++ ":" ++ pad2 (minute d) ++ ":" ++ pad2 (second d).

(** ** [int(text)] *)

(** A Python [str], as the sequence of its code points. *)
Definition text := list Z.

(** A literal of this file as a [str]; its characters are ASCII. *)
Definition text_of (s : string) : text :=
  map (fun c => Z.of_nat (nat_of_ascii c)) (list_ascii_of_string s).

(** What the interpreter's Unicode database says of a code point: whether
    [str.isspace] holds of it, and its value as a decimal digit if it is one
    (fullwidth and Arabic-Indic digits, for instance). [int] consults it for
    code points from 127 on only. *)
Record unicode := {
  uni_isspace : Z -> bool;
  uni_decimal : Z -> option Z
}.

(** First step of [int] on a [str]: a text that is all ASCII is taken as it
    is; otherwise every code point from 127 on is replaced, a blank by a
    space and a decimal digit by its ASCII digit, and the first code point
    that is neither becomes a question mark at which the text is cut. *)
Fixpoint to_ascii_digits (u : unicode) (t : text) : text :=
  match t with
  | [] => []
  | c :: rest =>
      if c <? 127 then c :: to_ascii_digits u rest
      else if uni_isspace u c then 32 :: to_ascii_digits u rest
      else match uni_decimal u c with
           | Some v => (48 + v) :: to_ascii_digits u rest
           | None => [63]
           end
  end.

Definition to_ascii (u : unicode) (t : text) : text :=
  if forallb (fun c => c <? 128) t then t else to_ascii_digits u t.

(** The blanks the parser skips around the literal: tab, line feed, vertical
    tab, form feed, carriage return and space. The separators 28 to 31, which
    [str.isspace] accepts, are not among them. *)
Definition is_space (c : Z) : bool :=
  (9 <=? c) && (c <=? 13) || (c =? 32).

Definition is_digit (c : Z) : bool := (48 <=? c) && (c <=? 57).

Definition digit_value (c : Z) : Z := c - 48.

Fixpoint lstrip (s : text) : text :=
  match s with
  | c :: rest => if is_space c then lstrip rest else s
  | [] => []
  end.

Definition strip (s : text) : text :=
  rev (lstrip (rev (lstrip s))).

(** Digits after the first one; [after_digit] tells whether the previous
    character was a digit (an underscore must stand between two digits). *)
Fixpoint digits_value (acc : Z) (after_digit : bool) (s : text) : option Z :=
  match s with
  | [] => if after_digit then Some acc else None
  | c :: rest =>
      if is_digit c then digits_value (acc * 10 + digit_value c) true rest
      else if (c =? 95) && after_digit then digits_value acc false rest
      else None
  end.

(** The interpreter's default limit on the digits of a decimal literal
    ([sys.int_info.default_max_str_digits]); leading zeros count, underscores
    do not. *)
Definition max_str_digits : nat := 4300.

Definition unsigned_int (s : text) : option Z :=
  match s with
  | c :: _ =>
      if is_digit c && (List.length (filter is_digit s) <=? max_str_digits)%nat
      then digits_value 0 false s
      else None
  | [] => None
  end.

(** The builtin [int] on a [str] in base 10: blanks around the literal are
    dropped, one sign is allowed in front of the digits, and the digits may
    be grouped by single underscores. [None] stands for [ValueError]. *)
Definition py_int (u : unicode) (t : text) : option Z :=
  match strip (to_ascii u t) with
  | c :: rest =>
      if c =? 45 then option_map Z.opp (unsigned_int rest)
      else if c =? 43 then unsigned_int rest
      else unsigned_int (c :: rest)
  | [] => None
  end.

(** ** The object and its collaborators *)

(** An element of [self.timestamps]: the integer [0] that [__init__] puts at
    index 0, or a [datetime] appended by a tick. [self.readings] holds the
    sensor floats behind the seed [0], which compares and plots as [0.0]. *)
Inductive stamp :=
| Seed
| At (t : datetime).

(** One record: a row of the table [asbestos_readings] (without its
    autoincrement id) and a row of the exported frame. *)
Record row := {
  r_timestamp : stamp;
  r_location : string;
  r_concentration : float;
  r_risk_level : string
}.

(** The sqlite3 connection: rows inserted since the last commit, rows
    committed through this connection, and whether it is still open. *)
Record connection := {
  conn_open : bool;
  conn_pending : list row;
  conn_committed : list row
}.

(** The [pandas.DataFrame] built by the export. *)
Record frame := {
  columns : list string;
  records : list row
}.

(** The lines the program prints. *)
Inductive message :=
| MsgStarting (location : string)
| MsgPressCtrlC
| MsgTime (text : string)
| MsgLocation (location : string)
| MsgConcentration (c : float)
| MsgRiskLevel (level : string)
| MsgHighRiskWarning
| MsgRule
| MsgStoppedByUser
| MsgError (text : string)
| MsgExported (filename : string)
| MsgSessionEnded
| MsgInvalidDuration.

(** What the program does to its surroundings, in the order it does it. *)
Inductive event :=
| Print (m : message)
| ToCsv (filename : string) (df : frame)
| DbClose
| PltShow
| PltPause
| PltClose.

(** The fields of [self]. [ax_xlim], [ax_ylim] and [ax_hlines] are the state of
    [self.ax], [line_data] that of [self.line], and [ani] the frame count of
    the animation once [real_time_monitoring] has created it. *)
Record system := {
  db_connection : connection;
  readings : list float;
  timestamps : list stamp;
  ax_xlim : float * float;
  ax_ylim : float * float;
  ax_hlines : list float;
  line_data : list float * list float;
  ani : option Z;
  output : list event
}.

Definition set_db_connection (c : connection) (s : system) : system :=
  {| db_connection := c; readings := readings s; timestamps := timestamps s;
     ax_xlim := ax_xlim s; ax_ylim := ax_ylim s; ax_hlines := ax_hlines s;
     line_data := line_data s; ani := ani s; output := output s |}.

Definition set_readings (r : list float) (s : system) : system :=
  {| db_connection := db_connection s; readings := r; timestamps := timestamps s;
     ax_xlim := ax_xlim s; ax_ylim := ax_ylim s; ax_hlines := ax_hlines s;
     line_data := line_data s; ani := ani s; output := output s |}.

Definition set_timestamps (t : list stamp) (s : system) : system :=
  {| db_connection := db_connection s; readings := readings s; timestamps := t;
     ax_xlim := ax_xlim s; ax_ylim := ax_ylim s; ax_hlines := ax_hlines s;
     line_data := line_data s; ani := ani s; output := output s |}.

Definition set_xlim (l : float * float) (s : system) : system :=
  {| db_connection := db_connection s; readings := readings s;
     timestamps := timestamps s;
     ax_xlim := l; ax_ylim := ax_ylim s; ax_hlines := ax_hlines s;
     line_data := line_data s; ani := ani s; output := output s |}.

Definition set_ylim (l : float * float) (s : system) : system :=
  {| db_connection := db_connection s; readings := readings s;
     timestamps := timestamps s;
     ax_xlim := ax_xlim s; ax_ylim := l; ax_hlines := ax_hlines s;
     line_data := line_data s; ani := ani s; output := output s |}.

Definition set_data (d : list float * list float) (s : system) : system :=
  {| db_connection := db_connection s; readings := readings s;
     timestamps := timestamps s;
     ax_xlim := ax_xlim s; ax_ylim := ax_ylim s; ax_hlines := ax_hlines s;
     line_data := d; ani := ani s; output := output s |}.

Definition set_ani (a : option Z) (s : system) : system :=
  {| db_connection := db_connection s; readings := readings s;
     timestamps := timestamps s;
     ax_xlim := ax_xlim s; ax_ylim := ax_ylim s; ax_hlines := ax_hlines s;
     line_data := line_data s; ani := a; output := output s |}.

Definition emit (e : event) (s : system) : system :=
  {| db_connection := db_connection s; readings := readings s;
     timestamps := timestamps s;
     ax_xlim := ax_xlim s; ax_ylim := ax_ylim s; ax_hlines := ax_hlines s;
     line_data := line_data s; ani := ani s; output := output s ++ [e] |}.

(** ** The monad of methods: state of [self] plus exceptions *)

Definition py (A : Type) : Type := system -> outcome A * system.

Definition ret {A} (a : A) : py A := fun s => (Returned a, s).

Definition raise {A} (e : exn) : py A := fun s => (Raised e, s).

Definition bind {A B} (m : py A) (k : A -> py B) : py B :=
  fun s =>
    match m s with
    | (Returned a, s') => k a s'
    | (Raised e, s') => (Raised e, s')
    end.

Definition get : py system := fun s => (Returned s, s).

Definition modify (f : system -> system) : py unit := fun s => (Returned tt, f s).

Definition lift {A} (o : outcome A) : py A := fun s => (o, s).

Notation "x <- m ;; k" := (bind m (fun x => k))
  (at level 61, m at next level, right associativity).
Notation "m ;; k" := (bind m (fun _ => k))
  (at level 61, right associativity).

Definition print (m : message) : py unit := modify (emit (Print m)).

(** A list comprehension whose element expression may raise. *)
Fixpoint comprehension {A B} (f : A -> outcome B) (xs : list A) : outcome (list B) :=
  match xs with
  | [] => Returned []
  | x :: rest =>
      match f x with
      | Raised e => Raised e
      | Returned y =>
          match comprehension f rest with
          | Raised e => Raised e
          | Returned ys => Returned (y :: ys)
          end
      end
  end.

(** [(a - b).total_seconds()] on two elements of [self.timestamps]. *)
Definition seconds_between (a b : stamp) : outcome float :=
  match a, b with
  | At x, At y => Returned (total_seconds x y)
  | Seed, Seed =>
      Raised (Exception "AttributeError" "'int' object has no attribute 'total_seconds'")
  | _, _ => Raised (Exception "TypeError" "unsupported operand type(s) for -")
  end.

(** ** What the environment supplies *)

(** The points of one loop iteration at which an exception can be raised:
    its calls, and the point between the two appends of lines 113-114, where
    an interrupt delivered once [readings.append] has returned finds the
    first list one item longer than the second. An interrupt delivered
    anywhere else in the body meets the same state as one raised by the
    call that follows. *)
Inductive call :=
| AtClock      (* time.time()            line 106 *)
| AtSample     (* np.random.uniform      line 108 *)
| AtNow        (* datetime.datetime.now  line 110 *)
| AtStamp      (* after line 113, before timestamps.append of line 114 *)
| AtCursor     (* db_connection.cursor   line 117 *)
| AtExecute    (* cursor.execute         line 118 *)
| AtCommit     (* db_connection.commit   line 128 *)
| AtPrint      (* strftime and the prints, lines 131-137 *)
| AtPause.     (* plt.pause(5)           line 140 *)

Definition call_eqb (a b : call) : bool :=
  match a, b with
  | AtClock, AtClock | AtSample, AtSample | AtNow, AtNow | AtStamp, AtStamp
  | AtCursor, AtCursor | AtExecute, AtExecute | AtCommit, AtCommit
  | AtPrint, AtPrint | AtPause, AtPause => true
  | _, _ => false
  end.

(** The calls of the handlers and of the [finally] clause that can raise. *)
Inductive exit_call :=
| AtHandlerPrint  (* the print of a handler, lines 143 and 145 *)
| AtToCsv         (* df.to_csv             line 81  *)
| AtExportPrint   (* the print of line 150 *)
| AtClose         (* db_connection.close   line 152 *)
| AtEndPrint      (* the print of line 153 *)
| AtPltClose.     (* plt.close             line 154 *)

Definition exit_call_eqb (a b : exit_call) : bool :=
  match a, b with
  | AtHandlerPrint, AtHandlerPrint | AtToCsv, AtToCsv
  | AtExportPrint, AtExportPrint | AtClose, AtClose | AtEndPrint, AtEndPrint
  | AtPltClose, AtPltClose => true
  | _, _ => false
  end.

(** One evaluation of the loop test and, if it holds, one run of the loop
    body: the clock reading, the sensor draw, the wall time, the number of
    animation frames the display draws during the pause, and the call, if
    any, at which an exception is raised (a failing collaborator, or the
    operator's Ctrl+C delivered there). The sensor of the file is simulated,
    [np.random.uniform(0, 0.2)]; the script may give any float, as a driver
    in its place could. *)
Record tick_io := {
  io_clock : float;
  io_concentration : float;
  io_now : datetime;
  io_frames : nat;
  io_fault : option (call * exn)
}.

(** A whole session: the clock reading of line 88, the frames drawn by the
    first [plt.pause(0.1)], the iterations, the wall time the export reads
    for its file name, and the calls of the handlers and of the [finally]
    clause that raise, each with its exception. *)
Record world := {
  w_start : float;
  w_first_frames : nat;
  w_ticks : list tick_io;
  w_export_now : datetime;
  w_exit : list (exit_call * exn)
}.

Definition exit_fault (w : world) (c : exit_call) : option exn :=
  option_map snd (find (fun p => exit_call_eqb (fst p) c) (w_exit w)).

(** The module-level names a method looks up when it runs. The file imports
    [datetime], [numpy], [sqlite3], [matplotlib] and [pandas]; it has no
    [import time], so [time] resolves only where the namespace the module
    runs in provides it. [shipped] is the file as it stands. *)
Record globals := { g_time : bool }.

Definition shipped : globals := {| g_time := false |}.

(** A call that returns [v] unless the script makes it raise. *)
Definition perform {A} (io : tick_io) (c : call) (v : A) : py A :=
  match io_fault io with
  | Some (c', e) => if call_eqb c c' then raise e else ret v
  | None => ret v
  end.

(** A call of the handlers or of the [finally] clause. *)
Definition perform_exit (w : world) (c : exit_call) : py unit :=
  match exit_fault w c with
  | Some e => raise e
  | None => ret tt
  end.

(** ** The class [AsbestosMonitoringSystem] *)

(** [setup_database], lines 35-46: the table is created if it is missing and
    the transaction committed; no row is written. *)
Definition setup_database (c : connection) : connection :=
  {| conn_open := conn_open c; conn_pending := [];
     conn_committed := conn_committed c ++ conn_pending c |}.

(** [__init__]: the connection is opened and the table created, both lists
    are seeded with [0], and the plot is set up with its two threshold lines
    and its initial limits. *)
Definition init : system :=
  {| db_connection :=
       setup_database
         {| conn_open := true; conn_pending := []; conn_committed := [] |};
     readings := [0%float];
     timestamps := [Seed];
     ax_xlim := (0%float, 60%float);
     ax_ylim := (0%float, 0.15%float);
     ax_hlines := [0.01%float; 0.1%float];
     line_data := ([0%float], [0%float]);
     ani := None;
     output := [] |}.

(** [calculate_risk_level], lines 48-54. It does not read or write [self]. *)
Definition calculate_risk_level (concentration : float) : string :=
  if (concentration <? 0.01)%float then "Low"
  else if (concentration <? 0.1)%float then "Medium"
  else "High".

(** [ax.set_xlim] and [ax.set_ylim]: a limit that is infinite or NaN is
    refused with [ValueError], and the axis keeps the limits it had. *)
Definition finite_limits (l : float * float) : bool :=
  is_finite (fst l) && is_finite (snd l).

Definition ax_set_xlim (l : float * float) : py unit :=
  if finite_limits l then modify (set_xlim l)
  else raise (Exception "ValueError" "Axis limits cannot be NaN or Inf").

Definition ax_set_ylim (l : float * float) : py unit :=
  if finite_limits l then modify (set_ylim l)
  else raise (Exception "ValueError" "Axis limits cannot be NaN or Inf").

(** [update_plot], lines 56-71. The [frame] argument is not used. *)
Definition update_plot : py unit :=
  s <- get ;;
  if (1 <? List.length (timestamps s))%nat then
    let first := nth 1 (timestamps s) Seed in
    current_time <- lift (seconds_between (last (timestamps s) Seed) first) ;;
    ax_set_xlim (max2 0 (current_time - 60), (current_time + 5)%float) ;;
    plot_times <-
      lift (comprehension (fun t => seconds_between t first) (tl (timestamps s))) ;;
    modify (set_data (plot_times, tl (readings s))) ;;
    current_max <- lift (py_max (readings s)) ;;
    if (snd (ax_ylim s) <? current_max)%float
    then ax_set_ylim (0%float, (current_max * 1.1)%float)
    else ret tt
  else ret tt.

(** [pd.DataFrame] of four columns given as lists: the rows pair the columns
    up position by position, and columns of different lengths are refused. *)
Fixpoint zip_rows (ts : list stamp) (ls : list string) (cs : list float)
    (rs : list string) : list row :=
  match ts, ls, cs, rs with
  | t :: ts', l :: ls', c :: cs', r :: rs' =>
      {| r_timestamp := t; r_location := l; r_concentration := c;
         r_risk_level := r |} :: zip_rows ts' ls' cs' rs'
  | _, _, _, _ => []
  end.

Definition data_frame (ts : list stamp) (ls : list string) (cs : list float)
    (rs : list string) : outcome frame :=
  if ((List.length ts =? List.length ls) && (List.length ls =? List.length cs)
      && (List.length cs =? List.length rs))%nat
  then Returned {| columns := ["Timestamp"; "Location"; "Concentration"; "Risk_Level"];
                   records := zip_rows ts ls cs rs |}
  else Raised (Exception "ValueError" "All arrays must be of the same length").

(** [export_to_csv], lines 73-82; [now] is the wall time read for the name
    and [failure] the exception of [df.to_csv], when it raises one. *)
Definition export_to_csv (location : string) (now : datetime)
    (failure : option exn) : py string :=
  s <- get ;;
  df <- lift (data_frame
                (tl (timestamps s))
                (repeat location (List.length (timestamps s) - 1)%nat)
                (tl (readings s))
                (map calculate_risk_level (tl (readings s)))) ;;
  let filename := "asbestos_readings_" ++ strftime_compact now ++ ".csv" in
  match failure with
  | Some e => raise e
  | None => modify (emit (ToCsv filename df))
  end ;;
  ret filename.

(** *** The collaborators' calls *)

Definition db_insert (r : row) (c : connection) : connection :=
  {| conn_open := conn_open c; conn_pending := conn_pending c ++ [r];
     conn_committed := conn_committed c |}.

Definition db_commit (c : connection) : connection :=
  {| conn_open := conn_open c; conn_pending := [];
     conn_committed := conn_committed c ++ conn_pending c |}.

Definition db_closed (c : connection) : connection :=
  {| conn_open := false; conn_pending := []; conn_committed := conn_committed c |}.

(** [self.db_connection.cursor()]: refused on a closed connection. *)
Definition cursor (io : tick_io) : py unit :=
  s <- get ;;
  if conn_open (db_connection s) then perform io AtCursor tt
  else raise (Exception "ProgrammingError" "Cannot operate on a closed database.").

Definition execute_insert (io : tick_io) (r : row) : py unit :=
  perform io AtExecute tt ;;
  modify (fun s => set_db_connection (db_insert r (db_connection s)) s).

Definition commit (io : tick_io) : py unit :=
  perform io AtCommit tt ;;
  modify (fun s => set_db_connection (db_commit (db_connection s)) s).

Definition close : py unit :=
  modify (fun s => emit DbClose (set_db_connection (db_closed (db_connection s)) s)).

(** The frames the display draws while its event loop runs: the timer of
    the animation calls [update_plot] from inside the loop of the window
    toolkit. An exception raised by the callback is reported there (its
    traceback is printed) and ends the drawing; it does not reach the caller
    of [plt.pause]. On a display without an event loop no frame is drawn.
    Where [plt.pause] itself raises, whatever the cause, the script raises
    at [AtPause]. *)
Fixpoint draw_frames (n : nat) : py unit :=
  match n with
  | O => ret tt
  | S n' =>
      fun s =>
        match update_plot s with
        | (Returned _, s') => draw_frames n' s'
        | (Raised _, s') => (Returned tt, s')
        end
  end.

(** [plt.pause]: the display's event loop runs, and with it the animation's
    callback [update_plot], as many times as its timer fires. *)
Definition plt_pause (frames : nat) : py unit :=
  modify (emit PltPause) ;; draw_frames frames.

(** *** [real_time_monitoring], lines 84-154 *)

(** The loop body, lines 107-140. *)
Definition tick (location : string) (io : tick_io) : py unit :=
  concentration <- perform io AtSample (io_concentration io) ;;
  let risk_level := calculate_risk_level concentration in
  current_time <- perform io AtNow (io_now io) ;;
  modify (fun s => set_readings (readings s ++ [concentration]) s) ;;
  perform io AtStamp tt ;;
  modify (fun s => set_timestamps (timestamps s ++ [At current_time]) s) ;;
  cursor io ;;
  execute_insert io {| r_timestamp := At current_time; r_location := location;
                       r_concentration := concentration;
                       r_risk_level := risk_level |} ;;
  commit io ;;
  perform io AtPrint tt ;;
  print (MsgTime (strftime_display current_time)) ;;
  print (MsgLocation location) ;;
  print (MsgConcentration concentration) ;;
  print (MsgRiskLevel risk_level) ;;
  (if (risk_level =? "High")%string then print MsgHighRiskWarning else ret tt) ;;
  print MsgRule ;;
  plt_pause (io_frames io) ;;
  perform io AtPause tt.

(** The [while] loop, lines 106-140. The script is consumed one [tick_io] per
    evaluation of the test. The result is the way the loop ended, or [None]
    while it is still running when the script ends, with the state reached. *)
Fixpoint monitoring_loop (location : string) (end_time : float)
    (script : list tick_io) (s : system) : option (outcome unit) * system :=
  match script with
  | [] => (None, s)
  | io :: rest =>
      match perform io AtClock (io_clock io) s with
      | (Raised e, s1) => (Some (Raised e), s1)
      | (Returned now, s1) =>
          if (now <? end_time)%float then
            match tick location io s1 with
            | (Returned _, s2) => monitoring_loop location end_time rest s2
            | (Raised e, s2) => (Some (Raised e), s2)
            end
          else (Some (Returned tt), s1)
      end
  end.

(** Lines 85-103, before the [try]. [60 * duration_minutes] is a multiple of 5,
    so the true division of line 92 rounds that integer quotient. The
    animation refuses a negative frame count with [ValueError] (the text is
    the library's): the constructor raises, [self.ani] is not assigned and
    the window is not shown. *)
Definition session_setup (g : globals) (location : string) (duration_minutes : Z)
    (w : world) : py float :=
  print (MsgStarting location) ;;
  print MsgPressCtrlC ;;
  start_time <-
    (if g_time g then ret (w_start w)
     else raise (Exception "NameError" "name 'time' is not defined")) ;;
  seconds <- lift (float_of_int (duration_minutes * 60)) ;;
  let end_time := (start_time + seconds)%float in
  quotient <- lift (float_of_int (duration_minutes * 60 / 5)) ;;
  frame_count <- lift (int_of_float quotient) ;;
  (if frame_count <? 0
   then raise (Exception "ValueError"
                 "Stop argument for islice() must be None or an integer: 0 <= x <= sys.maxsize.")
   else ret tt) ;;
  modify (set_ani (Some frame_count)) ;;
  modify (emit PltShow) ;;
  plt_pause (w_first_frames w) ;;
  ret end_time.

(** The two [except] clauses, lines 142-145, applied to the way the loop
    ended. *)
Definition handlers (w : world) (r : outcome unit) : py unit :=
  match r with
  | Returned _ => ret tt
  | Raised KeyboardInterrupt =>
      perform_exit w AtHandlerPrint ;; print MsgStoppedByUser
  | Raised (Exception _ msg) =>
      perform_exit w AtHandlerPrint ;; print (MsgError msg)
  | Raised e => raise e
  end.

(** The [finally] clause, lines 146-154. An exception of the export or of
    a later call leaves the clause at once: the calls behind it are not
    made. *)
Definition cleanup (location : string) (w : world) : py unit :=
  s <- get ;;
  (if (1 <? List.length (readings s))%nat then
     csv_file <- export_to_csv location (w_export_now w) (exit_fault w AtToCsv) ;;
     perform_exit w AtExportPrint ;;
     print (MsgExported csv_file)
   else ret tt) ;;
  perform_exit w AtClose ;;
  close ;;
  perform_exit w AtEndPrint ;;
  print MsgSessionEnded ;;
  perform_exit w AtPltClose ;;
  modify (emit PltClose).

(** [try: body finally: fin]: [fin] runs however [body] ends, and an exception
    of [fin] replaces the outcome of [body]. *)
Definition finally {A} (body : py A) (fin : py unit) : py A :=
  fun s =>
    match body s with
    | (r, s1) =>
        match fin s1 with
        | (Returned _, s2) => (r, s2)
        | (Raised e, s2) => (Raised e, s2)
        end
    end.

(** The method as a whole. [None] is a session still in its loop when the
    script ends: the [finally] clause has not run yet. *)
Definition real_time_monitoring (g : globals) (location : string)
    (duration_minutes : Z) (w : world) (s : system)
    : option (outcome unit) * system :=
  match session_setup g location duration_minutes w s with
  | (Raised e, s1) => (Some (Raised e), s1)
  | (Returned end_time, s1) =>
      match monitoring_loop location end_time (w_ticks w) s1 with
      | (None, s2) => (None, s2)
      | (Some r, s2) =>
          let (r', s3) := finally (handlers w r) (cleanup location w) s2 in
          (Some r', s3)
      end
  end.

(** ** [main], lines 156-171 *)

(** Lines 164-168: the answer to the duration prompt, or ["60"] when it is
    empty, is parsed by [int]; [ValueError] gives 60 and a notice. *)
Definition read_duration (u : unicode) (answer : text) : Z * list event :=
  match py_int u (match answer with [] => text_of "60" | _ => answer end) with
  | Some n => (n, [])
  | None => (60, [Print MsgInvalidDuration])
  end.

Definition main (g : globals) (u : unicode) (location_answer : string)
    (duration_answer : text) (w : world) : option (outcome unit) * system :=
  let system := init in
  let location := location_answer in
  let (duration, notice) := read_duration u duration_answer in
  real_time_monitoring g location duration w
    (fold_left (fun s e => emit e s) notice system).
(** ** Vocabulary of the properties *)

(** How far one run of the loop body gets: before line 113 (nothing stored),
    between the two appends (the reading stored without its timestamp), past
    both appends, past the INSERT, or past the COMMIT. *)
Inductive stage := Unsampled | HalfStored | Stored | Inserted | Committed.

Definition tick_stage (io : tick_io) (is_open : bool) : stage :=
  match io_fault io with
  | Some (AtSample, _) | Some (AtNow, _) => Unsampled
  | Some (AtStamp, _) => HalfStored
  | Some (AtCursor, _) | Some (AtExecute, _) => Stored
  | Some (AtCommit, _) => if is_open then Inserted else Stored
  | _ => if is_open then Committed else Stored
  end.

(** The row a tick writes. *)
Definition tick_row (location : string) (io : tick_io) : row :=
  {| r_timestamp := At (io_now io); r_location := location;
     r_concentration := io_concentration io;
     r_risk_level := calculate_risk_level (io_concentration io) |}.

(** Events other than the export and the release of the store. *)
Definition quiet (e : event) : bool :=
  match e with ToCsv _ _ | DbClose => false | _ => true end.

Definition is_export (e : event) : bool :=
  match e with ToCsv _ _ => true | _ => false end.

Definition is_db_close (e : event) : bool :=
  match e with DbClose => true | _ => false end.

Definition count (p : event -> bool) (l : list event) : nat :=
  List.length (filter p l).

(** The rows the export builds from the two lists, seed left out. *)
Definition buffer_rows (location : string) (s : system) : list row :=
  zip_rows (tl (timestamps s))
           (repeat location (List.length (timestamps s) - 1)%nat)
           (tl (readings s))
           (map calculate_risk_level (tl (readings s))).

Definition is_at (t : stamp) : bool :=
  match t with At _ => true | Seed => false end.

(** The seed at index 0 and datetimes behind it, and a reading for each. *)
Definition shaped (s : system) : bool :=
  match timestamps s with
  | Seed :: rest => forallb is_at rest
  | _ => false
  end && (List.length (readings s) =? List.length (timestamps s))%nat.

(** A clock that never steps back between two consecutive readings. *)
Fixpoint nondecreasing (l : list datetime) : bool :=
  match l with
  | a :: (b :: _) as rest => dt_leb a b && nondecreasing rest
  | _ => true
  end.

Definition stamp_of (io : tick_io) : stamp := At (io_now io).

(** The name and the frame of the export, and what the [finally] clause
    emits on an object whose two lists have the same length when none of
    its calls raises. *)
Definition export_name (w : world) : string :=
  "asbestos_readings_" ++ strftime_compact (w_export_now w) ++ ".csv".

Definition export_frame (location : string) (s : system) : frame :=
  {| columns := ["Timestamp"; "Location"; "Concentration"; "Risk_Level"];
     records := buffer_rows location s |}.

Definition flush_events (location : string) (w : world) (s : system) : list event :=
  ((if (1 <? List.length (readings s))%nat
    then [ToCsv (export_name w) (export_frame location s);
          Print (MsgExported (export_name w))]
    else []) ++ [DbClose; Print MsgSessionEnded; PltClose])%list.

(** The namespace in which [time] resolves. *)
Definition with_time : globals := {| g_time := true |}.

(** *** Sample sessions *)

Definition at_second (sec : Z) : datetime :=
  {| year := 2024; month := 3; day := 1; hour := 9; minute := 0;
     second := sec; microsecond := 0 |}.

Definition sample_tick (clock concentration : float) (sec : Z)
    (fault : option (call * exn)) : tick_io :=
  {| io_clock := clock; io_concentration := concentration;
     io_now := at_second sec; io_frames := 1; io_fault := fault |}.

(** One minute planned; three readings, then the clock passes the end. *)
Definition world_timeout : world :=
  {| w_start := 1000; w_first_frames := 1;
     w_ticks := [sample_tick 1000 0.005 0 None; sample_tick 1005 0.02 5 None;
                 sample_tick 1010 0.15 10 None; sample_tick 1060 0.08 60 None];
     w_export_now := at_second 59; w_exit := [] |}.

(** Ctrl+C during the pause of the second tick. *)
Definition world_cancelled : world :=
  {| w_start := 1000; w_first_frames := 1;
     w_ticks := [sample_tick 1000 0.005 0 None;
                 sample_tick 1005 0.02 5 (Some (AtPause, KeyboardInterrupt));
                 sample_tick 1010 0.15 10 None];
     w_export_now := at_second 12; w_exit := [] |}.

(** The INSERT of the second tick fails; a third tick is scripted after it. *)
Definition world_write_fault : world :=
  {| w_start := 1000; w_first_frames := 1;
     w_ticks := [sample_tick 1000 0.005 0 None;
                 sample_tick 1005 0.02 5
                   (Some (AtExecute, Exception "OperationalError" "disk I/O error"));
                 sample_tick 1010 0.15 10 None;
                 sample_tick 1060 0.08 60 None];
     w_export_now := at_second 12; w_exit := [] |}.

(** A negative sample on the second of three ticks. *)
Definition world_negative : world :=
  {| w_start := 1000; w_first_frames := 1;
     w_ticks := [sample_tick 1000 0.005 0 None; sample_tick 1005 (-0.01) 5 None;
                 sample_tick 1010 0.15 10 None; sample_tick 1060 0.08 60 None];
     w_export_now := at_second 59; w_exit := [] |}.

(** Two-digit fields print in the order of their values; checked over the
    hundred values by evaluation. *)
Definition pad2_table_ok : bool :=
  forallb (fun i => forallb (fun j =>
    match String.compare (pad2 (Z.of_nat i)) (pad2 (Z.of_nat j)), (i ?= j)%nat with
    | Eq, Eq | Lt, Lt | Gt, Gt => true
    | _, _ => false
    end) (seq 0 100)) (seq 0 100).

(** The status lines of a tick that runs to its prints. *)
Definition status_lines (location : string) (io : tick_io) : list event :=
  ([Print (MsgTime (strftime_display (io_now io)));
    Print (MsgLocation location);
    Print (MsgConcentration (io_concentration io));
    Print (MsgRiskLevel (calculate_risk_level (io_concentration io)))]
   ++ (if (calculate_risk_level (io_concentration io) =? "High")%string
       then [Print MsgHighRiskWarning] else [])
   ++ [Print MsgRule])%list.

(** *** The specification's reading of three behaviours *)

(** "A tick whose sample is negative is rejected: the sample is neither
    appended to the buffer nor written to the store." *)
Definition rejects_negative_sample (location : string) (io : tick_io)
    (s : system) : Prop :=
  (io_concentration io <? 0)%float = true ->
  readings (snd (tick location io s)) = readings s /\
  timestamps (snd (tick location io s)) = timestamps s /\
  db_connection (snd (tick location io s)) = db_connection s.

(** "After every tick the two lists have equal length." *)
Definition same_length_after_tick (location : string) (io : tick_io)
    (s : system) : Prop :=
  List.length (readings s) = List.length (timestamps s) ->
  List.length (readings (snd (tick location io s)))
  = List.length (timestamps (snd (tick location io s))).

(** The calls of a tick that write to the store. *)
Definition is_write (c : call) : bool :=
  match c with AtCursor | AtExecute | AtCommit => true | _ => false end.

Definition write_fails (io : tick_io) : bool :=
  match io_fault io with
  | Some (c, Exception _ _) => is_write c
  | _ => false
  end.

(** "If the write of a tick fails, the loop continues to the next tick." *)
Definition continues_after_write_failure (location : string) (end_time : float)
    (io : tick_io) (rest : list tick_io) (s : system) : Prop :=
  write_fails io = true -> (io_clock io <? end_time)%float = true ->
  monitoring_loop location end_time (io :: rest) s
  = monitoring_loop location end_time rest (snd (tick location io s)).

(** An excerpt of the Unicode database: the blanks beyond ASCII, and four of
    the ranges of decimal digits (Arabic-Indic, extended Arabic-Indic,
    Devanagari, fullwidth). *)
Definition unicode_excerpt : unicode :=
  {| uni_isspace := fun c =>
       existsb (Z.eqb c) [133; 160; 5760; 8232; 8233; 8239; 8287; 12288]
       || (8192 <=? c) && (c <=? 8202);
     uni_decimal := fun c =>
       if (1632 <=? c) && (c <=? 1641) then Some (c - 1632)
       else if (1776 <=? c) && (c <=? 1785) then Some (c - 1776)
       else if (2406 <=? c) && (c <=? 2415) then Some (c - 2406)
       else if (65296 <=? c) && (c <=? 65305) then Some (c - 65296)
       else None |}.

(** "An answer that is not an integer, or an integer [<= 0], is rejected (no
    session runs) or replaced by the default of 60 minutes." A session runs
    when the call gets through its set-up to the sampling loop. *)
Definition invalid_or_non_positive (u : unicode) (answer : text) : Prop :=
  match py_int u answer with
  | None => True
  | Some n => n <= 0
  end.

Definition session_runs (g : globals) (location : string) (duration_minutes : Z)
    (w : world) (s : system) : bool :=
  match fst (session_setup g location duration_minutes w s) with
  | Returned _ => true
  | Raised _ => false
  end.

(** The object as [main] hands it to [real_time_monitoring]. *)
Definition main_object (u : unicode) (answer : text) : system :=
  fold_left (fun s e => emit e s) (snd (read_duration u answer)) init.

Definition rejected_or_defaulted (g : globals) (u : unicode) (location : string)
    (answer : text) (w : world) : Prop :=
  invalid_or_non_positive u answer ->
  session_runs g location (fst (read_duration u answer)) w (main_object u answer)
  = false \/
  fst (read_duration u answer) = 60.

(** No exception falls between the two appends of this tick. *)
Definition in_step (io : tick_io) : bool :=
  match io_fault io with
  | Some (AtStamp, _) => false
  | _ => true
  end.

(** The timeout session whose export cannot write its file, and the
    session in which Ctrl+C falls between the two appends of the second
    tick. *)
Definition world_export_fault : world :=
  {| w_start := 1000; w_first_frames := 1;
     w_ticks := [sample_tick 1000 0.005 0 None; sample_tick 1005 0.02 5 None;
                 sample_tick 1010 0.15 10 None; sample_tick 1060 0.08 60 None];
     w_export_now := at_second 59;
     w_exit := [(AtToCsv, Exception "PermissionError" "[Errno 13] Permission denied")] |}.

Definition world_torn_append : world :=
  {| w_start := 1000; w_first_frames := 1;
     w_ticks := [sample_tick 1000 0.005 0 None;
                 sample_tick 1005 0.02 5 (Some (AtStamp, KeyboardInterrupt));
                 sample_tick 1010 0.15 10 None];
     w_export_now := at_second 12; w_exit := [] |}.

(** A tick that passes the loop test and none of whose calls raises. *)
Definition admitted (end_time : float) (io : tick_io) : bool :=
  match io_fault io with
  | None => (io_clock io <? end_time)%float
  | Some _ => false
  end.

(** ** Vocabulary of further properties *)

(** The order of the three levels. *)
Definition risk_rank (level : string) : nat :=
  if (level =? "Low")%string then 0
  else if (level =? "Medium")%string then 1
  else 2.

(** The same second: all fields equal but the microseconds. *)
Definition same_second (a b : datetime) : Prop :=
  year a = year b /\ month a = month b /\ day a = day b /\
  hour a = hour b /\ minute a = minute b /\ second a = second b.

(** An object whose two lists are seeded and equally long, as used to try
    the export. *)
Definition two_readings : system :=
  {| db_connection := db_connection init;
     readings := [0; 0.005; 0.15]%float;
     timestamps := [Seed; At (at_second 0); At (at_second 5)];
     ax_xlim := ax_xlim init; ax_ylim := ax_ylim init;
     ax_hlines := ax_hlines init; line_data := line_data init;
     ani := None; output := [] |}.

(** What one run of the loop body prints and how it ends, on an object whose
    lists are well shaped: read off the call that raises, if any, and off
    the state of the connection. *)
Definition tick_events (location : string) (io : tick_io) (is_open : bool)
    : list event :=
  match tick_stage io is_open with
  | Committed =>
      match io_fault io with
      | Some (AtPrint, _) => []
      | _ => status_lines location io ++ [PltPause]
      end
  | _ => []
  end.

Definition tick_outcome (io : tick_io) (is_open : bool) : outcome unit :=
  match io_fault io with
  | Some (AtSample, e) | Some (AtNow, e) | Some (AtStamp, e) => Raised e
  | Some (AtClock, _) | None =>
      if is_open then Returned tt
      else Raised (Exception "ProgrammingError" "Cannot operate on a closed database.")
  | Some (_, e) =>
      if is_open then Raised e
      else Raised (Exception "ProgrammingError" "Cannot operate on a closed database.")
  end.

(** The object without its view: everything but the axis limits and the
    data of the plotted line. *)
Definition record_of (s : system)
    : connection * list float * list stamp * option Z * list float * list event :=
  (db_connection s, readings s, timestamps s, ani s, ax_hlines s, output s).

(** A script in which the display draws no frame at all. *)
Definition still (io : tick_io) : tick_io :=
  {| io_clock := io_clock io; io_concentration := io_concentration io;
     io_now := io_now io; io_frames := 0; io_fault := io_fault io |}.

Definition without_frames (w : world) : world :=
  {| w_start := w_start w; w_first_frames := 0;
     w_ticks := map still (w_ticks w); w_export_now := w_export_now w;
     w_exit := w_exit w |}.

(** No call that writes to the store raises during this tick. *)
Definition no_write_fault (io : tick_io) : bool :=
  match io_fault io with
  | Some (c, _) => negb (is_write c)
  | None => true
  end.

Definition is_warning (e : event) : bool :=
  match e with Print MsgHighRiskWarning => true | _ => false end.

(** The ticks whose sample is classified High. *)
Definition is_high (io : tick_io) : bool :=
  negb (io_concentration io <? 0.1)%float.

(** What the handlers print for the way the loop ended, and how the call
    ends after them. *)
Definition handler_events (r : outcome unit) : list event :=
  match r with
  | Raised KeyboardInterrupt => [Print MsgStoppedByUser]
  | Raised (Exception _ msg) => [Print (MsgError msg)]
  | _ => []
  end.

Definition handled (r : outcome unit) : outcome unit :=
  match r with
  | Raised (BaseException cls) => Raised (BaseException cls)
  | _ => Returned tt
  end.

(** A session still in its loop: two ticks done, the end time not reached. *)
Definition world_running : world :=
  {| w_start := 1000; w_first_frames := 1;
     w_ticks := [sample_tick 1000 0.005 0 None; sample_tick 1005 0.15 5 None];
     w_export_now := at_second 59; w_exit := [] |}.

(** The loop test reads the clock without an exception. *)
Definition clock_read (io : tick_io) : bool :=
  match io_fault io with
  | Some (AtClock, _) => false
  | _ => true
  end.

(** Seconds from [first] to a timestamp of the buffer. *)
Definition seconds_since (first : datetime) (t : stamp) : float :=
  match t with
  | At x => total_seconds x first
  | Seed => 0
  end.

(** What [update_plot] plots on an object whose first reading was taken at
    [first]: the times of the points, the window of the time axis they give,
    and the largest entry of [readings], the one [max] returns. *)
Definition plot_times (first : datetime) (s : system) : list float :=
  map (seconds_since first) (tl (timestamps s)).

Definition plot_window (xs : list float) : float * float :=
  (max2 0%float (last xs 0%float - 60)%float, (last xs 0%float + 5)%float).

Definition readings_max (s : system) : float :=
  match readings s with
  | [] => 0%float
  | r0 :: rs => fold_left max2 rs r0
  end.

Definition limits_error : exn :=
  Exception "ValueError" "Axis limits cannot be NaN or Inf".

(** An object whose last reading is infinite. *)
Definition infinite_reading : system :=
  {| db_connection := db_connection init;
     readings := [0; 0.005; infinity]%float;
     timestamps := [Seed; At (at_second 0); At (at_second 5)];
     ax_xlim := ax_xlim init; ax_ylim := ax_ylim init;
     ax_hlines := ax_hlines init; line_data := line_data init;
     ani := None; output := [] |}.

(** The ASCII characters [int] can accept in a base-10 literal or drop
    around it. *)
Definition numeric_char (c : Z) : bool :=
  is_digit c || is_space c || (c =? 95) || (c =? 43) || (c =? 45).

(** A character that no integer literal can hold, wherever it stands. *)
Definition unacceptable (u : unicode) (c : Z) : bool :=
  if c <? 127 then negb (numeric_char c)
  else negb (uni_isspace u c)
       && match uni_decimal u c with Some _ => false | None => true end.
(** * Properties *)

(** ** Comparison of binary64 floats *)

Lemma SFcompare_antisym (f1 f2 : spec_float) :
  SFcompare f2 f1 = option_map CompOpp (SFcompare f1 f2).
Proof.
  destruct f1 as [s1|s1| |s1 m1 e1], f2 as [s2|s2| |s2 m2 e2]; cbn;
    try reflexivity; try (destruct s1; reflexivity); try (destruct s2; reflexivity);
    try (destruct s1, s2; reflexivity).
  destruct s1, s2; try reflexivity; f_equal;
    rewrite (Z.compare_antisym e1 e2);
    change (Pos.compare_cont Eq m2 m1) with (m2 ?= m1)%positive;
    change (Pos.compare_cont Eq m1 m2) with (m1 ?= m2)%positive;
    rewrite (Pos.compare_antisym m1 m2);
    destruct (e1 ?= e2)%Z; cbn; try reflexivity;
    destruct (m1 ?= m2)%positive; reflexivity.
Qed.

Lemma SFltb_trans (f1 f2 f3 : spec_float) :
  SFltb f1 f2 = true -> SFltb f2 f3 = true -> SFltb f1 f3 = true.
Proof.
  unfold SFltb.
  destruct f1 as [s1|s1| |s1 m1 e1], f2 as [s2|s2| |s2 m2 e2], f3 as [s3|s3| |s3 m3 e3];
    cbn; try discriminate; try (destruct s1; discriminate || reflexivity);
    try (destruct s2; discriminate || (destruct s3; discriminate || reflexivity));
    try (destruct s1, s2; discriminate || (try destruct s3; discriminate || reflexivity));
    try (destruct s1, s3; discriminate || (try destruct s2; discriminate || reflexivity)).
  all: change (Pos.compare_cont Eq m1 m2) with (m1 ?= m2)%positive;
       change (Pos.compare_cont Eq m2 m3) with (m2 ?= m3)%positive;
       change (Pos.compare_cont Eq m1 m3) with (m1 ?= m3)%positive.
  all: destruct s1, s2, s3; try discriminate; try reflexivity.
  all: destruct (Z.compare_spec e1 e2), (Z.compare_spec e2 e3), (Z.compare_spec e1 e3);
       try discriminate; try reflexivity; try lia; subst.
  all: destruct (Pos.compare_spec m1 m2), (Pos.compare_spec m2 m3), (Pos.compare_spec m1 m3);
       cbn; try discriminate; try reflexivity; try lia.
Qed.

(** Two floats are comparable unless one of them is a NaN. *)
Lemma SFcompare_none (f1 f2 : spec_float) :
  SFcompare f1 f2 = None <-> f1 = S754_nan \/ f2 = S754_nan.
Proof.
  destruct f1 as [s1|s1| |s1 m1 e1], f2 as [s2|s2| |s2 m2 e2]; cbn;
    split; intros H; try discriminate; auto;
    try (destruct H; discriminate).
Qed.

Lemma ltb_trans (x y z : float) :
  (x <? y)%float = true -> (y <? z)%float = true -> (x <? z)%float = true.
Proof. rewrite !ltb_spec. apply SFltb_trans. Qed.

(** [x <= y] gives that neither side is a NaN. *)
Lemma leb_comparable (x y : float) :
  (x <=? y)%float = true -> Prim2SF x <> S754_nan /\ Prim2SF y <> S754_nan.
Proof.
  rewrite leb_spec. unfold SFleb. intros H.
  destruct (SFcompare (Prim2SF x) (Prim2SF y)) eqn:E; [|discriminate].
  split; intros N; assert (SFcompare (Prim2SF x) (Prim2SF y) = None)
    by (apply SFcompare_none; auto); congruence.
Qed.

(** On comparable floats, [x < y] fails exactly when [y <= x]. *)
Lemma ltb_negb_leb (x y : float) :
  Prim2SF x <> S754_nan -> Prim2SF y <> S754_nan ->
  (x <? y)%float = negb (y <=? x)%float.
Proof.
  intros Hx Hy. rewrite ltb_spec, leb_spec. unfold SFltb, SFleb.
  rewrite (SFcompare_antisym (Prim2SF x) (Prim2SF y)).
  destruct (SFcompare (Prim2SF x) (Prim2SF y)) as [[ | | ]|] eqn:E; try reflexivity.
  apply SFcompare_none in E. tauto.
Qed.

(** ** The risk classifier *)

Lemma risk_level_cases (c : float) :
  calculate_risk_level c = "Low" \/
  calculate_risk_level c = "Medium" \/
  calculate_risk_level c = "High".
Proof.
  unfold calculate_risk_level.
  destruct (c <? 0.01)%float; [now left|].
  destruct (c <? 0.1)%float; [right; now left | right; now right].
Qed.

(** C1. For every concentration [c >= 0], [calculate_risk_level c] is "Low"
    exactly when [c < 0.01], "Medium" exactly when [0.01 <= c < 0.1] and
    "High" exactly when [c >= 0.1]; the boundary 0.01 is "Medium" and the
    boundary 0.1 is "High" (0.009999 and 0.099999 fall below them). The
    classifier is a total function of its argument alone: it neither reads
    nor writes the state of the object. *)
Theorem calculate_risk_level_thresholds (c : float) :
  (0 <=? c)%float = true ->
  (calculate_risk_level c = "Low" <-> (c <? 0.01)%float = true) /\
  (calculate_risk_level c = "Medium" <->
     (0.01 <=? c)%float = true /\ (c <? 0.1)%float = true) /\
  (calculate_risk_level c = "High" <-> (0.1 <=? c)%float = true) /\
  calculate_risk_level 0.009999 = "Low" /\
  calculate_risk_level 0.01 = "Medium" /\
  calculate_risk_level 0.099999 = "Medium" /\
  calculate_risk_level 0.1 = "High".
Proof.
  intros H0. destruct (leb_comparable _ _ H0) as [_ Hc].
  assert (N1 : Prim2SF 0.01 <> S754_nan) by (vm_compute; discriminate).
  assert (N2 : Prim2SF 0.1 <> S754_nan) by (vm_compute; discriminate).
  assert (T : (0.01 <? 0.1)%float = true) by reflexivity.
  pose proof (ltb_negb_leb c 0.01 Hc N1) as E1.
  pose proof (ltb_negb_leb c 0.1 Hc N2) as E2.
  unfold calculate_risk_level.
  repeat split; try reflexivity.
  - destruct (c <? 0.01)%float; [reflexivity|].
    destruct (c <? 0.1)%float; discriminate.
  - intros ->. reflexivity.
  - destruct (c <? 0.01)%float; [discriminate|].
    symmetry in E1. apply negb_false_iff in E1. exact E1.
  - destruct (c <? 0.01)%float; [discriminate|].
    destruct (c <? 0.1)%float; [reflexivity|discriminate].
  - intros [L1 L2]. rewrite L1 in E1. cbn in E1. rewrite E1, L2. reflexivity.
  - destruct (c <? 0.01)%float; [discriminate|].
    destruct (c <? 0.1)%float; [discriminate|].
    intros _. symmetry in E2. apply negb_false_iff in E2. exact E2.
  - intros L. rewrite L in E2. cbn in E2.
    destruct (c <? 0.01)%float eqn:E3.
    + rewrite (ltb_trans c 0.01 0.1 E3 T) in E2. discriminate.
    + rewrite E2. reflexivity.
Qed.

(** The hypothesis of C1 holds, for instance, at [c = 0.05]. *)
Lemma calculate_risk_level_thresholds_at_0_05 :
  (calculate_risk_level 0.05 = "Low" <-> (0.05 <? 0.01)%float = true) /\
  (calculate_risk_level 0.05 = "Medium" <->
     (0.01 <=? 0.05)%float = true /\ (0.05 <? 0.1)%float = true) /\
  (calculate_risk_level 0.05 = "High" <-> (0.1 <=? 0.05)%float = true) /\
  calculate_risk_level 0.009999 = "Low" /\
  calculate_risk_level 0.01 = "Medium" /\
  calculate_risk_level 0.099999 = "Medium" /\
  calculate_risk_level 0.1 = "High".
Proof. apply (calculate_risk_level_thresholds 0.05). reflexivity. Defined.

(** C10. On every float, negative values, values above 0.2, infinities and
    NaN included, [calculate_risk_level] returns one of the three strings
    "Low", "Medium", "High", and only one of them; every negative
    concentration is mapped to "Low". *)
Theorem calculate_risk_level_total (c : float) :
  (calculate_risk_level c = "Low" \/
   calculate_risk_level c = "Medium" \/
   calculate_risk_level c = "High") /\
  "Low" <> "Medium" /\ "Low" <> "High" /\ "Medium" <> "High" /\
  ((c <? 0)%float = true -> calculate_risk_level c = "Low") /\
  calculate_risk_level (-0.5) = "Low" /\
  calculate_risk_level 0.25 = "High" /\
  calculate_risk_level neg_infinity = "Low" /\
  calculate_risk_level infinity = "High" /\
  calculate_risk_level nan = "High".
Proof.
  split; [apply risk_level_cases|].
  repeat split; try discriminate; try reflexivity.
  intros H. unfold calculate_risk_level.
  rewrite (ltb_trans c 0 0.01 H eq_refl). reflexivity.
Qed.

(** ** Proof tools *)

#[local] Arguments strftime_display : simpl never.
#[local] Arguments strftime_compact : simpl never.
#[local] Arguments calculate_risk_level : simpl never.
#[local] Arguments String.eqb : simpl never.
#[local] Arguments String.append : simpl never.
#[local] Arguments total_seconds : simpl never.

Ltac py_unfold :=
  unfold update_plot, ax_set_xlim, ax_set_ylim, export_to_csv, cursor, execute_insert, commit, close,
    plt_pause, perform, print, bind, ret, raise, get, modify, lift in *.

Ltac splits := repeat match goal with |- _ /\ _ => split end.

Ltac break_match :=
  match goal with
  | |- context [if finite_limits ?l then _ else _] => destruct (finite_limits l) eqn:?
  | |- context [match ?x with _ => _ end] => destruct x eqn:?
  | |- context [if ?x then _ else _] => destruct x eqn:?
  end.

(** ** The live view *)

Lemma update_plot_frame (s : system) :
  let s' := snd (update_plot s) in
  readings s' = readings s /\ timestamps s' = timestamps s /\
  db_connection s' = db_connection s /\ output s' = output s /\
  ani s' = ani s /\ ax_hlines s' = ax_hlines s.
Proof.
  py_unfold. cbn. repeat (break_match; cbn); repeat split; reflexivity.
Qed.

(** C8. Whatever the state of the object, [update_plot] leaves [readings]
    and [timestamps] as they are, whether it returns or raises; what it may
    change is view state only, the axis limits and the data of the plotted
    line: the connection, the animation, the threshold lines and the output
    are untouched as well. *)
Theorem update_plot_preserves_buffer (s : system) :
  readings (snd (update_plot s)) = readings s /\
  timestamps (snd (update_plot s)) = timestamps s /\
  exists xlim ylim data,
    snd (update_plot s) = set_data data (set_ylim ylim (set_xlim xlim s)).
Proof.
  destruct (update_plot_frame s) as (F1 & F2 & F3 & F4 & F5 & F6).
  repeat split; try assumption.
  exists (ax_xlim (snd (update_plot s))), (ax_ylim (snd (update_plot s))),
    (line_data (snd (update_plot s))).
  destruct (snd (update_plot s)); destruct s; cbn in *.
  unfold set_data, set_ylim, set_xlim; cbn. congruence.
Qed.

Lemma draw_frames_frame (n : nat) (s : system) :
  let s' := snd (draw_frames n s) in
  readings s' = readings s /\ timestamps s' = timestamps s /\
  db_connection s' = db_connection s /\ output s' = output s /\
  ani s' = ani s /\ ax_hlines s' = ax_hlines s.
Proof.
  revert s. induction n as [|n IH]; intros s; cbn [draw_frames].
  - repeat split; reflexivity.
  - pose proof (update_plot_frame s) as F.
    destruct (update_plot s) as [[u|e] s1]; cbn [snd] in *.
    + specialize (IH s1). cbn in IH.
      destruct F as (F1 & F2 & F3 & F4 & F5 & F6).
      destruct IH as (I1 & I2 & I3 & I4 & I5 & I6).
      repeat split; congruence.
    + exact F.
Qed.

(** The drawing of a pause never raises: the event loop keeps an exception
    of the callback to itself. *)
Lemma draw_frames_returns (n : nat) (s : system) :
  fst (draw_frames n s) = Returned tt.
Proof.
  revert s. induction n as [|n IH]; intros s; cbn [draw_frames]; [reflexivity|].
  destruct (update_plot s) as [[u|e] s1]; [apply IH | reflexivity].
Qed.

Lemma last_is_at (ts : list stamp) (a d : stamp) :
  forallb is_at (a :: ts) = true -> is_at (last (a :: ts) d) = true.
Proof.
  revert a. induction ts as [|b ts IH]; intros a H.
  - cbn in *. now rewrite andb_true_r in H.
  - change (last (a :: b :: ts) d) with (last (b :: ts) d).
    apply IH. cbn in H. apply andb_true_iff in H. apply H.
Qed.

(** ** One run of the loop body *)

Lemma tick_spec (loc : string) (io : tick_io) (s : system) :
  let st := tick_stage io (conn_open (db_connection s)) in
  let r := fst (tick loc io s) in
  let s' := snd (tick loc io s) in
  readings s' =
    (readings s ++ match st with Unsampled => [] | _ => [io_concentration io] end)%list /\
  timestamps s' =
    (timestamps s
     ++ match st with Unsampled | HalfStored => [] | _ => [stamp_of io] end)%list /\
  db_connection s' =
    match st with
    | Unsampled | HalfStored | Stored => db_connection s
    | Inserted => db_insert (tick_row loc io) (db_connection s)
    | Committed => db_commit (db_insert (tick_row loc io) (db_connection s))
    end /\
  ani s' = ani s /\ ax_hlines s' = ax_hlines s /\
  (exists evs, output s' = (output s ++ evs)%list /\ forallb quiet evs = true) /\
  (st <> Committed -> exists e, r = Raised e).
Proof.
  unfold tick, tick_stage, tick_row, stamp_of. py_unfold.
  destruct (io_fault io) as [[c e]|] eqn:F; [destruct c|]; cbn;
    destruct (conn_open (db_connection s)) eqn:O; cbn;
    try (destruct (calculate_risk_level (io_concentration io) =? "High")%string; cbn);
    try match goal with
    | |- context [draw_frames ?n ?x] =>
        let D := fresh "D" in
        pose proof (draw_frames_frame n x) as D;
        destruct (draw_frames n x) as [[u|e'] s1]; cbn in *;
        destruct D as (D1 & D2 & D3 & D4 & D5 & D6)
    end.
  all: repeat match goal with |- _ /\ _ => split end;
    try assumption; try reflexivity; try congruence;
    try (rewrite app_nil_r; reflexivity);
    try (intros _; eexists; reflexivity);
    try (exists []; rewrite app_nil_r; split; reflexivity);
    try (rewrite ?D4, <- ?app_assoc; eexists; split; reflexivity).
Qed.

(** With no call failing, an open connection and a well-shaped object, the
    body runs to its end. *)
Lemma tick_returns (loc : string) (io : tick_io) (s : system) :
  io_fault io = None -> conn_open (db_connection s) = true -> shaped s = true ->
  fst (tick loc io s) = Returned tt.
Proof.
  intros F O H. unfold tick. py_unfold. rewrite F. cbn. rewrite O. cbn.
  destruct (calculate_risk_level (io_concentration io) =? "High")%string; cbn.
  all: match goal with
       | |- context [draw_frames ?n ?x] =>
           pose proof (draw_frames_returns n x) as R;
           destruct (draw_frames n x) as [[u|e] s1]; cbn in *;
           [reflexivity|discriminate]
       end.
Qed.

Lemma tick_fault_raises (loc : string) (io : tick_io) (s : system)
    (c : call) (e : exn) :
  io_fault io = Some (c, e) -> c <> AtClock ->
  exists e', fst (tick loc io s) = Raised e'.
Proof.
  intros F N. unfold tick. py_unfold. rewrite F.
  destruct c; try congruence; cbn;
    try (eexists; reflexivity);
    destruct (conn_open (db_connection s)); cbn;
    try (eexists; reflexivity);
    destruct (calculate_risk_level (io_concentration io) =? "High")%string; cbn;
    match goal with
    | |- context [draw_frames ?n ?x] =>
        destruct (draw_frames n x) as [[u|e'] s1]; cbn; eexists; reflexivity
    end.
Qed.

(** An exception between the two appends: the reading is stored, its
    timestamp is not, and nothing else has happened. *)
Lemma tick_half (loc : string) (io : tick_io) (s : system) (e : exn) :
  io_fault io = Some (AtStamp, e) ->
  tick loc io s = (Raised e, set_readings (readings s ++ [io_concentration io]) s).
Proof.
  intros F. unfold tick. py_unfold. rewrite F. reflexivity.
Qed.

Lemma tick_clean (loc : string) (io : tick_io) (s : system) :
  io_fault io = None -> conn_open (db_connection s) = true -> shaped s = true ->
  fst (tick loc io s) = Returned tt /\
  readings (snd (tick loc io s)) = (readings s ++ [io_concentration io])%list /\
  timestamps (snd (tick loc io s)) = (timestamps s ++ [stamp_of io])%list /\
  db_connection (snd (tick loc io s))
    = db_commit (db_insert (tick_row loc io) (db_connection s)) /\
  output (snd (tick loc io s)) = (output s ++ status_lines loc io ++ [PltPause])%list.
Proof.
  intros F O H. split; [now apply tick_returns|].
  pose proof (tick_spec loc io s) as T. cbv zeta in T.
  unfold tick_stage in T. rewrite F, O in T.
  destruct T as (T1 & T2 & T3 & _).
  splits; auto.
  unfold tick, status_lines. py_unfold. rewrite F. cbn. rewrite O. cbn.
  destruct (calculate_risk_level (io_concentration io) =? "High")%string; cbn;
    match goal with
    | |- context [draw_frames ?n ?x] =>
        pose proof (draw_frames_frame n x) as D;
        destruct (draw_frames n x) as [[u|e'] s1]; cbn in *;
        destruct D as (D1 & D2 & D3 & D4 & D5 & D6)
    end; rewrite D4, <- !app_assoc; reflexivity.
Qed.

Lemma tick_write_fault (loc : string) (io : tick_io) (s : system)
    (c : call) (e : exn) :
  io_fault io = Some (c, e) -> is_write c = true ->
  conn_open (db_connection s) = true ->
  fst (tick loc io s) = Raised e /\
  readings (snd (tick loc io s)) = (readings s ++ [io_concentration io])%list /\
  timestamps (snd (tick loc io s)) = (timestamps s ++ [stamp_of io])%list /\
  conn_committed (db_connection (snd (tick loc io s)))
    = conn_committed (db_connection s) /\
  output (snd (tick loc io s)) = output s.
Proof.
  intros F W O. unfold tick, stamp_of. py_unfold. rewrite F.
  destruct c; try discriminate; cbn; rewrite O; cbn; splits; reflexivity.
Qed.

(** ** The loop *)

#[local] Arguments float_of_int : simpl never.
#[local] Arguments int_of_float : simpl never.

Lemma perform_spec {A} (io : tick_io) (c : call) (v : A) (s : system) :
  perform io c v s = (Returned v, s) \/ exists e, perform io c v s = (Raised e, s).
Proof.
  unfold perform, raise, ret. destruct (io_fault io) as [[c' e]|]; [|now left].
  destruct (call_eqb c c'); [right; now exists e | now left].
Qed.

Lemma tick_stage_half (io : tick_io) (is_open : bool) :
  tick_stage io is_open = HalfStored -> exists e, io_fault io = Some (AtStamp, e).
Proof.
  unfold tick_stage. destruct (io_fault io) as [[c e]|]; [destruct c|];
    try discriminate; try (destruct is_open; discriminate).
  intros _. now exists e.
Qed.

Section Loop.

Variables (loc : string) (end_time : float).

(** What the loop has done when the script ends or the loop does: [k] ticks
    have stored their sample, [t] of them their timestamp as well (all, or
    all but the last when an exception fell between its two appends), [j] of
    them have committed their row, and nothing was exported or closed. *)
Lemma loop_spec (script : list tick_io) :
  forall s, conn_pending (db_connection s) = [] ->
  let r := fst (monitoring_loop loc end_time script s) in
  let s' := snd (monitoring_loop loc end_time script s) in
  exists k t j,
    (j <= t <= k /\ k <= j + 1 /\ k <= List.length script)%nat /\
    readings s' = (readings s ++ map io_concentration (firstn k script))%list /\
    timestamps s' = (timestamps s ++ map stamp_of (firstn t script))%list /\
    conn_committed (db_connection s') =
      (conn_committed (db_connection s) ++ map (tick_row loc) (firstn j script))%list /\
    conn_open (db_connection s') = conn_open (db_connection s) /\
    ani s' = ani s /\
    (exists evs, output s' = (output s ++ evs)%list /\ forallb quiet evs = true) /\
    (r = None -> conn_pending (db_connection s') = [] /\ j = k /\ k = List.length script) /\
    (t = k \/
     exists io e, nth_error script t = Some io /\ io_fault io = Some (AtStamp, e) /\
                  k = S t /\ r = Some (Raised e)).
Proof.
  induction script as [|io rest IH]; intros s P; cbn.
  - exists 0%nat, 0%nat, 0%nat. cbn. rewrite !app_nil_r.
    repeat split; auto; try lia. exists []. rewrite app_nil_r. auto.
  - assert (Stop : forall r0 : option (outcome unit), r0 <> None ->
      exists k t j : nat,
        (j <= t <= k /\ k <= j + 1 /\ k <= S (List.length rest))%nat /\
        readings s = (readings s ++ map io_concentration (firstn k (io :: rest)))%list /\
        timestamps s = (timestamps s ++ map stamp_of (firstn t (io :: rest)))%list /\
        conn_committed (db_connection s) =
          (conn_committed (db_connection s) ++ map (tick_row loc) (firstn j (io :: rest)))%list /\
        conn_open (db_connection s) = conn_open (db_connection s) /\
        ani s = ani s /\
        (exists evs, output s = (output s ++ evs)%list /\ forallb quiet evs = true) /\
        (r0 = None -> conn_pending (db_connection s) = [] /\ j = k /\ k = S (List.length rest)) /\
        (t = k \/
         exists io' e, nth_error (io :: rest) t = Some io' /\
                       io_fault io' = Some (AtStamp, e) /\ k = S t /\ r0 = Some (Raised e))).
    { intros r0 N. exists 0%nat, 0%nat, 0%nat. cbn. rewrite !app_nil_r.
      repeat split; auto; try lia; try congruence.
      exists []. rewrite app_nil_r. auto. }
    destruct (perform_spec io AtClock (io_clock io) s) as [-> | [e ->]];
      [|apply Stop; discriminate].
    destruct (io_clock io <? end_time)%float; [|apply Stop; discriminate].
    pose proof (tick_spec loc io s) as T. cbn in T.
    pose proof (tick_half loc io s) as TH.
    destruct (tick loc io s) as [r1 s1]. cbn in T.
    destruct T as (T1 & T2 & T3 & T4 & T5 & (evs1 & T6 & Q1) & T7).
    destruct (tick_stage io (conn_open (db_connection s))) eqn:St.
    5: destruct r1 as [u|e].
    5: { (* the tick completed: the loop goes on *)
      assert (P1 : conn_pending (db_connection s1) = []) by (rewrite T3; reflexivity).
      specialize (IH s1 P1). cbn in IH.
      destruct (monitoring_loop loc end_time rest s1) as [r2 s2]. cbn in IH.
      destruct IH as (k & t & j & (B1 & B2 & B3) & I1 & I2 & I3 & I4 & I5
                        & (evs2 & I6 & Q2) & I7 & I8).
      exists (S k), (S t), (S j). cbn [firstn map fst snd nth_error].
      rewrite I1, I2, I3, I4, I5, I6, T1, T2, T3, T4, T6, <- !app_assoc. cbn. rewrite P.
      repeat split; auto; try lia;
        try (match goal with H : _ = None |- _ => apply I7 in H; destruct H as (? & ? & ?) end;
             auto; lia).
      - rewrite <- !app_assoc. reflexivity.
      - exists (evs1 ++ evs2)%list. rewrite forallb_app, Q1, Q2. auto.
      - destruct I8 as [-> | (io' & e & N1 & N2 & -> & N3)]; [now left|].
        right. exists io', e. auto. }
    1-4: destruct (T7 ltac:(discriminate)) as [e E]; subst r1.
    all: cbn [fst snd].
    1: exists 0%nat, 0%nat, 0%nat.
    2: exists 1%nat, 0%nat, 0%nat.
    3-4: exists 1%nat, 1%nat, 0%nat.
    5: exists 1%nat, 1%nat, 1%nat.
    all: cbn [firstn map nth_error];
      rewrite T1, T2, T3, T4, T6, ?app_nil_r; cbn; rewrite ?P, ?app_nil_r.
    all: repeat match goal with |- _ /\ _ => split end;
      auto; try lia; try discriminate; eauto.
    right. unfold tick_stage in St.
    destruct (io_fault io) as [[c e']|] eqn:F;
      [destruct c|]; try discriminate;
      try (destruct (conn_open (db_connection s)); discriminate).
    exists io, e'. splits; auto.
    specialize (TH e' eq_refl). cbn in TH. congruence.
Qed.

Lemma loop_app (pre rest : list tick_io) :
  forall s,
  monitoring_loop loc end_time (pre ++ rest) s =
  match monitoring_loop loc end_time pre s with
  | (None, s1) => monitoring_loop loc end_time rest s1
  | (Some r, s1) => (Some r, s1)
  end.
Proof.
  induction pre as [|io pre IH]; intros s; cbn; [reflexivity|].
  destruct (perform io AtClock (io_clock io) s) as [[now|e] s1]; [|reflexivity].
  destruct (now <? end_time)%float; [|reflexivity].
  destruct (tick loc io s1) as [[u|e] s2]; [apply IH|reflexivity].
Qed.

Lemma loop_buffers (script : list tick_io) :
  forall s,
  exists k t, (t <= k <= t + 1 /\ k <= List.length script)%nat /\
    readings (snd (monitoring_loop loc end_time script s))
      = (readings s ++ map io_concentration (firstn k script))%list /\
    timestamps (snd (monitoring_loop loc end_time script s))
      = (timestamps s ++ map stamp_of (firstn t script))%list /\
    (t = k \/
     exists io e, nth_error script t = Some io /\ io_fault io = Some (AtStamp, e) /\
                  k = S t).
Proof.
  induction script as [|io rest IH]; intros s; cbn [monitoring_loop].
  - exists 0%nat, 0%nat. cbn. rewrite !app_nil_r. splits; auto; lia.
  - destruct (perform_spec io AtClock (io_clock io) s) as [-> | [e ->]].
    2: { exists 0%nat, 0%nat. cbn. rewrite !app_nil_r. splits; auto; lia. }
    destruct (io_clock io <? end_time)%float.
    2: { exists 0%nat, 0%nat. cbn. rewrite !app_nil_r. splits; auto; lia. }
    pose proof (tick_spec loc io s) as T. cbv zeta in T.
    destruct (tick loc io s) as [r1 s1]. cbn [fst snd] in T.
    destruct T as (T1 & T2 & _ & _ & _ & _ & T7).
    destruct (tick_stage io (conn_open (db_connection s))) eqn:St.
    5: destruct r1 as [u|e].
    5: { destruct (IH s1) as (k & t & B & I1 & I2 & I3). exists (S k), (S t).
         cbn [firstn map List.length nth_error]. rewrite I1, I2, T1, T2, <- !app_assoc.
         splits; auto; try lia.
         destruct I3 as [-> | (io' & e & N1 & N2 & ->)]; [now left|].
         right. exists io', e. auto. }
    1-4: destruct (T7 ltac:(discriminate)) as [e ->].
    1: exists 0%nat, 0%nat.
    2: exists 1%nat, 0%nat.
    3-5: exists 1%nat, 1%nat.
    all: cbn [fst snd firstn map List.length nth_error]; rewrite T1, T2;
      splits; auto; try lia.
    right. destruct (tick_stage_half _ _ St) as [e' F]. exists io, e'. auto.
Qed.

(** The loop is left as soon as a tick fails its test or one of its calls
    raises: it is still running at the end of the script only if every tick
    scripted was admitted. *)
Lemma loop_running (script : list tick_io) :
  forall s, fst (monitoring_loop loc end_time script s) = None ->
  forallb (admitted end_time) script = true.
Proof.
  induction script as [|io rest IH]; intros s; cbn [monitoring_loop forallb];
    [reflexivity|].
  unfold admitted at 1. unfold perform, raise, ret.
  destruct (io_fault io) as [[c e]|] eqn:F.
  - destruct c; cbn [call_eqb fst]; try discriminate.
    all: destruct (io_clock io <? end_time)%float; cbn [fst]; try discriminate.
    all: match goal with
         | F : io_fault ?i = Some (_, ?x) |- context [tick ?l ?i ?st] =>
             let X := fresh in
             destruct (tick_fault_raises l i st _ x F ltac:(discriminate)) as [? X];
             destruct (tick l i st) as [? ?]; cbn [fst] in X; subst;
             cbn [fst]; discriminate
         end.
  - destruct (io_clock io <? end_time)%float; cbn [fst]; [|discriminate].
    destruct (tick loc io s) as [[u|e] s1]; cbn [fst]; [|discriminate].
    intros H. now rewrite (IH s1 H).
Qed.

End Loop.


Lemma shaped_append (s s' : system) (l : list tick_io) :
  readings s' = (readings s ++ map io_concentration l)%list ->
  timestamps s' = (timestamps s ++ map stamp_of l)%list ->
  shaped s = true -> shaped s' = true.
Proof.
  unfold shaped. intros -> ->.
  destruct (timestamps s) as [|[|] ts]; cbn; try discriminate.
  rewrite !andb_true_iff, !Nat.eqb_eq, forallb_app, !length_app, !length_map.
  intros [H1 H2]. rewrite H1, H2. cbn. split; [|reflexivity].
  induction l; cbn; auto.
Qed.

Lemma zip_rows_ticks (loc : string) (l : list tick_io) :
  zip_rows (map stamp_of l) (repeat loc (List.length l))
    (map io_concentration l)
    (map calculate_risk_level (map io_concentration l)) = map (tick_row loc) l.
Proof. induction l as [|io l IH]; cbn; [reflexivity|]. now rewrite IH. Qed.

Lemma zip_rows_columns (ts : list stamp) (ls : list string) (cs : list float)
    (rs : list string) :
  List.length ts = List.length ls -> List.length ls = List.length cs ->
  List.length cs = List.length rs ->
  map r_timestamp (zip_rows ts ls cs rs) = ts /\
  map r_location (zip_rows ts ls cs rs) = ls /\
  map r_concentration (zip_rows ts ls cs rs) = cs /\
  map r_risk_level (zip_rows ts ls cs rs) = rs.
Proof.
  revert ls cs rs. induction ts as [|t ts IH]; intros [|l ls] [|c cs] [|r rs];
    cbn; try discriminate; auto.
  intros H1 H2 H3. injection H1 as H1. injection H2 as H2. injection H3 as H3.
  destruct (IH ls cs rs H1 H2 H3) as (-> & -> & -> & ->). auto.
Qed.



(** The rows of an object that started from the seeds alone. *)
Lemma buffer_rows_ticks (loc : string) (s : system) (r0 : float) (l : list tick_io) :
  readings s = r0 :: map io_concentration l ->
  timestamps s = Seed :: map stamp_of l ->
  buffer_rows loc s = map (tick_row loc) l.
Proof.
  intros R T. unfold buffer_rows. rewrite R, T. cbn [tl List.length].
  rewrite Nat.sub_succ, Nat.sub_0_r, length_map. apply zip_rows_ticks.
Qed.

(** ** Before and after the loop *)

Lemma session_setup_spec (g : globals) (loc : string) (dur : Z) (w : world) (s : system) :
  let s' := snd (session_setup g loc dur w s) in
  readings s' = readings s /\ timestamps s' = timestamps s /\
  db_connection s' = db_connection s /\
  (exists evs, output s' = (output s ++ evs)%list /\ forallb quiet evs = true).
Proof.
  unfold session_setup. py_unfold. cbn.
  destruct (g_time g); cbn.
  2: { repeat split. eexists. rewrite <- app_assoc. split; reflexivity. }
  destruct (float_of_int (dur * 60)); cbn.
  2: { repeat split. eexists. rewrite <- app_assoc. split; reflexivity. }
  destruct (float_of_int (dur * 60 / 5)); cbn.
  2: { repeat split. eexists. rewrite <- app_assoc. split; reflexivity. }
  destruct (int_of_float a0); cbn.
  2: { repeat split. eexists. rewrite <- app_assoc. split; reflexivity. }
  destruct (a1 <? 0); cbn.
  1: { repeat split. eexists. rewrite <- app_assoc. split; reflexivity. }
  match goal with
  | |- context [draw_frames ?n ?x] =>
      pose proof (draw_frames_frame n x) as D;
      destruct (draw_frames n x) as [[u|e'] s1]; cbn in *;
      destruct D as (D1 & D2 & D3 & D4 & D5 & D6)
  end.
  all: repeat split; try assumption;
    rewrite D4, <- !app_assoc; eexists; split; reflexivity.
Qed.

Lemma exit_fault_none (w : world) (c : exit_call) :
  w_exit w = [] -> exit_fault w c = None.
Proof. unfold exit_fault. now intros ->. Qed.

Lemma perform_exit_spec (w : world) (c : exit_call) (s : system) :
  perform_exit w c s = (Returned tt, s) \/ exists e, perform_exit w c s = (Raised e, s).
Proof.
  unfold perform_exit, raise, ret. destruct (exit_fault w c) as [e|];
    [right; now exists e | now left].
Qed.

Lemma handlers_spec (w : world) (r : outcome unit) (s : system) :
  let s' := snd (handlers w r s) in
  readings s' = readings s /\ timestamps s' = timestamps s /\
  db_connection s' = db_connection s /\
  (exists evs, output s' = (output s ++ evs)%list /\ forallb quiet evs = true).
Proof.
  destruct r as [u|[| |]]; cbn; unfold bind;
    try destruct (perform_exit_spec w AtHandlerPrint s) as [-> | [e ->]];
    cbn; repeat split;
    try (exists []; rewrite app_nil_r; split; reflexivity);
    eexists; split; reflexivity.
Qed.

#[local] Arguments data_frame : simpl never.

Lemma data_frame_rows (loc : string) (s : system) :
  List.length (readings s) = List.length (timestamps s) ->
  data_frame (tl (timestamps s))
    (repeat loc (List.length (timestamps s) - 1)%nat)
    (tl (readings s)) (map calculate_risk_level (tl (readings s)))
  = Returned (export_frame loc s).
Proof.
  intros L. unfold data_frame, export_frame, buffer_rows.
  assert (E1 : List.length (tl (timestamps s)) = (List.length (timestamps s) - 1)%nat)
    by (destruct (timestamps s); cbn; lia).
  assert (E2 : List.length (tl (readings s)) = (List.length (timestamps s) - 1)%nat)
    by (rewrite <- L; destruct (readings s); cbn; lia).
  rewrite repeat_length, length_map, E1, E2, !Nat.eqb_refl. reflexivity.
Qed.

(** On lists of equal length, and with none of its calls raising, the
    [finally] clause returns, exports when there is more than the seed, and
    closes the store. *)
Lemma cleanup_spec (loc : string) (w : world) (s : system) :
  w_exit w = [] ->
  List.length (readings s) = List.length (timestamps s) ->
  fst (cleanup loc w s) = Returned tt /\
  readings (snd (cleanup loc w s)) = readings s /\
  timestamps (snd (cleanup loc w s)) = timestamps s /\
  db_connection (snd (cleanup loc w s)) = db_closed (db_connection s) /\
  output (snd (cleanup loc w s)) = (output s ++ flush_events loc w s)%list.
Proof.
  intros X L.
  unfold cleanup, flush_events, export_name, export_to_csv, perform_exit, bind, get, lift.
  rewrite !(exit_fault_none w _ X). cbv beta iota.
  destruct (1 <? List.length (readings s))%nat; cbv beta iota;
    rewrite ?(data_frame_rows loc s L); cbn;
    repeat split; rewrite <- ?app_assoc; reflexivity.
Qed.

Lemma cleanup_frame (loc : string) (w : world) (s : system) :
  readings (snd (cleanup loc w s)) = readings s /\
  timestamps (snd (cleanup loc w s)) = timestamps s.
Proof.
  unfold cleanup, export_to_csv, perform_exit, bind, get, lift. cbv beta iota.
  destruct (1 <? List.length (readings s))%nat; cbv beta iota;
    [destruct (data_frame _ _ _ _)|]; cbn;
    repeat (match goal with
            | |- context [exit_fault w ?c] => destruct (exit_fault w c)
            end; cbn); auto.
Qed.

(** Whatever raises in it, the [finally] clause exports at most once and
    closes the store at most once; the store is either closed, with its
    event, or left as it was. *)
Lemma cleanup_general (loc : string) (w : world) (s : system) :
  let s' := snd (cleanup loc w s) in
  exists fin,
    output s' = (output s ++ fin)%list /\
    (count is_export fin <= 1)%nat /\
    (db_connection s' = db_connection s /\ count is_db_close fin = 0%nat \/
     db_connection s' = db_closed (db_connection s) /\ count is_db_close fin = 1%nat).
Proof.
  unfold cleanup, export_to_csv, perform_exit, close, print, bind, get, lift, modify,
    raise, ret.
  cbv beta iota.
  destruct (1 <? List.length (readings s))%nat; cbv beta iota;
    [destruct (data_frame _ _ _ _)|]; cbn [fst snd];
    repeat (match goal with
            | |- context [exit_fault w ?c] => destruct (exit_fault w c)
            end; cbn [fst snd]).
  all: cbn [output emit db_connection set_db_connection].
  all: rewrite <- ?app_assoc; cbn [app].
  all: try (exists []; rewrite app_nil_r; cbn; splits; auto; fail).
  all: eexists; split; [reflexivity|]; cbn; splits; auto.
Qed.

(** ** The session as a whole *)

(** A call of [real_time_monitoring] is in one of three conditions when the
    script ends: it failed before the [try] (nothing stored, nothing
    exported, nothing closed), it is still in its loop, or it went through
    the handlers and the [finally] clause, whose events close the output:
    all of them when the lists are in step and no call of the clause raises,
    and in any case at most one export and at most one close. *)

Lemma session_spec (g : globals) (loc : string) (dur : Z) (w : world) (s : system) :
  conn_pending (db_connection s) = [] ->
  List.length (readings s) = List.length (timestamps s) ->
  let r := fst (real_time_monitoring g loc dur w s) in
  let s' := snd (real_time_monitoring g loc dur w s) in
  exists k t j evs,
    (j <= t <= k /\ k <= j + 1 /\ k <= List.length (w_ticks w))%nat /\
    readings s' = (readings s ++ map io_concentration (firstn k (w_ticks w)))%list /\
    timestamps s' = (timestamps s ++ map stamp_of (firstn t (w_ticks w)))%list /\
    conn_committed (db_connection s') =
      (conn_committed (db_connection s)
       ++ map (tick_row loc) (firstn j (w_ticks w)))%list /\
    forallb quiet evs = true /\
    (t = k \/
     exists io e, nth_error (w_ticks w) t = Some io /\
                  io_fault io = Some (AtStamp, e) /\ k = S t) /\
    ((exists e, r = Some (Raised e) /\ fst (session_setup g loc dur w s) = Raised e /\
                output s' = (output s ++ evs)%list /\ k = 0%nat /\
                db_connection s' = db_connection s) \/
     (r = None /\ output s' = (output s ++ evs)%list /\
      conn_open (db_connection s') = conn_open (db_connection s) /\
      k = List.length (w_ticks w) /\ t = k) \/
     (exists r' fin, r = Some r' /\
        output s' = (output s ++ evs ++ fin)%list /\
        (count is_export fin <= 1)%nat /\
        (conn_open (db_connection s') = conn_open (db_connection s) /\
         count is_db_close fin = 0%nat \/
         conn_open (db_connection s') = false /\ count is_db_close fin = 1%nat) /\
        (w_exit w = [] -> t = k ->
         fin = flush_events loc w s' /\ conn_open (db_connection s') = false))).
Proof.
  intros P L. unfold real_time_monitoring.
  pose proof (session_setup_spec g loc dur w s) as U. cbv zeta in U.
  destruct (session_setup g loc dur w s) as [[end_time|e] s1]; cbn [fst snd] in U;
    destruct U as (U1 & U2 & U3 & (evs0 & U4 & Q0)).
  2: { exists 0%nat, 0%nat, 0%nat, evs0. cbn. rewrite !app_nil_r.
       splits; auto; try lia; try congruence. left. exists e. splits; auto. }
  assert (P1 : conn_pending (db_connection s1) = []) by congruence.
  pose proof (loop_spec loc end_time (w_ticks w) s1 P1) as LP. cbv zeta in LP.
  destruct (monitoring_loop loc end_time (w_ticks w) s1) as [[r1|] s2]; cbn [fst snd] in LP;
    destruct LP as (k & t & j & B & I1 & I2 & I3 & I4 & I5 & (evs1 & I6 & Q1) & I7 & I8).
  2: { exists k, t, j, (evs0 ++ evs1)%list. cbn.
       rewrite I1, I2, I3, I4, I6, U1, U2, U3, U4, <- app_assoc, forallb_app, Q0, Q1.
       assert (E : t = k)
         by (destruct I8 as [-> | (io & e & _ & _ & _ & N)]; [reflexivity|discriminate]).
       splits; auto; try lia; try congruence. right; left.
       destruct (I7 eq_refl) as (_ & J & K). splits; auto. }
  assert (HS : t = k \/
               exists io e, nth_error (w_ticks w) t = Some io /\
                            io_fault io = Some (AtStamp, e) /\ k = S t).
  { destruct I8 as [-> | (io & e & N1 & N2 & N3 & _)]; [now left|].
    right. exists io, e. auto. }
  unfold finally.
  pose proof (handlers_spec w r1 s2) as H. cbv zeta in H.
  destruct (handlers w r1 s2) as [r2 s3]. cbn [fst snd] in H.
  destruct H as (H1 & H2 & H3 & (evs2 & H4 & Q2)).
  destruct (cleanup_frame loc w s3) as (F1 & F2).
  destruct (cleanup_general loc w s3) as (fin & G1 & G2 & G3).
  assert (CS : w_exit w = [] -> t = k ->
               fst (cleanup loc w s3) = Returned tt /\
               db_connection (snd (cleanup loc w s3)) = db_closed (db_connection s3) /\
               output (snd (cleanup loc w s3)) = (output s3 ++ flush_events loc w s3)%list).
  { intros X E. subst t.
    assert (L3 : List.length (readings s3) = List.length (timestamps s3)).
    { rewrite H1, H2, I1, I2, U1, U2, !length_app, !length_map. lia. }
    destruct (cleanup_spec loc w s3 X L3) as (C1 & C2 & C3 & C4 & C5). auto. }
  assert (FE : flush_events loc w (snd (cleanup loc w s3)) = flush_events loc w s3)
    by (unfold flush_events, export_frame, buffer_rows; rewrite F1, F2; reflexivity).
  exists k, t, j, (evs0 ++ evs1 ++ evs2)%list.
  assert (R : exists r', (let (r', s4) :=
                 match cleanup loc w s3 with
                 | (Returned _, s4) => (r2, s4)
                 | (Raised e, s4) => (Raised e, s4)
                 end in (Some r', s4))
              = (Some r', snd (cleanup loc w s3))).
  { destruct (cleanup loc w s3) as [[u|e] s4]; eexists; reflexivity. }
  destruct R as [r' ->]. cbn [fst snd].
  rewrite F1, F2, H1, H2, I1, I2, U1, U2.
  rewrite !forallb_app, Q0, Q1, Q2.
  splits; auto; try lia.
  - destruct G3 as [[-> _] | [-> _]]; unfold db_closed; cbn [conn_committed];
      rewrite H3, I3, U3; reflexivity.
  - right; right. exists r', fin. splits; auto.
    + rewrite G1, H4, I6, U4, <- !app_assoc. reflexivity.
    + destruct G3 as [[-> G] | [-> G]]; [left | right]; split; auto.
      rewrite H3, I4, U3. reflexivity.
    + intros X E. destruct (CS X E) as (_ & C4 & C5). rewrite FE, C4. split; [|reflexivity].
      rewrite C5 in G1. now apply app_inv_head in G1.
Qed.

Lemma session_running (g : globals) (loc : string) (dur : Z) (w : world) (s : system) :
  fst (real_time_monitoring g loc dur w s) = None ->
  exists end_time s0,
    session_setup g loc dur w s = (Returned end_time, s0) /\
    forallb (admitted end_time) (w_ticks w) = true.
Proof.
  unfold real_time_monitoring.
  destruct (session_setup g loc dur w s) as [[end_time|e] s0]; cbn [fst]; [|discriminate].
  pose proof (loop_running loc end_time (w_ticks w) s0) as L.
  destruct (monitoring_loop loc end_time (w_ticks w) s0) as [[r1|] s2]; cbn [fst] in *.
  - destruct (finally (handlers w r1) (cleanup loc w) s2). discriminate.
  - intros _. exists end_time, s0. auto.
Qed.

Lemma session_buffers (g : globals) (loc : string) (dur : Z) (w : world) (s : system) :
  exists k t, (t <= k <= t + 1 /\ k <= List.length (w_ticks w))%nat /\
    readings (snd (real_time_monitoring g loc dur w s))
      = (readings s ++ map io_concentration (firstn k (w_ticks w)))%list /\
    timestamps (snd (real_time_monitoring g loc dur w s))
      = (timestamps s ++ map stamp_of (firstn t (w_ticks w)))%list /\
    (t = k \/
     exists io e, nth_error (w_ticks w) t = Some io /\
                  io_fault io = Some (AtStamp, e) /\ k = S t).
Proof.
  unfold real_time_monitoring.
  pose proof (session_setup_spec g loc dur w s) as U. cbv zeta in U.
  destruct (session_setup g loc dur w s) as [[end_time|e] s1]; cbn [fst snd] in U;
    destruct U as (U1 & U2 & _).
  2: { exists 0%nat, 0%nat. cbn. rewrite !app_nil_r. splits; auto; lia. }
  destruct (loop_buffers loc end_time (w_ticks w) s1) as (k & t & B & I1 & I2 & I3).
  destruct (monitoring_loop loc end_time (w_ticks w) s1) as [[r1|] s2];
    cbn [fst snd] in I1, I2.
  2: { exists k, t. cbn [fst snd]. rewrite I1, I2, U1, U2. auto. }
  unfold finally.
  pose proof (handlers_spec w r1 s2) as H. cbv zeta in H.
  destruct (handlers w r1 s2) as [r2 s3]. cbn [fst snd] in H.
  destruct H as (H1 & H2 & _).
  destruct (cleanup_frame loc w s3) as (C1 & C2).
  destruct (cleanup loc w s3) as [[u|e] s4]; cbn [fst snd] in *;
    exists k, t; rewrite C1, C2, H1, H2, I1, I2, U1, U2; auto.
Qed.

(** The state in which a session started on a fresh object reaches a tick,
    all ticks before it having run to their end. *)
Lemma reached_state (g : globals) (loc : string) (dur : Z) (w : world)
    (end_time : float) (s0 s1 : system) (pre : list tick_io) :
  session_setup g loc dur w init = (Returned end_time, s0) ->
  monitoring_loop loc end_time pre s0 = (None, s1) ->
  readings s1 = 0%float :: map io_concentration pre /\
  timestamps s1 = Seed :: map stamp_of pre /\
  conn_open (db_connection s1) = true /\
  conn_pending (db_connection s1) = [] /\
  conn_committed (db_connection s1) = map (tick_row loc) pre /\
  shaped s1 = true /\
  forallb quiet (output s1) = true.
Proof.
  intros ES EL.
  pose proof (session_setup_spec g loc dur w init) as U. cbv zeta in U.
  rewrite ES in U. cbn [fst snd] in U. destruct U as (U1 & U2 & U3 & (evs0 & U4 & Q0)).
  assert (P0 : conn_pending (db_connection s0) = []) by (rewrite U3; reflexivity).
  pose proof (loop_spec loc end_time pre s0 P0) as LP. cbv zeta in LP.
  rewrite EL in LP. cbn [fst snd] in LP.
  destruct LP as (k & t & j & B & I1 & I2 & I3 & I4 & I5 & (evs1 & I6 & Q1) & I7 & I9).
  destruct (I7 eq_refl) as (I8 & -> & ->).
  destruct I9 as [-> | (io & e & _ & _ & _ & N)]; [|discriminate].
  rewrite firstn_all in I1, I2, I3.
  rewrite U1 in I1. rewrite U2 in I2. rewrite U3 in I3, I4. rewrite U4 in I6.
  cbn [init readings timestamps db_connection conn_committed conn_open output app] in *.
  splits; auto.
  - apply (shaped_append init s1 pre); auto.
  - rewrite I6, forallb_app, Q0, Q1. reflexivity.
Qed.

(** ** Flush and release *)

Lemma count_app (p : event -> bool) (a b : list event) :
  count p (a ++ b) = (count p a + count p b)%nat.
Proof. unfold count. now rewrite filter_app, length_app. Qed.

Lemma count_quiet_export (l : list event) :
  forallb quiet l = true -> count is_export l = 0%nat.
Proof.
  unfold count. induction l as [|e l IH]; cbn; [reflexivity|].
  rewrite andb_true_iff. intros [Q H]. destruct e; cbn in *; auto; discriminate.
Qed.

Lemma count_quiet_close (l : list event) :
  forallb quiet l = true -> count is_db_close l = 0%nat.
Proof.
  unfold count. induction l as [|e l IH]; cbn; [reflexivity|].
  rewrite andb_true_iff. intros [Q H]. destruct e; cbn in *; auto; discriminate.
Qed.

Lemma in_step_whole (l : list tick_io) (t k : nat) :
  forallb in_step l = true ->
  (t = k \/
   exists io e, nth_error l t = Some io /\ io_fault io = Some (AtStamp, e) /\ k = S t) ->
  t = k.
Proof.
  intros A [E | (io & e & N & F & _)]; [exact E|].
  apply nth_error_In in N. rewrite forallb_forall in A. specialize (A io N).
  unfold in_step in A. rewrite F in A. discriminate.
Qed.

(** C2. The [finally] clause calls the export, prints its notice and only
    then closes the store, with nothing to keep an exception of the first
    two from skipping the third. Two sessions that hold readings behind the
    seed show it. In the first the end time is reached after three
    readings and [to_csv] cannot write its file: the exception leaves the
    clause at once, the call ends with it, no file is written, the store is
    not closed and the figure stays open. In the second Ctrl+C falls between
    the two appends of the second tick: the handler reports the stop, the
    export refuses the lists of different lengths with [ValueError], and
    again nothing is exported and the store is not closed. *)
Theorem release_skipped_when_export_raises :
  (let r := fst (real_time_monitoring with_time "Lab" 1 world_export_fault init) in
   let s' := snd (real_time_monitoring with_time "Lab" 1 world_export_fault init) in
   r = Some (Raised (Exception "PermissionError" "[Errno 13] Permission denied")) /\
   List.length (readings s') = 4%nat /\
   conn_committed (db_connection s')
     = map (tick_row "Lab") (firstn 3 (w_ticks world_export_fault)) /\
   count is_export (output s') = 0%nat /\
   count is_db_close (output s') = 0%nat /\
   conn_open (db_connection s') = true /\
   ~ In PltClose (output s')) /\
  (let r := fst (real_time_monitoring with_time "Lab" 1 world_torn_append init) in
   let s' := snd (real_time_monitoring with_time "Lab" 1 world_torn_append init) in
   r = Some (Raised (Exception "ValueError" "All arrays must be of the same length")) /\
   List.length (readings s') = 3%nat /\
   List.length (timestamps s') = 2%nat /\
   In (Print MsgStoppedByUser) (output s') /\
   count is_export (output s') = 0%nat /\
   count is_db_close (output s') = 0%nat /\
   conn_open (db_connection s') = true /\
   ~ In PltClose (output s')).
Proof.
  split; cbv zeta.
  - splits; try (vm_compute; reflexivity).
    vm_compute. intros H.
    repeat (destruct H as [H|H]; [discriminate|]). exact H.
  - splits; try (vm_compute; reflexivity).
    + vm_compute. tauto.
    + vm_compute. intros H.
      repeat (destruct H as [H|H]; [discriminate|]). exact H.
Qed.

(** X18. Whatever the script raises and wherever, a session on a fresh
    object exports at most once and closes the store at most once, and its
    connection is closed at the end exactly when the close was reached. *)
Theorem flush_and_release_at_most_once (g : globals) (loc : string) (dur : Z)
    (w : world) :
  let s' := snd (real_time_monitoring g loc dur w init) in
  (count is_export (output s') <= 1)%nat /\
  (count is_db_close (output s') <= 1)%nat /\
  (conn_open (db_connection s') = false <-> count is_db_close (output s') = 1%nat).
Proof.
  cbv zeta.
  destruct (session_spec g loc dur w init eq_refl eq_refl)
    as (k & t & j & evs & B & R & T & C & Q & HS & Cases).
  pose proof (count_quiet_export evs Q) as QE.
  pose proof (count_quiet_close evs Q) as QC.
  destruct Cases as [(e & _ & _ & O & _ & D) | [(N & O & Op & _) | (r' & fin & _ & O & E & D & _)]];
    cbn [output init app] in O; rewrite O, ?count_app, QE, QC.
  - rewrite D. cbn. splits; try lia; split; try discriminate; lia.
  - rewrite Op. cbn. splits; try lia; split; try discriminate; lia.
  - cbn [init db_connection conn_open setup_database] in D.
    destruct D as [[-> ->] | [-> ->]]; splits; try lia; split; try discriminate; auto; lia.
Qed.

(** X17. Take a session started on a fresh object that holds at least one
    reading behind the seed, in which no exception falls between the two
    appends of a tick and no call of the handlers or of the [finally] clause raises. The
    flush is never skipped: the session is still in its loop only while
    every tick scripted so far passed the loop test with none of its calls
    raising. And however the loop was left (end time reached, Ctrl+C, an
    exception of any class raised at any call of the loop), the session that
    has ended has written exactly one export and closed the store exactly
    once: its output ends with the export, the notice of it, the close of the
    connection, the closing line and the close of the figure, and nothing
    before them exports or closes. *)
Theorem flush_and_release_exactly_once (g : globals) (loc : string) (dur : Z)
    (w : world) :
  let r := fst (real_time_monitoring g loc dur w init) in
  let s' := snd (real_time_monitoring g loc dur w init) in
  w_exit w = [] ->
  forallb in_step (w_ticks w) = true ->
  (1 < List.length (readings s'))%nat ->
  (r = None ->
     exists end_time s0,
       session_setup g loc dur w init = (Returned end_time, s0) /\
       forallb (admitted end_time) (w_ticks w) = true) /\
  (r <> None ->
     count is_export (output s') = 1%nat /\
     count is_db_close (output s') = 1%nat /\
     conn_open (db_connection s') = false /\
     exists pre,
       forallb quiet pre = true /\
       output s' =
         (pre ++ [ToCsv (export_name w) (export_frame loc s');
                  Print (MsgExported (export_name w));
                  DbClose; Print MsgSessionEnded; PltClose])%list).
Proof.
  cbv zeta. intros X A Hlen. split; [apply session_running|]. intros E.
  destruct (session_spec g loc dur w init eq_refl eq_refl)
    as (k & t & j & evs & B & R & T & C & Q & HS & Cases).
  pose proof (in_step_whole _ t k A HS) as TK.
  assert (F : flush_events loc w (snd (real_time_monitoring g loc dur w init)) =
              [ToCsv (export_name w)
                 (export_frame loc (snd (real_time_monitoring g loc dur w init)));
               Print (MsgExported (export_name w));
               DbClose; Print MsgSessionEnded; PltClose]).
  { unfold flush_events. apply Nat.ltb_lt in Hlen. rewrite Hlen. reflexivity. }
  destruct Cases as [(e & _ & _ & _ & K & _) | [(N & _) | (r' & fin & _ & O & _ & _ & G)]].
  - subst k. rewrite R in Hlen. cbn in Hlen. lia.
  - contradiction.
  - destruct (G X TK) as (-> & Cl).
    cbn [output init app] in O. rewrite F in O.
    splits; auto.
    + rewrite O, count_app, (count_quiet_export evs Q). reflexivity.
    + rewrite O, count_app, (count_quiet_close evs Q). reflexivity.
    + exists evs. split; assumption.
Qed.

(** The premises hold for a session stopped by Ctrl+C. *)
Lemma flush_and_release_on_cancellation :
  let r := fst (real_time_monitoring with_time "Lab" 1 world_cancelled init) in
  let s' := snd (real_time_monitoring with_time "Lab" 1 world_cancelled init) in
  (r = None ->
     exists end_time s0,
       session_setup with_time "Lab" 1 world_cancelled init = (Returned end_time, s0) /\
       forallb (admitted end_time) (w_ticks world_cancelled) = true) /\
  (r <> None ->
     count is_export (output s') = 1%nat /\
     count is_db_close (output s') = 1%nat /\
     conn_open (db_connection s') = false /\
     exists pre,
       forallb quiet pre = true /\
       output s' =
         (pre ++ [ToCsv (export_name world_cancelled) (export_frame "Lab" s');
                  Print (MsgExported (export_name world_cancelled));
                  DbClose; Print MsgSessionEnded; PltClose])%list).
Proof.
  apply (flush_and_release_exactly_once with_time "Lab" 1 world_cancelled).
  - reflexivity.
  - reflexivity.
  - vm_compute. repeat constructor.
Defined.

(** The same on the two other ways out of the loop: the end time, and an
    exception raised by a collaborator. *)
Example flush_and_release_on_timeout :
  exists s',
    real_time_monitoring with_time "Lab" 1 world_timeout init = (Some (Returned tt), s') /\
    List.length (readings s') = 4%nat /\
    count is_export (output s') = 1%nat /\ count is_db_close (output s') = 1%nat.
Proof. eexists. split; [vm_compute; reflexivity|]. vm_compute. auto. Qed.

Example flush_and_release_on_fault :
  exists s',
    real_time_monitoring with_time "Lab" 1 world_write_fault init
      = (Some (Returned tt), s') /\
    List.length (readings s') = 3%nat /\
    count is_export (output s') = 1%nat /\ count is_db_close (output s') = 1%nat.
Proof. eexists. split; [vm_compute; reflexivity|]. vm_compute. auto. Qed.

(** ** The export *)

Lemma compare_app (a1 a2 b1 b2 : string) :
  String.length a1 = String.length a2 ->
  String.compare (a1 ++ b1) (a2 ++ b2)
  = lex (String.compare a1 a2) (String.compare b1 b2).
Proof.
  revert a2. induction a1 as [|c1 a1 IH]; intros [|c2 a2] L; try discriminate.
  - reflexivity.
  - cbn in L. injection L as L.
    change (String c1 a1 ++ b1) with (String c1 (a1 ++ b1)).
    change (String c2 a2 ++ b2) with (String c2 (a2 ++ b2)).
    cbn [String.compare].
    destruct (Ascii.compare c1 c2); try reflexivity. now apply IH.
Qed.

Lemma compare_refl (a : string) : String.compare a a = Eq.
Proof.
  induction a as [|c a IH]; [reflexivity|]. cbn.
  unfold Ascii.compare. now rewrite N.compare_refl.
Qed.

Lemma lex_Eq_r (c : comparison) : lex c Eq = c.
Proof. now destruct c. Qed.

Lemma pad2_compare (n m : Z) :
  0 <= n < 100 -> 0 <= m < 100 ->
  String.compare (pad2 n) (pad2 m) = (n ?= m).
Proof.
  intros Hn Hm.
  assert (T : pad2_table_ok = true) by (vm_compute; reflexivity).
  unfold pad2_table_ok in T. rewrite forallb_forall in T.
  specialize (T (Z.to_nat n)). rewrite in_seq in T.
  specialize (T ltac:(lia)). rewrite forallb_forall in T.
  specialize (T (Z.to_nat m)). rewrite in_seq in T.
  specialize (T ltac:(lia)). rewrite !Z2Nat.id in T by lia.
  rewrite Z2Nat.inj_compare in T by lia.
  destruct (String.compare (pad2 n) (pad2 m)), (n ?= m); congruence.
Qed.

Lemma pad4_compare (n m : Z) :
  0 <= n < 10000 -> 0 <= m < 10000 ->
  String.compare (pad4 n) (pad4 m) = (n ?= m).
Proof.
  intros Hn Hm. unfold pad4. rewrite compare_app by reflexivity.
  pose proof (Z.div_mod n 100 ltac:(lia)).
  pose proof (Z.div_mod m 100 ltac:(lia)).
  pose proof (Z.mod_pos_bound n 100 ltac:(lia)).
  pose proof (Z.mod_pos_bound m 100 ltac:(lia)).
  rewrite !pad2_compare by lia.
  destruct (Z.compare_spec (n / 100) (m / 100)),
           (Z.compare_spec (n mod 100) (m mod 100)),
           (Z.compare_spec n m); cbn; try reflexivity; lia.
Qed.

(** The stamp ["%Y%m%d_%H%M%S"] sorts as the time it prints. *)
Lemma strftime_compact_sortable (a b : datetime) :
  valid_datetime a = true -> valid_datetime b = true ->
  String.compare (strftime_compact a) (strftime_compact b) = dt_compare_seconds a b.
Proof.
  unfold valid_datetime. rewrite !andb_true_iff, !Z.leb_le.
  intros Ha Hb. unfold strftime_compact, dt_compare_seconds.
  rewrite compare_app by reflexivity. rewrite pad4_compare by lia. f_equal.
  rewrite compare_app by reflexivity. rewrite pad2_compare by lia. f_equal.
  rewrite compare_app by reflexivity. rewrite pad2_compare by lia. f_equal.
  rewrite (compare_app "_" "_") by reflexivity. cbn [lex String.compare].
  change (Ascii.compare "_" "_") with Eq. cbn [lex].
  rewrite compare_app by reflexivity. rewrite pad2_compare by lia. f_equal.
  rewrite compare_app by reflexivity. rewrite pad2_compare by lia. f_equal.
  apply pad2_compare; lia.
Qed.

Lemma strftime_compact_length (a : datetime) :
  String.length (strftime_compact a) = 15%nat.
Proof. reflexivity. Qed.

(** So do the names of the exports of two sessions. *)
Lemma export_name_sortable (w1 w2 : world) :
  valid_datetime (w_export_now w1) = true ->
  valid_datetime (w_export_now w2) = true ->
  String.compare (export_name w1) (export_name w2)
  = dt_compare_seconds (w_export_now w1) (w_export_now w2).
Proof.
  intros V1 V2. unfold export_name.
  rewrite compare_app by reflexivity. rewrite compare_refl. cbn [lex].
  rewrite compare_app by (now rewrite !strftime_compact_length).
  rewrite compare_refl, lex_Eq_r. now apply strftime_compact_sortable.
Qed.

Lemma in_quiet_not_export (evs : list event) (fn : string) (df : frame) :
  forallb quiet evs = true -> ~ In (ToCsv fn df) evs.
Proof.
  rewrite forallb_forall. intros Q I. specialize (Q _ I). discriminate.
Qed.



Example export_on_timeout :
  exists pre post,
    output (snd (real_time_monitoring with_time "Lab" 1 world_timeout init)) =
    (pre ++ ToCsv "asbestos_readings_20240301_090059.csv"
       {| columns := ["Timestamp"; "Location"; "Concentration"; "Risk_Level"];
          records := [tick_row "Lab" (sample_tick 1000 0.005 0 None);
                      tick_row "Lab" (sample_tick 1005 0.02 5 None);
                      tick_row "Lab" (sample_tick 1010 0.15 10 None)] |} :: post)%list.
Proof.
  exists (firstn 23 (output (snd (real_time_monitoring with_time "Lab" 1 world_timeout init)))).
  eexists. vm_compute. reflexivity.
Qed.

(** ** The reading buffer *)

Lemma nondecreasing_firstn (k : nat) (l : list datetime) :
  nondecreasing l = true -> nondecreasing (firstn k l) = true.
Proof.
  revert l. induction k as [|k IH]; intros l H; [reflexivity|].
  destruct l as [|a [|b l]]; [reflexivity| |].
  - destruct k; reflexivity.
  - cbn [nondecreasing] in H. apply andb_true_iff in H. destruct H as [H1 H2].
    specialize (IH (b :: l) H2).
    destruct k as [|k]; [reflexivity|].
    change (firstn (S (S k)) (a :: b :: l)) with (a :: firstn (S k) (b :: l)).
    change (firstn (S k) (b :: l)) with (b :: firstn k l) in *.
    cbn [nondecreasing]. rewrite H1. exact IH.
Qed.

(** C6. Over any sequence of ticks of a session, on any object, the two
    lists only grow at their end: every entry present before the call is
    still at its index with its value, the [i]-th tick that stores a sample
    puts it at the index [i] places behind the old length, and its timestamp
    at the index [i] places behind the old length of the other list (so the
    index grows by one from a stored tick to the next), in the order of the
    ticks; every tick that stored its sample stored its timestamp too, but
    for a last tick cut between its two appends; and when the wall clock
    never steps back between two ticks, the timestamps appended are in
    non-decreasing order. *)
Theorem buffer_append_only (g : globals) (loc : string) (dur : Z) (w : world)
    (s : system) :
  let s' := snd (real_time_monitoring g loc dur w s) in
  exists k t, (t <= k <= t + 1 /\ k <= List.length (w_ticks w))%nat /\
    readings s' = (readings s ++ map io_concentration (firstn k (w_ticks w)))%list /\
    timestamps s' = (timestamps s ++ map stamp_of (firstn t (w_ticks w)))%list /\
    (forallb in_step (w_ticks w) = true -> t = k) /\
    (forall i, (i < List.length (readings s))%nat ->
       nth_error (readings s') i = nth_error (readings s) i) /\
    (forall i, (i < List.length (timestamps s))%nat ->
       nth_error (timestamps s') i = nth_error (timestamps s) i) /\
    (forall i io, nth_error (firstn k (w_ticks w)) i = Some io ->
       nth_error (readings s') (List.length (readings s) + i)
         = Some (io_concentration io)) /\
    (forall i io, nth_error (firstn t (w_ticks w)) i = Some io ->
       nth_error (timestamps s') (List.length (timestamps s) + i)
         = Some (At (io_now io))) /\
    (nondecreasing (map io_now (w_ticks w)) = true ->
     nondecreasing (map io_now (firstn t (w_ticks w))) = true).
Proof.
  cbv zeta. destruct (session_buffers g loc dur w s) as (k & t & B & R & T & HS).
  exists k, t. rewrite R, T. splits; auto; try lia.
  - intros A. exact (in_step_whole _ t k A HS).
  - intros i Hi. now rewrite nth_error_app1.
  - intros i Hi. now rewrite nth_error_app1.
  - intros i io N.
    rewrite !nth_error_app2 by lia.
    replace (List.length (readings s) + i - List.length (readings s))%nat with i by lia.
    rewrite !nth_error_map, N. auto.
  - intros i io N.
    rewrite !nth_error_app2 by lia.
    replace (List.length (timestamps s) + i - List.length (timestamps s))%nat with i by lia.
    rewrite !nth_error_map, N. auto.
  - intros M. rewrite <- firstn_map. now apply nondecreasing_firstn.
Qed.

Example buffer_on_timeout :
  readings (snd (real_time_monitoring with_time "Lab" 1 world_timeout init))
    = [0; 0.005; 0.02; 0.15]%float /\
  timestamps (snd (real_time_monitoring with_time "Lab" 1 world_timeout init))
    = [Seed; At (at_second 0); At (at_second 5); At (at_second 10)] /\
  nondecreasing (map io_now (w_ticks world_timeout)) = true.
Proof. vm_compute. auto. Qed.

(** C9 as stated fails: when Ctrl+C falls between the two appends of the
    second tick, that run of the body has appended to [readings] alone, the
    session ends with three readings and two timestamps, and the export that
    needs the lists paired up raises [ValueError]. *)
Theorem torn_append_breaks_same_length :
  ~ same_length_after_tick "Lab"
      (sample_tick 1005 0.02 5 (Some (AtStamp, KeyboardInterrupt))) init /\
  (let s' := snd (real_time_monitoring with_time "Lab" 1 world_torn_append init) in
   List.length (readings s') = 3%nat /\ List.length (timestamps s') = 2%nat /\
   fst (real_time_monitoring with_time "Lab" 1 world_torn_append init)
   = Some (Raised (Exception "ValueError" "All arrays must be of the same length"))).
Proof.
  split.
  - unfold same_length_after_tick. vm_compute. intros H.
    specialize (H eq_refl). discriminate.
  - vm_compute. auto.
Qed.

(** C9, amended. Both lists have length 1 after [__init__]. One run of the
    loop body appends one element to each list, or none to either, or one to
    [readings] alone, the last exactly when an exception falls between the
    two appends; a run that returns has appended to both. So at every point
    of a session started on a fresh object the lists have equal lengths,
    unless the loop was ended by an exception between the two appends of a
    tick, and then [readings] is one longer. The export needs the equality:
    [export_to_csv] gets to write its file exactly when the lists behind
    index 0 have equal lengths, and raises [ValueError] otherwise. *)
Theorem readings_timestamps_same_length :
  List.length (readings init) = 1%nat /\ List.length (timestamps init) = 1%nat /\
  (forall loc io s,
     exists n m, (m <= n <= 1)%nat /\
       List.length (readings (snd (tick loc io s))) = (List.length (readings s) + n)%nat /\
       List.length (timestamps (snd (tick loc io s))) = (List.length (timestamps s) + m)%nat /\
       (fst (tick loc io s) = Returned tt -> n = 1%nat /\ m = 1%nat) /\
       (m <> n <-> exists e, io_fault io = Some (AtStamp, e))) /\
  (forall g loc dur w,
     let r := fst (real_time_monitoring g loc dur w init) in
     let s' := snd (real_time_monitoring g loc dur w init) in
     List.length (readings s') = List.length (timestamps s') \/
     List.length (readings s') = S (List.length (timestamps s')) /\
     forallb in_step (w_ticks w) = false /\ r <> None) /\
  (forall loc now s,
     (exists fn, fst (export_to_csv loc now None s) = Returned fn) <->
     List.length (tl (readings s)) = List.length (tl (timestamps s))).
Proof.
  splits; try reflexivity.
  - intros loc io s.
    pose proof (tick_spec loc io s) as T. cbv zeta in T.
    destruct T as (T1 & T2 & _ & _ & _ & _ & T7).
    rewrite T1, T2, !length_app.
    destruct (tick_stage io (conn_open (db_connection s))) eqn:St.
    1: exists 0%nat, 0%nat.
    2: exists 1%nat, 0%nat.
    3-5: exists 1%nat, 1%nat.
    all: cbn [List.length]; splits; auto.
    all: try (intros R; destruct (T7 ltac:(discriminate)) as [e E]; congruence).
    all: try (split; [intros N; now contradiction N | ]).
    all: try (intros [e F]; unfold tick_stage in St; rewrite F in St; discriminate).
    split; [intros _; exact (tick_stage_half _ _ St) | intros _; discriminate].
  - intros g loc dur w. cbv zeta.
    destruct (session_spec g loc dur w init eq_refl eq_refl)
      as (k & t & j & evs & B & R & T & C & Q & HS & Cases).
    rewrite R, T, !length_app, !length_map. cbn [init readings timestamps List.length].
    destruct HS as [-> | (io & e & N & F & ->)]; [now left|]. right.
    assert (Lt : (t < List.length (w_ticks w))%nat) by (apply nth_error_Some; congruence).
    rewrite !length_firstn. splits.
    + lia.
    + apply not_true_is_false. intros A. rewrite forallb_forall in A.
      specialize (A io (nth_error_In _ _ N)). unfold in_step in A.
      rewrite F in A. discriminate.
    + destruct Cases as [(e0 & _ & _ & _ & K & _) | [(_ & _ & _ & _ & K) | (r' & fin & -> & _)]];
        try lia; discriminate.
  - intros loc now s. unfold export_to_csv, bind, get, lift, data_frame.
    cbv beta iota.
    rewrite repeat_length, length_map.
    assert (E : List.length (tl (timestamps s)) = (List.length (timestamps s) - 1)%nat)
      by (destruct (timestamps s); cbn; lia).
    rewrite <- E, Nat.eqb_refl. cbn [andb].
    destruct (Nat.eqb_spec (List.length (tl (timestamps s))) (List.length (tl (readings s))))
      as [Y|N]; rewrite ?Nat.eqb_refl; cbn.
    + split; [auto | intros _; eexists; reflexivity].
    + split; [intros [fn F]; discriminate | intros Y; congruence].
Qed.

(** ** Negative samples *)

(** C3, as the code has it. The loop has no test on the sign of the sample.
    In a session started on a fresh object, a tick whose sample is negative
    and none of whose calls fails runs to its end like any other: the sample
    is classified "Low", appended to the buffer with its timestamp and
    committed to the store; the lines printed are the ordinary status lines,
    none of them a rejection; and the loop goes on with the next tick. *)
Theorem negative_sample_is_recorded (g : globals) (loc : string) (dur : Z)
    (w : world) (end_time : float) (s0 s1 : system)
    (pre rest : list tick_io) (io : tick_io) :
  session_setup g loc dur w init = (Returned end_time, s0) ->
  w_ticks w = (pre ++ io :: rest)%list ->
  monitoring_loop loc end_time pre s0 = (None, s1) ->
  io_fault io = None ->
  (io_clock io <? end_time)%float = true ->
  (io_concentration io <? 0)%float = true ->
  let s2 := snd (tick loc io s1) in
  fst (tick loc io s1) = Returned tt /\
  calculate_risk_level (io_concentration io) = "Low" /\
  readings s2 = 0%float :: map io_concentration (pre ++ [io]) /\
  timestamps s2 = Seed :: map stamp_of (pre ++ [io]) /\
  conn_committed (db_connection s2) = map (tick_row loc) (pre ++ [io]) /\
  output s2 =
    (output s1 ++
     [Print (MsgTime (strftime_display (io_now io))); Print (MsgLocation loc);
      Print (MsgConcentration (io_concentration io)); Print (MsgRiskLevel "Low");
      Print MsgRule; PltPause])%list /\
  monitoring_loop loc end_time (w_ticks w) s0 = monitoring_loop loc end_time rest s2.
Proof.
  intros ES EW EL F G N. cbv zeta.
  destruct (reached_state g loc dur w end_time s0 s1 pre ES EL)
    as (R & T & O & P & C & S & _).
  destruct (tick_clean loc io s1 F O S) as (K1 & K2 & K3 & K4 & K5).
  assert (Low : calculate_risk_level (io_concentration io) = "Low").
  { unfold calculate_risk_level.
    now rewrite (ltb_trans (io_concentration io) 0 0.01 N eq_refl). }
  splits; auto.
  - rewrite K2, R, map_app. reflexivity.
  - rewrite K3, T, map_app. reflexivity.
  - rewrite K4. cbn. rewrite P, C, map_app. reflexivity.
  - rewrite K5. unfold status_lines. rewrite Low. reflexivity.
  - rewrite EW, loop_app, EL. cbn [monitoring_loop].
    unfold perform. rewrite F. unfold ret. rewrite G.
    destruct (tick loc io s1) as [r2 s2]. cbn [fst snd] in *. now rewrite K1.
Qed.

(** The premises of the amended C3 on the session [world_negative]. *)
Lemma negative_sample_is_recorded_in_session :
  let s0 := snd (session_setup with_time "Lab" 1 world_negative init) in
  let s1 := snd (monitoring_loop "Lab" 1060 [sample_tick 1000 0.005 0 None] s0) in
  let io := sample_tick 1005 (-0.01) 5 None in
  let s2 := snd (tick "Lab" io s1) in
  fst (tick "Lab" io s1) = Returned tt /\
  calculate_risk_level (io_concentration io) = "Low" /\
  readings s2 = 0%float :: map io_concentration ([sample_tick 1000 0.005 0 None] ++ [io]) /\
  timestamps s2 = Seed :: map stamp_of ([sample_tick 1000 0.005 0 None] ++ [io]) /\
  conn_committed (db_connection s2)
    = map (tick_row "Lab") ([sample_tick 1000 0.005 0 None] ++ [io]) /\
  output s2 =
    (output s1 ++
     [Print (MsgTime (strftime_display (io_now io))); Print (MsgLocation "Lab");
      Print (MsgConcentration (io_concentration io)); Print (MsgRiskLevel "Low");
      Print MsgRule; PltPause])%list /\
  monitoring_loop "Lab" 1060 (w_ticks world_negative) s0
  = monitoring_loop "Lab" 1060
      [sample_tick 1010 0.15 10 None; sample_tick 1060 0.08 60 None] s2.
Proof.
  apply (negative_sample_is_recorded with_time "Lab" 1 world_negative 1060).
  - vm_compute. reflexivity.
  - reflexivity.
  - vm_compute. reflexivity.
  - reflexivity.
  - reflexivity.
  - reflexivity.
Defined.

(** C3, as the specification states it, fails: on a fresh object a tick that
    samples -0.01 stores the sample and writes its row. *)
Lemma negative_sample_not_rejected :
  ~ rejects_negative_sample "Lab" (sample_tick 1005 (-0.01) 5 None) init.
Proof.
  intros H. destruct (H eq_refl) as (R & _).
  vm_compute in R. discriminate.
Qed.

(** ** A failing write *)

(** C4, as the code has it. In a session started on a fresh object, when a
    call that writes a tick's row (cursor, INSERT or COMMIT) raises an
    exception, the loop ends there and no later tick is sampled; the handler
    reports the error and, the calls of the handler and of the [finally]
    clause returning, the call returns normally after the flush: the reading
    of that tick is in the buffer and is the last row of the export, while
    the store holds the rows of the earlier ticks only. *)
Theorem write_failure_ends_loop_reading_exported (g : globals) (loc : string)
    (dur : Z) (w : world) (end_time : float) (s0 s1 : system)
    (pre rest : list tick_io) (io : tick_io) (c : call) (cls msg : string) :
  session_setup g loc dur w init = (Returned end_time, s0) ->
  w_ticks w = (pre ++ io :: rest)%list ->
  monitoring_loop loc end_time pre s0 = (None, s1) ->
  (io_clock io <? end_time)%float = true ->
  io_fault io = Some (c, Exception cls msg) ->
  is_write c = true ->
  w_exit w = [] ->
  let s' := snd (real_time_monitoring g loc dur w init) in
  fst (real_time_monitoring g loc dur w init) = Some (Returned tt) /\
  readings s' = 0%float :: map io_concentration (pre ++ [io]) /\
  timestamps s' = Seed :: map stamp_of (pre ++ [io]) /\
  conn_committed (db_connection s') = map (tick_row loc) pre /\
  output s' =
    (output s1 ++
     [Print (MsgError msg);
      ToCsv (export_name w)
        {| columns := ["Timestamp"; "Location"; "Concentration"; "Risk_Level"];
           records := map (tick_row loc) (pre ++ [io]) |};
      Print (MsgExported (export_name w));
      DbClose; Print MsgSessionEnded; PltClose])%list /\
  forallb quiet (output s1) = true.
Proof.
  intros ES EW EL G F W X. cbv zeta.
  destruct (reached_state g loc dur w end_time s0 s1 pre ES EL)
    as (R & T & O & P & C & Sh & Q).
  destruct (tick_write_fault loc io s1 c _ F W O) as (K1 & K2 & K3 & K4 & K5).
  set (s3 := emit (Print (MsgError msg)) (snd (tick loc io s1))).
  assert (R3 : readings s3 = 0%float :: map io_concentration (pre ++ [io]))
    by (cbn; rewrite K2, R, map_app; reflexivity).
  assert (T3 : timestamps s3 = Seed :: map stamp_of (pre ++ [io]))
    by (cbn; rewrite K3, T, map_app; reflexivity).
  assert (L3 : List.length (readings s3) = List.length (timestamps s3))
    by (rewrite R3, T3; cbn; now rewrite !length_map).
  destruct (cleanup_spec loc w s3 X L3) as (C1 & C2 & C3 & C4 & C5).
  assert (E : real_time_monitoring g loc dur w init
              = (Some (Returned tt), snd (cleanup loc w s3))).
  { unfold real_time_monitoring. rewrite ES, EW, loop_app, EL.
    cbn [monitoring_loop]. unfold perform. rewrite F.
    replace (call_eqb AtClock c) with false by (destruct c; try discriminate; reflexivity).
    unfold ret. rewrite G. subst s3.
    destruct (tick loc io s1) as [r2 s2]. cbn [fst snd] in *.
    subst r2. unfold finally, handlers, perform_exit, print, modify, bind, ret.
    rewrite (exit_fault_none w _ X).
    destruct (cleanup loc w (emit (Print (MsgError msg)) s2)) as [[u|e] s4];
      cbn [fst snd] in *; [destruct u; reflexivity | discriminate]. }
  rewrite E. cbn [fst snd]. rewrite C2, C3, C4, C5.
  splits; auto.
  - cbn. rewrite K4. exact C.
  - unfold flush_events, export_frame.
    rewrite (buffer_rows_ticks loc s3 _ _ R3 T3), R3.
    cbn [List.length]. rewrite length_map, length_app. cbn [List.length].
    replace (1 <? S (List.length pre + 1))%nat with true
      by (symmetry; apply Nat.ltb_lt; lia).
    cbn. rewrite K5, <- app_assoc. reflexivity.
Qed.

(** The premises of the amended C4 on the session [world_write_fault]. *)
Lemma write_failure_in_session :
  let s1 := snd (monitoring_loop "Lab" 1060 [sample_tick 1000 0.005 0 None]
                   (snd (session_setup with_time "Lab" 1 world_write_fault init))) in
  let io := sample_tick 1005 0.02 5
              (Some (AtExecute, Exception "OperationalError" "disk I/O error")) in
  let s' := snd (real_time_monitoring with_time "Lab" 1 world_write_fault init) in
  fst (real_time_monitoring with_time "Lab" 1 world_write_fault init)
    = Some (Returned tt) /\
  readings s' = 0%float :: map io_concentration ([sample_tick 1000 0.005 0 None] ++ [io]) /\
  timestamps s' = Seed :: map stamp_of ([sample_tick 1000 0.005 0 None] ++ [io]) /\
  conn_committed (db_connection s')
    = map (tick_row "Lab") [sample_tick 1000 0.005 0 None] /\
  output s' =
    (output s1 ++
     [Print (MsgError "disk I/O error");
      ToCsv (export_name world_write_fault)
        {| columns := ["Timestamp"; "Location"; "Concentration"; "Risk_Level"];
           records := map (tick_row "Lab") ([sample_tick 1000 0.005 0 None] ++ [io]) |};
      Print (MsgExported (export_name world_write_fault));
      DbClose; Print MsgSessionEnded; PltClose])%list /\
  forallb quiet (output s1) = true.
Proof.
  apply (write_failure_ends_loop_reading_exported with_time "Lab" 1 world_write_fault
           1060 (snd (session_setup with_time "Lab" 1 world_write_fault init)) _
           [sample_tick 1000 0.005 0 None]
           [sample_tick 1010 0.15 10 None; sample_tick 1060 0.08 60 None]
           _ AtExecute "OperationalError" "disk I/O error").
  - vm_compute. reflexivity.
  - reflexivity.
  - vm_compute. reflexivity.
  - reflexivity.
  - reflexivity.
  - reflexivity.
  - reflexivity.
Defined.

(** C4, as the specification states it, fails: after the failed INSERT of
    [world_write_fault] the loop does not go on to the tick scripted next. *)
Lemma write_failure_stops_the_loop :
  ~ continues_after_write_failure "Lab" 1060
      (sample_tick 1005 0.02 5
         (Some (AtExecute, Exception "OperationalError" "disk I/O error")))
      [sample_tick 1010 0.15 10 None; sample_tick 1060 0.08 60 None]
      (snd (monitoring_loop "Lab" 1060 [sample_tick 1000 0.005 0 None]
              (snd (session_setup with_time "Lab" 1 world_write_fault init)))).
Proof.
  intros H. specialize (H eq_refl eq_refl).
  apply (f_equal fst) in H. vm_compute in H. discriminate.
Qed.

(** ** Integers as floats *)

(** The float of a negative integer is negative and at least 1 in absolute
    value, so [int] of it is negative again. The proof follows the rounding
    of [binary_normalize]: the mantissa kept has exactly 53 bits. *)

Lemma digits2_pos_bounds (p : positive) :
  2 ^ (Zpos (digits2_pos p) - 1) <= Zpos p < 2 ^ Zpos (digits2_pos p).
Proof.
  induction p as [p IH|p IH|]; cbn [digits2_pos].
  - rewrite Pos2Z.inj_succ.
    replace (Z.succ (Zpos (digits2_pos p)) - 1) with (Zpos (digits2_pos p) - 1 + 1) by lia.
    rewrite Z.pow_succ_r by lia. rewrite Z.pow_add_r by lia.
    change (2 ^ 1) with 2. lia.
  - rewrite Pos2Z.inj_succ.
    replace (Z.succ (Zpos (digits2_pos p)) - 1) with (Zpos (digits2_pos p) - 1 + 1) by lia.
    rewrite Z.pow_succ_r by lia. rewrite Z.pow_add_r by lia.
    change (2 ^ 1) with 2. lia.
  - cbn. lia.
Qed.

Lemma digits2_pos_unique (p : positive) (k : Z) :
  2 ^ (k - 1) <= Zpos p < 2 ^ k -> Zpos (digits2_pos p) = k.
Proof.
  intros [H1 H2]. pose proof (digits2_pos_bounds p) as [B1 B2].
  assert (K : 0 < k).
  { destruct (Z.ltb_spec 0 k); [assumption|].
    assert (2 ^ k <= 2 ^ 0) by (destruct (Z.eq_dec k 0); [subst; lia|rewrite Z.pow_neg_r by lia; cbn; lia]).
    cbn in *. lia. }
  destruct (Z.lt_trichotomy (Zpos (digits2_pos p)) k) as [L|[E|G]]; [|exact E|].
  - assert (2 ^ Zpos (digits2_pos p) <= 2 ^ (k - 1)) by (apply Z.pow_le_mono_r; lia). lia.
  - assert (2 ^ k <= 2 ^ (Zpos (digits2_pos p) - 1)) by (apply Z.pow_le_mono_r; lia). lia.
Qed.

Lemma shr_1_m (mrs : shr_record) :
  0 <= shr_m mrs -> shr_m (shr_1 mrs) = shr_m mrs / 2.
Proof.
  destruct mrs as [m r s]. cbn [shr_m]. intros H.
  destruct m as [|[q|q|]|q]; cbn [shr_1 shr_m]; try lia; try reflexivity.
  - apply Z.div_unique with 1; lia.
  - apply Z.div_unique with 0; lia.
Qed.

Lemma pow2_xO (n : positive) : 2 ^ Zpos n~0 = 2 ^ Zpos n * 2 ^ Zpos n.
Proof. rewrite <- Z.pow_add_r by lia. f_equal. lia. Qed.

Lemma pow2_xI (n : positive) : 2 ^ Zpos n~1 = 2 * (2 ^ Zpos n * 2 ^ Zpos n).
Proof.
  rewrite <- Z.pow_add_r by lia. rewrite <- Z.pow_succ_r by lia. f_equal. lia.
Qed.

Lemma iter_shr_1_m (n : positive) :
  forall mrs, 0 <= shr_m mrs ->
  shr_m (iter_pos shr_1 n mrs) = shr_m mrs / 2 ^ Zpos n.
Proof.
  induction n as [n IH|n IH|]; intros mrs H; cbn [iter_pos].
  - assert (H1 : 0 <= shr_m (shr_1 mrs)) by (rewrite shr_1_m by lia; apply Z.div_pos; lia).
    assert (H2 : 0 <= shr_m (iter_pos shr_1 n (shr_1 mrs)))
      by (rewrite IH by lia; apply Z.div_pos; [lia|apply Z.pow_pos_nonneg; lia]).
    pose proof (Z.pow_pos_nonneg 2 (Zpos n) ltac:(lia) ltac:(lia)) as Pn.
    rewrite IH, IH, shr_1_m by lia.
    rewrite !Z.div_div by lia. now rewrite pow2_xI.
  - assert (H2 : 0 <= shr_m (iter_pos shr_1 n mrs))
      by (rewrite IH by lia; apply Z.div_pos; [lia|apply Z.pow_pos_nonneg; lia]).
    pose proof (Z.pow_pos_nonneg 2 (Zpos n) ltac:(lia) ltac:(lia)) as Pn.
    rewrite IH, IH by lia.
    rewrite !Z.div_div by lia. now rewrite pow2_xO.
  - rewrite shr_1_m by lia. reflexivity.
Qed.

Lemma iter_xO (d : positive) (p : positive) :
  Zpos (Pos.iter xO p d) = Zpos p * 2 ^ Zpos d.
Proof.
  revert p. induction d as [d IH|d IH|]; intros p; cbn [Pos.iter].
  - rewrite Pos2Z.inj_xO, IH, IH, pow2_xI. lia.
  - rewrite IH, IH, pow2_xO. lia.
  - rewrite Pos2Z.inj_xO. change (2 ^ 1) with 2. lia.
Qed.

Lemma pow2_split (a b : Z) : 0 <= a -> 0 <= b -> 2 ^ (a + b) = 2 ^ a * 2 ^ b.
Proof. intros. now apply Z.pow_add_r. Qed.

Lemma round_aux_wide (sx : bool) (mz : positive) (ez : Z) :
  53 <= Zpos (digits2_pos mz) -> -52 <= Zpos (digits2_pos mz) + ez - 53 ->
  binary_round_aux prec emax sx (Zpos mz) ez loc_Exact = S754_infinity sx \/
  exists q e,
    binary_round_aux prec emax sx (Zpos mz) ez loc_Exact = S754_finite sx q e /\
    Zpos (digits2_pos q) = 53 /\ -52 <= e <= 971.
Proof.
  intros H1 H2. unfold binary_round_aux, shr_fexp. cbn [Zdigits2 shr_record_of_loc].
  pose proof (digits2_pos_bounds mz) as Bm.
  set (Dm := Zpos (digits2_pos mz)) in *.
  assert (F1 : fexp prec emax (Dm + ez) - ez = Dm - 53)
    by (unfold fexp, emin, prec, emax; lia).
  rewrite F1.
  destruct (shr {| shr_m := Zpos mz; shr_r := false; shr_s := false |} ez (Dm - 53))
    as [mrs' e'] eqn:S1.
  assert (P53 : 0 < 2 ^ (Dm - 53)) by (apply Z.pow_pos_nonneg; lia).
  assert (A1 : shr_m mrs' = Zpos mz / 2 ^ (Dm - 53) /\ e' = ez + (Dm - 53)).
  { unfold shr in S1. destruct (Dm - 53) as [|n|n] eqn:En; try lia.
    - injection S1 as <- <-. cbn [shr_m]. rewrite Z.pow_0_r, Z.div_1_r. lia.
    - injection S1 as <- <-. rewrite iter_shr_1_m by (cbn; lia). cbn [shr_m]. split; lia. }
  destruct A1 as [A1 A2].
  assert (A3 : 4503599627370496 <= shr_m mrs' < 9007199254740992).
  { rewrite A1. split.
    - apply Z.div_le_lower_bound; [lia|].
      change 4503599627370496 with (2 ^ 52). rewrite <- pow2_split by lia.
      replace (Dm - 53 + 52) with (Dm - 1) by lia. lia.
    - apply Z.div_lt_upper_bound; [lia|].
      change 9007199254740992 with (2 ^ 53). rewrite <- pow2_split by lia.
      replace (Dm - 53 + 53) with Dm by lia. lia. }
  set (m1 := round_nearest_even (shr_m mrs') (loc_of_shr_record mrs')).
  assert (A4 : shr_m mrs' <= m1 <= shr_m mrs' + 1).
  { unfold m1, round_nearest_even.
    destruct (loc_of_shr_record mrs') as [|[| |]]; try destruct (Z.even _); lia. }
  clearbody m1. destruct m1 as [|q1|q1]; try lia. cbn [Zdigits2].
  destruct (Z.eq_dec (Zpos q1) 9007199254740992) as [E|N].
  - injection E as ->. 
    change (Zpos (digits2_pos 9007199254740992)) with 54.
    assert (F2 : fexp prec emax (54 + e') - e' = 1)
      by (unfold fexp, emin, prec, emax; lia).
    rewrite F2. cbn [shr iter_pos shr_1 shr_m].
    change (emax - prec) with 971.
    destruct (Z.leb_spec (e' + 1) 971); [right | now left].
    exists 4503599627370496%positive, (e' + 1). repeat split; try reflexivity; lia.
  - assert (D1 : Zpos (digits2_pos q1) = 53)
      by (apply digits2_pos_unique; change (2 ^ (53 - 1)) with 4503599627370496;
          change (2 ^ 53) with 9007199254740992; lia).
    rewrite D1.
    assert (F2 : fexp prec emax (53 + e') - e' = 0)
      by (unfold fexp, emin, prec, emax; lia).
    rewrite F2. cbn [shr shr_m].
    change (emax - prec) with 971.
    destruct (Z.leb_spec e' 971); [right | now left].
    exists q1, e'. repeat split; try reflexivity; lia.
Qed.

Lemma binary_round_integer (sx : bool) (p : positive) :
  binary_round prec emax sx p 0 = S754_infinity sx \/
  exists q e,
    binary_round prec emax sx p 0 = S754_finite sx q e /\
    Zpos (digits2_pos q) = 53 /\ -52 <= e <= 971.
Proof.
  unfold binary_round.
  pose proof (digits2_pos_bounds p) as Bp.
  set (D := Zpos (digits2_pos p)) in *.
  assert (F : fexp prec emax (D + 0) = D - 53)
    by (unfold fexp, emin, prec, emax; lia).
  rewrite F. unfold shl_align.
  destruct (D - 53 - 0) as [|n|n] eqn:En.
  - apply round_aux_wide; fold D; lia.
  - apply round_aux_wide; fold D; lia.
  - assert (Dz : Zpos (digits2_pos (Pos.iter xO p n)) = 53).
    { apply digits2_pos_unique. rewrite iter_xO.
      assert (E1 : 2 ^ (53 - 1) = 2 ^ (D - 1) * 2 ^ Zpos n)
        by (rewrite <- pow2_split by lia; f_equal; lia).
      assert (E2 : 2 ^ 53 = 2 ^ D * 2 ^ Zpos n)
        by (rewrite <- pow2_split by lia; f_equal; lia).
      rewrite E1, E2.
      pose proof (Z.pow_pos_nonneg 2 (Zpos n) ltac:(lia) ltac:(lia)). nia. }
    apply round_aux_wide; rewrite Dz; lia.
Qed.

Lemma int_of_negative_float (n : Z) (f : float) :
  n < 0 -> float_of_int n = Returned f ->
  exists a, int_of_float f = Returned a /\ a < 0.
Proof.
  intros N. destruct n as [|p|p]; try lia. unfold float_of_int.
  cbn [binary_normalize].
  destruct (binary_round_integer true p) as [I | (q & e & B & Dq & Be)].
  - rewrite I. vm_compute. discriminate.
  - rewrite B. destruct (is_infinity _); [discriminate|].
    intros E.
    assert (Ef : f = SF2Prim (S754_finite true q e)) by (now injection E).
    subst f. clear E. unfold int_of_float.
    rewrite Prim2SF_SF2Prim.
    2: { cbn [SpecFloat.valid_binary]. unfold bounded, canonical_mantissa.
         rewrite Dq. apply andb_true_iff. split.
         - apply Z.eqb_eq. unfold fexp, emin, prec, emax. lia.
         - apply Z.leb_le. change (emax - prec) with 971. lia. }
    pose proof (digits2_pos_bounds q) as Bq. rewrite Dq in Bq.
    change (2 ^ (53 - 1)) with 4503599627370496 in Bq.
    eexists. split; [reflexivity|].
    destruct (Z.leb_spec 0 e).
    + pose proof (Z.pow_pos_nonneg 2 e ltac:(lia) ltac:(lia)). nia.
    + assert (P : 0 < 2 ^ (- e)) by (apply Z.pow_pos_nonneg; lia).
      assert (L : 2 ^ (- e) <= 2 ^ 52) by (apply Z.pow_le_mono_r; lia).
      change (2 ^ 52) with 4503599627370496 in L.
      pose proof (Z.div_str_pos (Zpos q) (2 ^ (- e)) ltac:(lia)). lia.
Qed.

(** Before the [try], [real_time_monitoring] refuses a negative duration:
    the name [time] is unbound, or the seconds are too many for a float, or
    the frame count of the animation is negative. *)
Lemma session_setup_negative (g : globals) (loc : string) (n : Z) (w : world)
    (s : system) :
  n < 0 ->
  exists e, session_setup g loc n w s
            = (Raised e, emit (Print MsgPressCtrlC) (emit (Print (MsgStarting loc)) s)).
Proof.
  intros N. unfold session_setup. py_unfold. cbn.
  destruct (g_time g); cbn; [|eexists; reflexivity].
  destruct (float_of_int (n * 60)); cbn; [|eexists; reflexivity].
  assert (Q : n * 60 / 5 < 0) by (apply Z.div_lt_upper_bound; lia).
  destruct (float_of_int (n * 60 / 5)) as [q|e] eqn:Fq; cbn; [|eexists; reflexivity].
  destruct (int_of_negative_float _ q Q Fq) as (fc & -> & Nf). cbn.
  apply Z.ltb_lt in Nf. rewrite Nf. cbn. eexists; reflexivity.
Qed.

Lemma session_setup_zero (loc : string) (w : world) (s : system) :
  exists end_time s1, session_setup with_time loc 0 w s = (Returned end_time, s1).
Proof.
  unfold session_setup. py_unfold. cbn.
  change (float_of_int 0) with (Returned 0%float : outcome float). cbn.
  change (int_of_float 0) with (Returned 0 : outcome Z). cbn.
  match goal with
  | |- context [draw_frames ?n ?x] =>
      pose proof (draw_frames_returns n x) as R;
      destruct (draw_frames n x) as [[u|e] s1]; cbn in *; [|discriminate]
  end.
  eexists. eexists. reflexivity.
Qed.

(** ** The duration prompt *)

(** C7, as the code has it. An answer that [int] refuses gives the default of
    60 minutes and a notice, and so does, without the notice, the empty
    answer; an answer that [int] accepts is passed on as it is, and [main]
    calls [real_time_monitoring] with the duration so read. A negative
    duration is refused there: the call raises before its loop, having
    printed its two opening lines and nothing more, so no session runs with
    a negative planned duration. The duration 0 is not refused: where [time]
    is bound the call gets to its loop with a planned duration of zero
    minutes. *)
Theorem duration_default_on_parse_failure_only (u : unicode) (answer : text) :
  (answer = [] -> read_duration u answer = (60, [])) /\
  (answer <> [] -> py_int u answer = None ->
     read_duration u answer = (60, [Print MsgInvalidDuration])) /\
  (forall n, answer <> [] -> py_int u answer = Some n ->
     read_duration u answer = (n, [])) /\
  (forall g loc w,
     main g u loc answer w
     = real_time_monitoring g loc (fst (read_duration u answer)) w
         (main_object u answer)) /\
  (forall g loc w s n, n < 0 ->
     session_runs g loc n w s = false /\
     exists e,
       real_time_monitoring g loc n w s
       = (Some (Raised e), emit (Print MsgPressCtrlC) (emit (Print (MsgStarting loc)) s))) /\
  (forall loc w s, session_runs with_time loc 0 w s = true) /\
  read_duration u (text_of "abc") = (60, [Print MsgInvalidDuration]) /\
  read_duration u (text_of "2.5") = (60, [Print MsgInvalidDuration]) /\
  read_duration u (text_of "15") = (15, []) /\
  read_duration u (text_of "0") = (0, []) /\
  read_duration u (text_of "-5") = (-5, []) /\
  (exists msg,
     fst (main with_time u "Lab" (text_of "-5") world_timeout)
     = Some (Raised (Exception "ValueError" msg))).
Proof.
  splits; try reflexivity; try (eexists; reflexivity).
  - intros ->. reflexivity.
  - intros N E. unfold read_duration.
    destruct answer; [contradiction|]. rewrite E. reflexivity.
  - intros n N E. unfold read_duration.
    destruct answer; [contradiction|]. rewrite E. reflexivity.
  - intros g loc w. unfold main, main_object. destruct (read_duration u answer). reflexivity.
  - intros g loc w s n N.
    destruct (session_setup_negative g loc n w s N) as [e E].
    unfold session_runs, real_time_monitoring. rewrite E. cbn [fst].
    split; [reflexivity|]. now exists e.
  - intros loc w s. unfold session_runs.
    destruct (session_setup_zero loc w s) as (end_time & s1 & ->). reflexivity.
Qed.

(** C7, as the specification states it, fails: the answer "0" is neither
    refused nor replaced by 60; the session runs with a planned duration of
    zero minutes, finds its end time reached at the first test of the loop,
    and ends without a reading. *)
Lemma zero_duration_accepted :
  ~ rejected_or_defaulted with_time unicode_excerpt "Lab" (text_of "0") world_timeout.
Proof.
  intros H. destruct (H ltac:(vm_compute; discriminate)) as [N|D].
  - vm_compute in N. discriminate.
  - vm_compute in D. discriminate.
Qed.

Example zero_duration_session :
  let r := main with_time unicode_excerpt "Lab" (text_of "0") world_timeout in
  fst r = Some (Returned tt) /\
  readings (snd r) = [0%float] /\
  count is_export (output (snd r)) = 0%nat /\
  count is_db_close (output (snd r)) = 1%nat.
Proof. vm_compute. auto. Qed.

(** ** The module as shipped *)

(** In the namespace of the file as it stands, where [time] is not bound,
    [real_time_monitoring] raises [NameError] at line 88, before the [try]:
    on any object and for any arguments it prints its two opening lines and
    nothing else happens. So [main], whatever it is answered, ends with that
    exception: no reading is taken, nothing is exported, and the connection
    opened by [__init__] is left open. *)
Theorem shipped_raises_name_error (u : unicode) (loc : string) (answer : text)
    (w : world) :
  (forall dur s,
     real_time_monitoring shipped loc dur w s
     = (Some (Raised (Exception "NameError" "name 'time' is not defined")),
        emit (Print MsgPressCtrlC) (emit (Print (MsgStarting loc)) s))) /\
  fst (main shipped u loc answer w)
    = Some (Raised (Exception "NameError" "name 'time' is not defined")) /\
  readings (snd (main shipped u loc answer w)) = [0%float] /\
  timestamps (snd (main shipped u loc answer w)) = [Seed] /\
  conn_open (db_connection (snd (main shipped u loc answer w))) = true /\
  count is_export (output (snd (main shipped u loc answer w))) = 0%nat /\
  count is_db_close (output (snd (main shipped u loc answer w))) = 0%nat.
Proof.
  split; [reflexivity|].
  unfold main, read_duration.
  destruct (py_int u _) as [n|]; cbn; splits; reflexivity.
Qed.

(** * Further properties *)

(** ** The classifier is monotone *)

Lemma SFleb_ltb_trans (f1 f2 f3 : spec_float) :
  SFleb f1 f2 = true -> SFltb f2 f3 = true -> SFltb f1 f3 = true.
Proof.
  unfold SFleb, SFltb.
  destruct f1 as [s1|s1| |s1 m1 e1], f2 as [s2|s2| |s2 m2 e2], f3 as [s3|s3| |s3 m3 e3];
    cbn; try discriminate; try (destruct s1; discriminate || reflexivity);
    try (destruct s2; discriminate || (destruct s3; discriminate || reflexivity));
    try (destruct s1, s2; discriminate || (try destruct s3; discriminate || reflexivity));
    try (destruct s1, s3; discriminate || (try destruct s2; discriminate || reflexivity)).
  all: change (Pos.compare_cont Eq m1 m2) with (m1 ?= m2)%positive;
       change (Pos.compare_cont Eq m2 m3) with (m2 ?= m3)%positive;
       change (Pos.compare_cont Eq m1 m3) with (m1 ?= m3)%positive.
  all: destruct s1, s2, s3; try discriminate; try reflexivity.
  all: destruct (Z.compare_spec e1 e2), (Z.compare_spec e2 e3), (Z.compare_spec e1 e3);
       try discriminate; try reflexivity; try lia; subst.
  all: destruct (Pos.compare_spec m1 m2), (Pos.compare_spec m2 m3), (Pos.compare_spec m1 m3);
       cbn; try discriminate; try reflexivity; try lia.
Qed.

Lemma leb_ltb_trans (x y z : float) :
  (x <=? y)%float = true -> (y <? z)%float = true -> (x <? z)%float = true.
Proof. rewrite leb_spec, !ltb_spec. apply SFleb_ltb_trans. Qed.

(** X2. A higher concentration never gets a lower level: for [c1 <= c2],
    the level of [c1] is at most the level of [c2] in the order Low, Medium,
    High. *)
Theorem calculate_risk_level_monotone (c1 c2 : float) :
  (c1 <=? c2)%float = true ->
  (risk_rank (calculate_risk_level c1) <= risk_rank (calculate_risk_level c2))%nat.
Proof.
  intros L. unfold calculate_risk_level.
  destruct (c2 <? 0.01)%float eqn:A2.
  - rewrite (leb_ltb_trans c1 c2 0.01 L A2). vm_compute. lia.
  - destruct (c2 <? 0.1)%float eqn:B2.
    + rewrite (leb_ltb_trans c1 c2 0.1 L B2).
      destruct (c1 <? 0.01)%float; vm_compute; lia.
    + destruct (c1 <? 0.01)%float; [vm_compute; lia|].
      destruct (c1 <? 0.1)%float; vm_compute; lia.
Qed.

Lemma calculate_risk_level_monotone_example :
  (risk_rank (calculate_risk_level 0.02) <= risk_rank (calculate_risk_level 0.15))%nat.
Proof. apply (calculate_risk_level_monotone 0.02 0.15). reflexivity. Defined.

(** ** The export on its own *)


(** X4. The export loses nothing but the seeds. When the two lists behind
    index 0 have equal lengths and [to_csv] returns, the frame written holds, column by column
    and in order, the timestamps and the readings behind index 0, the
    location on every row, and for every row the level of its
    concentration; so both lists can be read back from the file. *)
Theorem export_to_csv_round_trip (loc : string) (now : datetime) (s : system) :
  List.length (tl (readings s)) = List.length (tl (timestamps s)) ->
  exists fn df,
    export_to_csv loc now None s = (Returned fn, emit (ToCsv fn df) s) /\
    columns df = ["Timestamp"; "Location"; "Concentration"; "Risk_Level"] /\
    map r_timestamp (records df) = tl (timestamps s) /\
    map r_concentration (records df) = tl (readings s) /\
    map r_location (records df) = repeat loc (List.length (tl (readings s))) /\
    map r_risk_level (records df) = map calculate_risk_level (tl (readings s)).
Proof.
  intros L.
  assert (E : List.length (tl (timestamps s)) = (List.length (timestamps s) - 1)%nat)
    by (destruct (timestamps s); cbn; lia).
  unfold export_to_csv, bind, get, lift, modify, ret. cbv beta iota.
  unfold data_frame.
  rewrite repeat_length, length_map, <- E, <- L, !Nat.eqb_refl. cbn [andb].
  eexists. eexists. split; [reflexivity|]. cbn [columns records].
  destruct (zip_rows_columns (tl (timestamps s))
              (repeat loc (List.length (tl (timestamps s))))
              (tl (readings s)) (map calculate_risk_level (tl (readings s))))
    as (Z1 & Z2 & Z3 & Z4);
    rewrite ?repeat_length, ?length_map; auto.
  rewrite L. splits; auto.
Qed.

Lemma export_to_csv_round_trip_example :
  exists fn df,
    export_to_csv "Lab" (at_second 7) None two_readings
      = (Returned fn, emit (ToCsv fn df) two_readings) /\
    columns df = ["Timestamp"; "Location"; "Concentration"; "Risk_Level"] /\
    map r_timestamp (records df) = tl (timestamps two_readings) /\
    map r_concentration (records df) = tl (readings two_readings) /\
    map r_location (records df) = repeat "Lab" (List.length (tl (readings two_readings))) /\
    map r_risk_level (records df) = map calculate_risk_level (tl (readings two_readings)).
Proof.
  apply (export_to_csv_round_trip "Lab" (at_second 7) two_readings). reflexivity.
Defined.

(** ** Names of exports *)

Lemma lex_eq (c1 c2 : comparison) : lex c1 c2 = Eq <-> c1 = Eq /\ c2 = Eq.
Proof. destruct c1, c2; cbn; split; try tauto; try discriminate; intros [? ?]; discriminate. Qed.

Lemma dt_compare_seconds_eq (a b : datetime) :
  dt_compare_seconds a b = Eq <-> same_second a b.
Proof.
  unfold dt_compare_seconds, same_second.
  rewrite !lex_eq, !Z.compare_eq_iff. tauto.
Qed.

(** X5. The name of an export identifies the second it was written in and
    nothing finer: two exports get the same file name exactly when their
    wall times agree down to the second, whatever their microseconds, so
    the later of two exports written within one second replaces the
    earlier. *)
Theorem export_name_collides_within_second (w1 w2 : world) :
  valid_datetime (w_export_now w1) = true ->
  valid_datetime (w_export_now w2) = true ->
  (export_name w1 = export_name w2 <->
   same_second (w_export_now w1) (w_export_now w2)).
Proof.
  intros V1 V2. rewrite <- dt_compare_seconds_eq, <- (export_name_sortable w1 w2 V1 V2).
  split.
  - intros ->. apply compare_refl.
  - apply String.compare_eq_iff.
Qed.

Lemma export_name_collides_example :
  export_name world_cancelled = export_name world_write_fault <->
  same_second (w_export_now world_cancelled) (w_export_now world_write_fault).
Proof.
  apply (export_name_collides_within_second world_cancelled world_write_fault);
    reflexivity.
Defined.

(** ** The loop body on a well-shaped object *)

Lemma shaped_stored (s s' : system) (c : float) (t : datetime) :
  readings s' = (readings s ++ [c])%list ->
  timestamps s' = (timestamps s ++ [At t])%list ->
  shaped s = true -> shaped s' = true.
Proof.
  unfold shaped. intros -> ->.
  destruct (timestamps s) as [|[|] ts]; cbn; try discriminate.
  rewrite !andb_true_iff, !Nat.eqb_eq, forallb_app, !length_app.
  intros [H1 H2]. rewrite H1. cbn. split; [reflexivity|lia].
Qed.

Lemma shaped_same (s s' : system) :
  readings s' = readings s -> timestamps s' = timestamps s ->
  shaped s' = shaped s.
Proof. unfold shaped. now intros -> ->. Qed.

(** Outcome and output of a run of the body, call by call. *)
Lemma tick_full (loc : string) (io : tick_io) (s : system) :
  fst (tick loc io s) = tick_outcome io (conn_open (db_connection s)) /\
  output (snd (tick loc io s))
    = (output s ++ tick_events loc io (conn_open (db_connection s)))%list.
Proof.
  unfold tick, tick_outcome, tick_events, tick_stage, status_lines.
  py_unfold.
  destruct (io_fault io) as [[c e]|] eqn:F; [destruct c|]; cbn;
    destruct (conn_open (db_connection s)) eqn:O; cbn;
    try (destruct (calculate_risk_level (io_concentration io) =? "High")%string; cbn);
    try match goal with
    | |- context [draw_frames ?n ?x] =>
        let D := fresh "D" in let R := fresh "R" in
        pose proof (draw_frames_frame n x) as D;
        pose proof (draw_frames_returns n x) as R;
        destruct (draw_frames n x) as [[u|e'] s1]; cbn in *;
        [|discriminate R];
        destruct D as (D1 & D2 & D3 & D4 & D5 & D6)
    end.
  all: split; try reflexivity;
    try (rewrite app_nil_r; reflexivity);
    try (rewrite D4, <- !app_assoc; reflexivity).
Qed.

Lemma tick_shaped (loc : string) (io : tick_io) (s : system) :
  in_step io = true -> shaped s = true -> shaped (snd (tick loc io s)) = true.
Proof.
  intros A H. pose proof (tick_spec loc io s) as T. cbv zeta in T.
  destruct T as (T1 & T2 & _).
  destruct (tick_stage io (conn_open (db_connection s))) eqn:St.
  - rewrite app_nil_r in T1, T2. now rewrite (shaped_same s _ T1 T2).
  - destruct (tick_stage_half _ _ St) as [e F]. unfold in_step in A.
    rewrite F in A. discriminate.
  - apply (shaped_stored s _ _ _ T1 T2 H).
  - apply (shaped_stored s _ _ _ T1 T2 H).
  - apply (shaped_stored s _ _ _ T1 T2 H).
Qed.

(** ** The display does not influence the session *)

Lemma record_of_eq (s1 s2 : system) :
  record_of s1 = record_of s2 <->
  db_connection s1 = db_connection s2 /\ readings s1 = readings s2 /\
  timestamps s1 = timestamps s2 /\ ani s1 = ani s2 /\
  ax_hlines s1 = ax_hlines s2 /\ output s1 = output s2.
Proof.
  unfold record_of. split.
  - intros H. injection H. auto 10.
  - intros (-> & -> & -> & -> & -> & ->). reflexivity.
Qed.

Lemma record_shaped (s1 s2 : system) :
  record_of s1 = record_of s2 -> shaped s2 = shaped s1.
Proof.
  rewrite record_of_eq. intros (_ & R & T & _). now apply shaped_same.
Qed.

Lemma tick_stage_still (io : tick_io) (b : bool) :
  tick_stage (still io) b = tick_stage io b.
Proof. reflexivity. Qed.

Lemma tick_record (loc : string) (io : tick_io) (s1 s2 : system) :
  record_of s1 = record_of s2 ->
  fst (tick loc io s1) = fst (tick loc (still io) s2) /\
  record_of (snd (tick loc io s1)) = record_of (snd (tick loc (still io) s2)).
Proof.
  intros E.
  apply record_of_eq in E. destruct E as (Ed & Er & Et & Ea & Eh & Eo).
  destruct (tick_full loc io s1) as (O1 & P1).
  destruct (tick_full loc (still io) s2) as (O2 & P2).
  pose proof (tick_spec loc io s1) as T1. cbv zeta in T1.
  pose proof (tick_spec loc (still io) s2) as T2. cbv zeta in T2.
  rewrite tick_stage_still in T2.
  destruct T1 as (A1 & B1 & C1 & D1 & F1 & _).
  destruct T2 as (A2 & B2 & C2 & D2 & F2 & _).
  split.
  - rewrite O1, O2, Ed. reflexivity.
  - apply record_of_eq. rewrite A1, A2, B1, B2, C1, C2, D1, D2, F1, F2, P1, P2.
    rewrite Ed, Er, Et, Ea, Eh, Eo. splits; reflexivity.
Qed.

Lemma loop_record (loc : string) (end_time : float) (script : list tick_io) :
  forall s1 s2, record_of s1 = record_of s2 ->
  fst (monitoring_loop loc end_time script s1)
    = fst (monitoring_loop loc end_time (map still script) s2) /\
  record_of (snd (monitoring_loop loc end_time script s1))
    = record_of (snd (monitoring_loop loc end_time (map still script) s2)).
Proof.
  induction script as [|io rest IH]; intros s1 s2 E; cbn [map monitoring_loop].
  - auto.
  - unfold perform, raise, ret. cbn [still io_fault io_clock].
    destruct (io_fault io) as [[c e]|] eqn:F.
    + destruct (call_eqb AtClock c); [auto|].
      destruct (io_clock io <? end_time)%float; [|auto].
      destruct (tick_record loc io s1 s2 E) as (O & R).
      destruct (tick loc io s1) as [r1 t1], (tick loc (still io) s2) as [r2 t2].
      cbn [fst snd] in *. subst r2. destruct r1; [apply IH|]; auto.
    + destruct (io_clock io <? end_time)%float; [|auto].
      destruct (tick_record loc io s1 s2 E) as (O & R).
      destruct (tick loc io s1) as [r1 t1], (tick loc (still io) s2) as [r2 t2].
      cbn [fst snd] in *. subst r2. destruct r1; [apply IH|]; auto.
Qed.

Lemma loop_shaped (loc : string) (end_time : float) (script : list tick_io) :
  forall s, forallb in_step script = true -> shaped s = true ->
  shaped (snd (monitoring_loop loc end_time script s)) = true.
Proof.
  intros s A H.
  destruct (loop_buffers loc end_time script s) as (k & t & _ & R & T & HS).
  pose proof (in_step_whole _ t k A HS) as E. subst t.
  apply (shaped_append s _ _ R T H).
Qed.

Lemma session_setup_record (g : globals) (loc : string) (dur : Z) (w : world)
    (s1 s2 : system) :
  record_of s1 = record_of s2 ->
  fst (session_setup g loc dur w s1)
    = fst (session_setup g loc dur (without_frames w) s2) /\
  record_of (snd (session_setup g loc dur w s1))
    = record_of (snd (session_setup g loc dur (without_frames w) s2)).
Proof.
  intros E. apply record_of_eq in E. destruct E as (Ed & Er & Et & Ea & Eh & Eo).
  unfold session_setup. py_unfold. cbn.
  destruct (g_time g); cbn.
  2: { split; [reflexivity|]. apply record_of_eq. cbn. splits; congruence. }
  destruct (float_of_int (dur * 60)); cbn.
  2: { split; [reflexivity|]. apply record_of_eq. cbn. splits; congruence. }
  destruct (float_of_int (dur * 60 / 5)); cbn.
  2: { split; [reflexivity|]. apply record_of_eq. cbn. splits; congruence. }
  destruct (int_of_float a0); cbn.
  2: { split; [reflexivity|]. apply record_of_eq. cbn. splits; congruence. }
  destruct (a1 <? 0); cbn.
  1: { split; [reflexivity|]. apply record_of_eq. cbn. splits; congruence. }
  match goal with
  | |- context [draw_frames ?n ?x] =>
      pose proof (draw_frames_frame n x) as D;
      pose proof (draw_frames_returns n x) as R;
      destruct (draw_frames n x) as [[u|e'] t1]; cbn in *;
      destruct D as (D1 & D2 & D3 & D4 & D5 & D6)
  end.
  - split; [reflexivity|]. apply record_of_eq. cbn. splits; congruence.
  - discriminate.
Qed.

Lemma session_setup_shaped (g : globals) (loc : string) (dur : Z) (w : world)
    (s : system) :
  shaped s = true -> shaped (snd (session_setup g loc dur w s)) = true.
Proof.
  intros H. pose proof (session_setup_spec g loc dur w s) as U. cbv zeta in U.
  destruct U as (U1 & U2 & _). now rewrite (shaped_same s _ U1 U2).
Qed.

Lemma cleanup_ani (loc : string) (w : world) (s : system) :
  ani (snd (cleanup loc w s)) = ani s /\
  ax_hlines (snd (cleanup loc w s)) = ax_hlines s.
Proof.
  unfold cleanup, export_to_csv, perform_exit, bind, get, lift. cbv beta iota.
  destruct (1 <? List.length (readings s))%nat; cbv beta iota;
    [destruct (data_frame _ _ _ _)|]; cbn;
    repeat (match goal with
            | |- context [exit_fault w ?c] => destruct (exit_fault w c)
            end; cbn); auto.
Qed.

(** The [finally] clause reads the lists and the script of its own calls,
    not the view. *)
Lemma cleanup_record (loc : string) (w : world) (s1 s2 : system) :
  record_of s1 = record_of s2 ->
  fst (cleanup loc w s1) = fst (cleanup loc (without_frames w) s2) /\
  record_of (snd (cleanup loc w s1))
    = record_of (snd (cleanup loc (without_frames w) s2)).
Proof.
  intros E. apply record_of_eq in E. destruct E as (Ed & Er & Et & Ea & Eh & Eo).
  unfold cleanup, export_to_csv, perform_exit, close, print, bind, get, lift,
    modify, raise, ret, exit_fault.
  cbn [without_frames w_export_now w_exit]. cbv beta iota. rewrite <- Er.
  destruct (1 <? List.length (readings s1))%nat; cbv beta iota;
    rewrite <- ?Er, <- ?Et;
    [destruct (data_frame _ _ _ _)|]; cbn [fst snd];
    repeat (match goal with
            | |- context [find ?f (w_exit w)] => destruct (find f (w_exit w))
            end; cbn [fst snd option_map]).
  all: split; [reflexivity|]; apply record_of_eq; cbn; splits; congruence.
Qed.

Lemma flush_events_record (loc : string) (w : world) (s1 s2 : system) :
  readings s1 = readings s2 -> timestamps s1 = timestamps s2 ->
  flush_events loc (without_frames w) s2 = flush_events loc w s1.
Proof.
  intros R T. unfold flush_events, export_frame, buffer_rows, export_name.
  cbn [without_frames w_export_now]. now rewrite R, T.
Qed.

(** X6. What the display draws during the pauses has no influence on the
    session, the event loop keeping the exceptions of the callback to itself.
    Take a session started on a fresh object and the same session with no
    animation frame drawn at all: both end (or are still running) in the
    same way, and they leave the same readings, timestamps, store, animation
    and output, export included; only the axis limits and the data of the
    plotted line can differ. *)
Theorem session_independent_of_frames (g : globals) (loc : string) (dur : Z)
    (w : world) :
  fst (real_time_monitoring g loc dur w init)
    = fst (real_time_monitoring g loc dur (without_frames w) init) /\
  record_of (snd (real_time_monitoring g loc dur w init))
    = record_of (snd (real_time_monitoring g loc dur (without_frames w) init)).
Proof.
  unfold real_time_monitoring.
  destruct (session_setup_record g loc dur w init init eq_refl) as (O0 & R0).
  destruct (session_setup g loc dur w init) as [[end_time|e] s1],
           (session_setup g loc dur (without_frames w) init) as [r0' s1'].
  all: cbn [fst snd] in O0, R0; subst r0'.
  2: auto.
  cbn [without_frames w_ticks].
  destruct (loop_record loc end_time (w_ticks w) s1 s1' R0) as (O1 & R1).
  destruct (monitoring_loop loc end_time (w_ticks w) s1) as [[r1|] s2],
           (monitoring_loop loc end_time (map still (w_ticks w)) s1') as [r1' s2'].
  all: cbn [fst snd] in O1, R1; subst r1'.
  2: auto.
  unfold finally.
  assert (HR : fst (handlers w r1 s2) = fst (handlers (without_frames w) r1 s2') /\
               record_of (snd (handlers w r1 s2))
               = record_of (snd (handlers (without_frames w) r1 s2'))).
  { apply record_of_eq in R1. destruct R1 as (Ed & Er & Et & Ea & Eh & Eo).
    unfold handlers, perform_exit, exit_fault, print, bind, modify, raise, ret.
    cbn [without_frames w_exit].
    destruct r1 as [u|[| |]]; cbn [fst snd];
      try destruct (find _ (w_exit w)); cbn [fst snd option_map];
      (split; [reflexivity|]); apply record_of_eq; cbn; splits; congruence. }
  destruct (handlers w r1 s2) as [r2 s3],
           (handlers (without_frames w) r1 s2') as [r2' s3'].
  cbn [fst snd] in HR. destruct HR as (-> & R2).
  destruct (cleanup_record loc w s3 s3' R2) as (C1 & C2).
  destruct (cleanup loc w s3) as [[u|e] s4],
           (cleanup loc (without_frames w) s3') as [[u'|e'] s4'];
    cbn [fst snd] in *; try discriminate; auto.
  injection C1 as ->. auto.
Qed.

(** ** What the store holds *)

Lemma zip_rows_prefix (loc : string) (l : list tick_io) :
  forall t k, (t <= k)%nat ->
  zip_rows (map stamp_of (firstn t l)) (repeat loc (List.length (firstn t l)))
    (map io_concentration (firstn k l))
    (map calculate_risk_level (map io_concentration (firstn k l)))
  = map (tick_row loc) (firstn t l).
Proof.
  induction l as [|io l IH]; intros t k B.
  - rewrite !firstn_nil. reflexivity.
  - destruct t as [|t]; [reflexivity|]. destruct k as [|k]; [lia|].
    cbn. rewrite IH by lia. reflexivity.
Qed.

(** The rows of an object that started from the seeds alone, the last
    reading possibly without its timestamp. *)
Lemma buffer_rows_prefix (loc : string) (s : system) (r0 : float)
    (l : list tick_io) (t k : nat) :
  (t <= k)%nat ->
  readings s = r0 :: map io_concentration (firstn k l) ->
  timestamps s = Seed :: map stamp_of (firstn t l) ->
  buffer_rows loc s = map (tick_row loc) (firstn t l).
Proof.
  intros B R T. unfold buffer_rows. rewrite R, T. cbn [tl List.length].
  rewrite Nat.sub_succ, Nat.sub_0_r, length_map. now apply zip_rows_prefix.
Qed.

Lemma loop_durable (loc : string) (end_time : float) (script : list tick_io) :
  forall s,
  conn_open (db_connection s) = true -> conn_pending (db_connection s) = [] ->
  forallb no_write_fault script = true ->
  exists k t, (t <= k <= List.length script)%nat /\
    readings (snd (monitoring_loop loc end_time script s))
      = (readings s ++ map io_concentration (firstn k script))%list /\
    timestamps (snd (monitoring_loop loc end_time script s))
      = (timestamps s ++ map stamp_of (firstn t script))%list /\
    conn_committed (db_connection (snd (monitoring_loop loc end_time script s)))
      = (conn_committed (db_connection s) ++ map (tick_row loc) (firstn t script))%list.
Proof.
  induction script as [|io rest IH]; intros s O P W; cbn [monitoring_loop].
  - exists 0%nat, 0%nat. cbn. rewrite !app_nil_r. auto.
  - cbn [forallb] in W. apply andb_true_iff in W. destruct W as [W0 W].
    destruct (perform_spec io AtClock (io_clock io) s) as [-> | [e ->]].
    2: { exists 0%nat, 0%nat. cbn. rewrite !app_nil_r. splits; auto; lia. }
    destruct (io_clock io <? end_time)%float.
    2: { exists 0%nat, 0%nat. cbn. rewrite !app_nil_r. splits; auto; lia. }
    pose proof (tick_spec loc io s) as T. cbv zeta in T.
    destruct (tick loc io s) as [r1 s1]. cbn [fst snd] in T.
    destruct T as (T1 & T2 & T3 & _ & _ & _ & T7).
    assert (St : tick_stage io (conn_open (db_connection s)) = Unsampled \/
                 tick_stage io (conn_open (db_connection s)) = HalfStored \/
                 tick_stage io (conn_open (db_connection s)) = Committed).
    { unfold tick_stage, no_write_fault in *. rewrite O.
      destruct (io_fault io) as [[c e]|]; [destruct c|]; cbn in W0;
        try discriminate; auto. }
    destruct St as [St|[St|St]]; rewrite St in *.
    + destruct (T7 ltac:(discriminate)) as [e ->].
      exists 0%nat, 0%nat. cbn [fst snd firstn map List.length].
      rewrite T1, T2, T3, !app_nil_r. splits; auto; lia.
    + destruct (T7 ltac:(discriminate)) as [e ->].
      exists 1%nat, 0%nat. cbn [fst snd firstn map List.length].
      rewrite T1, T2, T3, !app_nil_r. splits; auto; lia.
    + assert (O1 : conn_open (db_connection s1) = true) by (rewrite T3; exact O).
      assert (P1 : conn_pending (db_connection s1) = []) by (rewrite T3; reflexivity).
      assert (C1 : conn_committed (db_connection s1)
                   = (conn_committed (db_connection s) ++ [tick_row loc io])%list)
        by (rewrite T3; cbn; rewrite P; reflexivity).
      destruct r1 as [u|e].
      * destruct (IH s1 O1 P1 W) as (k & t & B & I1 & I2 & I3). exists (S k), (S t).
        cbn [firstn map List.length].
        rewrite I1, I2, I3, T1, T2, C1, <- !app_assoc. splits; auto; lia.
      * exists 1%nat, 1%nat. cbn [fst snd firstn map List.length].
        rewrite T1, T2, C1. splits; auto; lia.
Qed.

Lemma cleanup_committed (loc : string) (w : world) (s : system) :
  conn_committed (db_connection (snd (cleanup loc w s)))
    = conn_committed (db_connection s).
Proof.
  destruct (cleanup_general loc w s) as (fin & _ & _ & [[-> _] | [-> _]]); reflexivity.
Qed.

(** X7. The store and the buffer agree unless a write call raised. In a
    session started on a fresh object in which no call of cursor, INSERT or
    COMMIT raises, at every point, still running or ended, however the loop
    was left, the rows committed to the store are exactly the rows the
    export builds from the buffer: one per reading behind the seed, in
    order, with the session's location and the level of the reading. *)
Theorem store_matches_buffer (g : globals) (loc : string) (dur : Z) (w : world) :
  forallb no_write_fault (w_ticks w) = true ->
  conn_committed (db_connection (snd (real_time_monitoring g loc dur w init)))
    = buffer_rows loc (snd (real_time_monitoring g loc dur w init)).
Proof.
  intros W. unfold real_time_monitoring.
  pose proof (session_setup_spec g loc dur w init) as U. cbv zeta in U.
  destruct (session_setup g loc dur w init) as [[end_time|e] s1]; cbn [fst snd] in U;
    destruct U as (U1 & U2 & U3 & _).
  { assert (O1 : conn_open (db_connection s1) = true) by (now rewrite U3).
    assert (P1 : conn_pending (db_connection s1) = []) by (now rewrite U3).
    destruct (loop_durable loc end_time (w_ticks w) s1 O1 P1 W)
      as (k & t & B & I1 & I2 & I3).
    rewrite U1 in I1. rewrite U2 in I2. rewrite U3 in I3.
    cbn [init readings timestamps db_connection setup_database conn_committed app] in I1, I2, I3.
    destruct (monitoring_loop loc end_time (w_ticks w) s1) as [[r1|] s2];
      cbn [fst snd] in *.
    - unfold finally.
      pose proof (handlers_spec w r1 s2) as H. cbv zeta in H.
      destruct (handlers w r1 s2) as [r2 s3]. cbn [fst snd] in H.
      destruct H as (H1 & H2 & H3 & _).
      pose proof (cleanup_committed loc w s3) as CC.
      destruct (cleanup_frame loc w s3) as (C1 & C2).
      destruct (cleanup loc w s3) as [[u|e] s4]; cbn [fst snd] in *;
        rewrite CC, H3, I3; symmetry;
        apply (buffer_rows_prefix loc s4 0%float _ t k); try lia; congruence.
    - rewrite I3. symmetry.
      apply (buffer_rows_prefix loc s2 0%float _ t k); try lia; assumption. }
  cbn [fst snd]. rewrite U3. unfold buffer_rows. rewrite U1, U2. reflexivity.
Qed.

Lemma store_matches_buffer_on_cancellation :
  conn_committed
    (db_connection (snd (real_time_monitoring with_time "Lab" 1 world_cancelled init)))
  = buffer_rows "Lab" (snd (real_time_monitoring with_time "Lab" 1 world_cancelled init)).
Proof.
  apply (store_matches_buffer with_time "Lab" 1 world_cancelled). reflexivity.
Defined.

(** ** While the loop runs *)

(** X8. While a session started on a fresh object is still in its loop,
    after any number of ticks: every tick scripted so far has stored its
    sample and committed its row, nothing is pending, the connection is
    open, and nothing has been exported or closed. *)
Theorem running_session_is_synced (g : globals) (loc : string) (dur : Z) (w : world) :
  fst (real_time_monitoring g loc dur w init) = None ->
  readings (snd (real_time_monitoring g loc dur w init))
    = 0%float :: map io_concentration (w_ticks w) /\
  timestamps (snd (real_time_monitoring g loc dur w init))
    = Seed :: map stamp_of (w_ticks w) /\
  conn_committed (db_connection (snd (real_time_monitoring g loc dur w init)))
    = map (tick_row loc) (w_ticks w) /\
  conn_pending (db_connection (snd (real_time_monitoring g loc dur w init))) = [] /\
  conn_open (db_connection (snd (real_time_monitoring g loc dur w init))) = true /\
  count is_export (output (snd (real_time_monitoring g loc dur w init))) = 0%nat /\
  count is_db_close (output (snd (real_time_monitoring g loc dur w init))) = 0%nat.
Proof.
  unfold real_time_monitoring.
  destruct (session_setup g loc dur w init) as [[end_time|e] s0] eqn:ES;
    [|discriminate].
  destruct (monitoring_loop loc end_time (w_ticks w) s0) as [[r1|] s2] eqn:EL.
  - destruct (finally (handlers w r1) (cleanup loc w) s2). discriminate.
  - intros _. cbn [fst snd].
    destruct (reached_state g loc dur w end_time s0 s2 (w_ticks w) ES EL)
      as (R & T & O & P & C & _ & Q).
    splits; auto.
    + apply count_quiet_export; exact Q.
    + apply count_quiet_close; exact Q.
Qed.

Lemma running_session_is_synced_example :
  readings (snd (real_time_monitoring with_time "Lab" 1 world_running init))
    = 0%float :: map io_concentration (w_ticks world_running) /\
  timestamps (snd (real_time_monitoring with_time "Lab" 1 world_running init))
    = Seed :: map stamp_of (w_ticks world_running) /\
  conn_committed (db_connection (snd (real_time_monitoring with_time "Lab" 1 world_running init)))
    = map (tick_row "Lab") (w_ticks world_running) /\
  conn_pending (db_connection (snd (real_time_monitoring with_time "Lab" 1 world_running init))) = [] /\
  conn_open (db_connection (snd (real_time_monitoring with_time "Lab" 1 world_running init))) = true /\
  count is_export (output (snd (real_time_monitoring with_time "Lab" 1 world_running init))) = 0%nat /\
  count is_db_close (output (snd (real_time_monitoring with_time "Lab" 1 world_running init))) = 0%nat.
Proof.
  apply (running_session_is_synced with_time "Lab" 1 world_running).
  vm_compute. reflexivity.
Defined.

(** ** The high-risk warning *)

Lemma risk_level_high (c : float) :
  (calculate_risk_level c =? "High")%string = negb (c <? 0.1)%float.
Proof.
  unfold calculate_risk_level.
  destruct (c <? 0.01)%float eqn:A.
  - rewrite (ltb_trans c 0.01 0.1 A eq_refl). reflexivity.
  - destruct (c <? 0.1)%float; reflexivity.
Qed.

Lemma count_warning_status (loc : string) (io : tick_io) :
  count is_warning (status_lines loc io ++ [PltPause])
  = if is_high io then 1%nat else 0%nat.
Proof.
  unfold status_lines, is_high. rewrite risk_level_high.
  destruct (io_concentration io <? 0.1)%float; reflexivity.
Qed.

Lemma loop_admitted (loc : string) (end_time : float) (script : list tick_io) :
  forall s, shaped s = true -> conn_open (db_connection s) = true ->
  forallb (admitted end_time) script = true ->
  count is_warning (output (snd (monitoring_loop loc end_time script s)))
  = (count is_warning (output s) + List.length (filter is_high script))%nat.
Proof.
  induction script as [|io rest IH]; intros s H O A; cbn [monitoring_loop forallb filter].
  - cbn. lia.
  - cbn [forallb] in A. apply andb_true_iff in A. destruct A as [A0 A].
    unfold admitted in A0. unfold perform, ret.
    destruct (io_fault io) as [[c e]|] eqn:F; [discriminate|].
    rewrite A0.
    destruct (tick_full loc io s) as (T1 & T2).
    assert (S1 : shaped (snd (tick loc io s)) = true)
      by (apply tick_shaped; [unfold in_step; now rewrite F | exact H]).
    pose proof (tick_spec loc io s) as T. cbv zeta in T.
    destruct T as (_ & _ & T3 & _).
    unfold tick_outcome, tick_events, tick_stage in *. rewrite F, O in *.
    destruct (tick loc io s) as [r1 s1]. cbn [fst snd] in *. subst r1.
    rewrite IH; auto; [|rewrite T3; exact O].
    rewrite T2, count_app, count_warning_status.
    destruct (is_high io); cbn [List.length]; lia.
Qed.

Lemma session_setup_no_warning (g : globals) (loc : string) (dur : Z) (w : world)
    (s : system) :
  count is_warning (output (snd (session_setup g loc dur w s)))
  = count is_warning (output s).
Proof.
  unfold session_setup. py_unfold. cbn.
  destruct (g_time g); cbn.
  2: { unfold count. rewrite !filter_app, !length_app. cbn. lia. }
  destruct (float_of_int (dur * 60)); cbn.
  2: { unfold count. rewrite !filter_app, !length_app. cbn. lia. }
  destruct (float_of_int (dur * 60 / 5)); cbn.
  2: { unfold count. rewrite !filter_app, !length_app. cbn. lia. }
  destruct (int_of_float a0); cbn.
  2: { unfold count. rewrite !filter_app, !length_app. cbn. lia. }
  destruct (a1 <? 0); cbn.
  1: { unfold count. rewrite !filter_app, !length_app. cbn. lia. }
  match goal with
  | |- context [draw_frames ?n ?x] =>
      pose proof (draw_frames_frame n x) as D;
      destruct (draw_frames n x) as [[u|e'] s1]; cbn in *;
      destruct D as (D1 & D2 & D3 & D4 & D5 & D6)
  end.
  all: unfold count; rewrite D4, !filter_app, !length_app; cbn; lia.
Qed.

(** X9. One warning per High reading. While a session started on a fresh
    object is in its loop, after any number of ticks, the number of
    "High Risk Level Detected" warnings printed equals the number of
    readings taken so far that are not below 0.1. *)
Theorem one_warning_per_high_reading (g : globals) (loc : string) (dur : Z)
    (w : world) :
  fst (real_time_monitoring g loc dur w init) = None ->
  count is_warning (output (snd (real_time_monitoring g loc dur w init)))
  = List.length (filter is_high (w_ticks w)).
Proof.
  intros N. destruct (session_running g loc dur w init N) as (end_time & s0 & ES & A).
  revert N. unfold real_time_monitoring. rewrite ES.
  pose proof (session_setup_no_warning g loc dur w init) as W0.
  pose proof (session_setup_shaped g loc dur w init eq_refl) as S0.
  pose proof (session_setup_spec g loc dur w init) as U. cbv zeta in U.
  rewrite ES in W0, S0, U. cbn [fst snd] in W0, S0, U.
  destruct U as (_ & _ & U3 & _).
  assert (O0 : conn_open (db_connection s0) = true) by (now rewrite U3).
  pose proof (loop_admitted loc end_time (w_ticks w) s0 S0 O0 A) as L.
  destruct (monitoring_loop loc end_time (w_ticks w) s0) as [[r1|] s2].
  - destruct (finally (handlers w r1) (cleanup loc w) s2). discriminate.
  - intros _. cbn [fst snd] in *. rewrite L, W0. reflexivity.
Qed.

Lemma one_warning_per_high_reading_example :
  count is_warning
    (output (snd (real_time_monitoring with_time "Lab" 1 world_running init)))
  = List.length (filter is_high (w_ticks world_running)).
Proof.
  apply (one_warning_per_high_reading with_time "Lab" 1 world_running).
  vm_compute. reflexivity.
Defined.

(** ** How the call ends *)

(** X10. No exception of the loop escapes but the ones the handlers leave
    alone. Take a session started on a fresh object whose loop has ended, by
    its test or by an exception, with no exception between the two appends
    of a tick and none raised by the calls of the handlers and of the
    [finally] clause themselves. The call returns normally if the loop ended
    normally, by [KeyboardInterrupt] or by any [Exception], and after the
    matching line ("stopped by user", or the error text) has been printed;
    any other [BaseException] is raised again. In every case the flush
    follows the handler: the output is that of the loop, the handler's line,
    then the events of the [finally] clause, and the store is closed. *)
Theorem loop_exceptions_are_handled (g : globals) (loc : string) (dur : Z)
    (w : world) (end_time : float) (s0 s2 : system) (r1 : outcome unit) :
  session_setup g loc dur w init = (Returned end_time, s0) ->
  monitoring_loop loc end_time (w_ticks w) s0 = (Some r1, s2) ->
  forallb in_step (w_ticks w) = true ->
  w_exit w = [] ->
  fst (real_time_monitoring g loc dur w init) = Some (handled r1) /\
  output (snd (real_time_monitoring g loc dur w init))
    = (output s2 ++ handler_events r1
       ++ flush_events loc w (snd (real_time_monitoring g loc dur w init)))%list /\
  conn_open (db_connection (snd (real_time_monitoring g loc dur w init))) = false.
Proof.
  intros ES EL A X.
  pose proof (session_setup_shaped g loc dur w init eq_refl) as S0.
  rewrite ES in S0. cbn [snd] in S0.
  pose proof (loop_shaped loc end_time (w_ticks w) s0 A S0) as S2.
  rewrite EL in S2. cbn [snd] in S2.
  unfold real_time_monitoring. rewrite ES, EL. unfold finally.
  assert (HE : handlers w r1 s2
               = (handled r1, fold_left (fun s e => emit e s) (handler_events r1) s2)).
  { unfold handlers, perform_exit, bind, ret. rewrite (exit_fault_none w _ X).
    destruct r1 as [[]|[| |]]; reflexivity. }
  rewrite HE.
  set (s3 := fold_left (fun s e => emit e s) (handler_events r1) s2).
  assert (R3 : readings s3 = readings s2 /\ timestamps s3 = timestamps s2 /\
               output s3 = (output s2 ++ handler_events r1)%list).
  { subst s3. destruct r1 as [[]|[| |]]; cbn; rewrite ?app_nil_r; auto. }
  destruct R3 as (R3 & T3 & O3).
  assert (L3 : List.length (readings s3) = List.length (timestamps s3)).
  { rewrite R3, T3. unfold shaped in S2. apply andb_true_iff in S2.
    now apply Nat.eqb_eq. }
  destruct (cleanup_spec loc w s3 X L3) as (C1 & C2 & C3 & C4 & C5).
  assert (FE : flush_events loc w (snd (cleanup loc w s3)) = flush_events loc w s3)
    by (unfold flush_events, export_frame, buffer_rows; rewrite C2, C3; reflexivity).
  destruct (cleanup loc w s3) as [[u|e] s4]; cbn [fst snd] in *; [|discriminate].
  rewrite FE, C4, C5, O3, <- app_assoc. splits; reflexivity.
Qed.

Lemma loop_exceptions_are_handled_on_cancellation :
  let s0 := snd (session_setup with_time "Lab" 1 world_cancelled init) in
  let s2 := snd (monitoring_loop "Lab" 1060 (w_ticks world_cancelled) s0) in
  fst (real_time_monitoring with_time "Lab" 1 world_cancelled init)
    = Some (handled (Raised KeyboardInterrupt)) /\
  output (snd (real_time_monitoring with_time "Lab" 1 world_cancelled init))
    = (output s2 ++ handler_events (Raised KeyboardInterrupt)
       ++ flush_events "Lab" world_cancelled
            (snd (real_time_monitoring with_time "Lab" 1 world_cancelled init)))%list /\
  conn_open (db_connection
               (snd (real_time_monitoring with_time "Lab" 1 world_cancelled init))) = false.
Proof.
  apply (loop_exceptions_are_handled with_time "Lab" 1 world_cancelled 1060
           (snd (session_setup with_time "Lab" 1 world_cancelled init))).
  - vm_compute. reflexivity.
  - vm_compute. reflexivity.
  - reflexivity.
  - reflexivity.
Defined.

(** ** A second session on the same object *)

Lemma loop_closed (loc : string) (end_time : float) (script : list tick_io)
    (s : system) :
  conn_open (db_connection s) = false ->
  db_connection (snd (monitoring_loop loc end_time script s)) = db_connection s /\
  (List.length (readings (snd (monitoring_loop loc end_time script s)))
   <= List.length (readings s) + 1)%nat /\
  (forall io rest, script = io :: rest -> admitted end_time io = true ->
     monitoring_loop loc end_time script s
     = (Some (Raised (Exception "ProgrammingError" "Cannot operate on a closed database.")),
        set_timestamps (timestamps s ++ [stamp_of io])
          (set_readings (readings s ++ [io_concentration io]) s))).
Proof.
  intros O. destruct script as [|io rest]; cbn [monitoring_loop].
  - cbn. splits; auto; try lia. discriminate.
  - assert (Adm : forall io' rest', io :: rest = io' :: rest' ->
              admitted end_time io' = true ->
              io_fault io = None /\ (io_clock io <? end_time)%float = true /\ io' = io).
    { intros io' rest' E A. injection E as <- _. unfold admitted in A.
      destruct (io_fault io); [discriminate|auto]. }
    destruct (perform_spec io AtClock (io_clock io) s) as [P | [e P]]; rewrite P.
    2: { cbn. splits; auto; try lia. intros io' rest' E A.
         destruct (Adm io' rest' E A) as (F & _ & _).
         unfold perform in P. rewrite F in P. discriminate. }
    destruct (io_clock io <? end_time)%float eqn:G.
    2: { cbn. splits; auto; try lia. intros io' rest' E A.
         destruct (Adm io' rest' E A) as (_ & X & _). discriminate. }
    pose proof (tick_spec loc io s) as T. cbv zeta in T.
    assert (Full : io_fault io = None ->
              tick loc io s
              = (Raised (Exception "ProgrammingError" "Cannot operate on a closed database."),
                 set_timestamps (timestamps s ++ [stamp_of io])
                   (set_readings (readings s ++ [io_concentration io]) s))).
    { intros F. unfold tick, stamp_of. py_unfold. rewrite F. cbn. rewrite O. reflexivity. }
    destruct (tick loc io s) as [r1 s1]. cbn [fst snd] in T.
    destruct T as (T1 & _ & T3 & _ & _ & _ & T7).
    rewrite O in *.
    assert (St : tick_stage io false = Unsampled \/ tick_stage io false = HalfStored
                 \/ tick_stage io false = Stored).
    { unfold tick_stage. destruct (io_fault io) as [[c e]|]; [destruct c|]; auto. }
    destruct (T7 ltac:(destruct St as [-> | [-> | ->]]; discriminate)) as [e ->].
    cbn [fst snd].
    splits.
    + rewrite T3. destruct St as [-> | [-> | ->]]; reflexivity.
    + rewrite T1, length_app. destruct St as [-> | [-> | ->]]; cbn; lia.
    + intros io' rest' E A. destruct (Adm io' rest' E A) as (F & _ & ->).
      specialize (Full F). injection Full as -> ->. reflexivity.
Qed.

Lemma cleanup_closed (loc : string) (w : world) (s : system) :
  conn_open (db_connection s) = false ->
  conn_open (db_connection (snd (cleanup loc w s))) = false.
Proof.
  intros O.
  destruct (cleanup_general loc w s) as (fin & _ & _ & [[-> _] | [-> _]]);
    [exact O | reflexivity].
Qed.

(** X11. An object whose connection is closed, as after a first session,
    cannot persist anything in another one. Whatever is scripted, a call of
    [real_time_monitoring] on it commits no row, and takes at most one
    reading: the first tick stores its sample in the buffer, then the
    cursor is refused ("Cannot operate on a closed database."), which ends
    the loop and is reported by the handler when its print returns; the
    connection stays closed. *)
Theorem closed_connection_session (g : globals) (loc : string) (dur : Z)
    (w : world) (s : system) :
  conn_open (db_connection s) = false ->
  conn_committed (db_connection (snd (real_time_monitoring g loc dur w s)))
    = conn_committed (db_connection s) /\
  conn_open (db_connection (snd (real_time_monitoring g loc dur w s))) = false /\
  (List.length (readings (snd (real_time_monitoring g loc dur w s)))
   <= List.length (readings s) + 1)%nat /\
  (forall end_time s0 io rest,
     session_setup g loc dur w s = (Returned end_time, s0) ->
     w_ticks w = io :: rest -> admitted end_time io = true ->
     readings (snd (real_time_monitoring g loc dur w s))
       = (readings s ++ [io_concentration io])%list /\
     (exit_fault w AtHandlerPrint = None ->
      In (Print (MsgError "Cannot operate on a closed database."))
         (output (snd (real_time_monitoring g loc dur w s))))).
Proof.
  intros O. unfold real_time_monitoring.
  pose proof (session_setup_spec g loc dur w s) as U. cbv zeta in U.
  destruct (session_setup g loc dur w s) as [[end_time|e] s1]; cbn [fst snd] in U;
    destruct U as (U1 & U2 & U3 & _).
  2: { cbn [fst snd]. rewrite U1, U3. splits; auto; try lia. discriminate. }
  assert (O1 : conn_open (db_connection s1) = false) by (now rewrite U3).
  destruct (loop_closed loc end_time (w_ticks w) s1 O1) as (L1 & L2 & L3).
  rewrite U1 in L2.
  destruct (monitoring_loop loc end_time (w_ticks w) s1) as [[r1|] s2] eqn:EL;
    cbn [fst snd] in *.
  2: { rewrite L1, U3. splits; auto; try lia.
       intros end' s0' io rest E W A. injection E as <- <-.
       specialize (L3 io rest W A). discriminate. }
  unfold finally.
  pose proof (handlers_spec w r1 s2) as H. cbv zeta in H.
  assert (HO : r1 = Raised (Exception "ProgrammingError"
                                   "Cannot operate on a closed database.") ->
               exit_fault w AtHandlerPrint = None ->
               In (Print (MsgError "Cannot operate on a closed database."))
                  (output (snd (handlers w r1 s2)))).
  { intros -> X. unfold handlers, perform_exit, bind, ret. rewrite X. cbn.
    apply in_or_app. right. now left. }
  destruct (handlers w r1 s2) as [r2 s3]. cbn [fst snd] in H, HO.
  destruct H as (H1 & H2 & H3 & _).
  pose proof (cleanup_committed loc w s3) as CC.
  assert (O3 : conn_open (db_connection s3) = false) by (now rewrite H3, L1).
  pose proof (cleanup_closed loc w s3 O3) as CO.
  destruct (cleanup_frame loc w s3) as (C1 & C2).
  assert (COut : forall e, In e (output s3) -> In e (output (snd (cleanup loc w s3)))).
  { intros e I. destruct (cleanup_general loc w s3) as (fin & -> & _).
    apply in_or_app. now left. }
  destruct (cleanup loc w s3) as [r4 s4]. cbn [fst snd] in *.
  assert (Fin : snd (let (r', s5) := match r4 with
                                     | Returned _ => (r2, s4)
                                     | Raised e => (Raised e, s4)
                                     end in (Some r', s5)) = s4)
    by (destruct r4; reflexivity).
  rewrite Fin. rewrite CC, C1, H1, H3, L1, U3.
  splits; auto; try lia.
  intros end' s0' io rest E W A. injection E as <- <-.
    specialize (L3 io rest W A). injection L3 as -> ->. split.
    + cbn. now rewrite U1.
    + intros X. apply COut. apply HO; [reflexivity | exact X].
Qed.

Lemma closed_connection_session_after_first :
  let s := snd (real_time_monitoring with_time "Lab" 1 world_timeout init) in
  conn_committed (db_connection (snd (real_time_monitoring with_time "Yard" 1 world_negative s)))
    = conn_committed (db_connection s) /\
  conn_open (db_connection (snd (real_time_monitoring with_time "Yard" 1 world_negative s))) = false /\
  (List.length (readings (snd (real_time_monitoring with_time "Yard" 1 world_negative s)))
   <= List.length (readings s) + 1)%nat /\
  (forall end_time s0 io rest,
     session_setup with_time "Yard" 1 world_negative s = (Returned end_time, s0) ->
     w_ticks world_negative = io :: rest -> admitted end_time io = true ->
     readings (snd (real_time_monitoring with_time "Yard" 1 world_negative s))
       = (readings s ++ [io_concentration io])%list /\
     (exit_fault world_negative AtHandlerPrint = None ->
      In (Print (MsgError "Cannot operate on a closed database."))
         (output (snd (real_time_monitoring with_time "Yard" 1 world_negative s))))).
Proof.
  apply (closed_connection_session with_time "Yard" 1 world_negative).
  vm_compute. reflexivity.
Defined.

(** ** A planned duration of zero *)

Lemma ltb_add_zero (c x : float) :
  (c <? x + 0)%float = (c <? x)%float.
Proof.
  rewrite !ltb_spec, add_spec. unfold SF64add.
  change (Prim2SF 0) with (S754_zero false).
  destruct (Prim2SF x) as [[|]| | |[|] mx ex], (Prim2SF c) as [[|]|[|]| |[|] mc ec]; reflexivity.
Qed.

(** X12. With a planned duration of 0 minutes the session is empty. If the
    name [time] resolves, the first loop test reads a clock that is not
    before the start time and no call of the [finally] clause raises, the
    call prints its opening lines, shows the figure, leaves the loop at once
    and returns normally: no reading is taken, nothing is exported, the
    connection is closed once, and the animation is created with no
    frame. *)
Theorem zero_duration_session_is_empty (g : globals) (loc : string) (w : world)
    (io : tick_io) (rest : list tick_io) :
  g_time g = true ->
  w_ticks w = io :: rest ->
  clock_read io = true ->
  (io_clock io <? w_start w)%float = false ->
  w_exit w = [] ->
  fst (real_time_monitoring g loc 0 w init) = Some (Returned tt) /\
  readings (snd (real_time_monitoring g loc 0 w init)) = [0%float] /\
  timestamps (snd (real_time_monitoring g loc 0 w init)) = [Seed] /\
  conn_committed (db_connection (snd (real_time_monitoring g loc 0 w init))) = [] /\
  ani (snd (real_time_monitoring g loc 0 w init)) = Some 0 /\
  output (snd (real_time_monitoring g loc 0 w init))
    = [Print (MsgStarting loc); Print MsgPressCtrlC; PltShow; PltPause;
       DbClose; Print MsgSessionEnded; PltClose].
Proof.
  intros G W C L X.
  assert (F0 : float_of_int (0 * 60) = Returned 0%float) by (vm_compute; reflexivity).
  assert (F1 : float_of_int (0 * 60 / 5) = Returned 0%float) by (vm_compute; reflexivity).
  assert (I0 : int_of_float 0 = Returned 0) by (vm_compute; reflexivity).
  set (s_pre := emit PltPause (emit PltShow (set_ani (Some 0)
                 (emit (Print MsgPressCtrlC) (emit (Print (MsgStarting loc)) init))))).
  assert (ES : exists s0,
             session_setup g loc 0 w init = (Returned (w_start w + 0)%float, s0) /\
             readings s0 = [0%float] /\ timestamps s0 = [Seed] /\
             db_connection s0 = db_connection init /\ ani s0 = Some 0 /\
             output s0 = [Print (MsgStarting loc); Print MsgPressCtrlC; PltShow; PltPause]).
  { unfold session_setup. py_unfold. rewrite G, F0, F1. cbn. rewrite I0. cbn.
    pose proof (draw_frames_frame (w_first_frames w) s_pre) as D.
    pose proof (draw_frames_returns (w_first_frames w) s_pre) as R.
    fold s_pre.
    destruct (draw_frames (w_first_frames w) s_pre) as [[[]|e] s0]; cbn [fst snd] in *;
      [|discriminate].
    destruct D as (D1 & D2 & D3 & D4 & D5 & D6).
    exists s0. splits; auto. }
  destruct ES as (s0 & ES & R0 & T0 & B0 & A0 & O0).
  unfold real_time_monitoring. rewrite ES, W. cbn [monitoring_loop].
  unfold perform, clock_read in *.
  assert (P : match io_fault io with
              | Some (c', e) => if call_eqb AtClock c' then raise e else ret (io_clock io)
              | None => ret (io_clock io)
              end s0 = (Returned (io_clock io), s0)).
  { destruct (io_fault io) as [[[] e]|]; try discriminate; reflexivity. }
  rewrite P, ltb_add_zero, L.
  unfold finally, handlers, ret.
  assert (L0 : List.length (readings s0) = List.length (timestamps s0))
    by (now rewrite R0, T0).
  destruct (cleanup_spec loc w s0 X L0) as (C1 & C2 & C3 & C4 & C5).
  pose proof (cleanup_ani loc w s0) as (CA & _).
  destruct (cleanup loc w s0) as [[u|e] s4]; cbn [fst snd] in *; [|discriminate].
  rewrite C2, C3, C4, C5, CA, R0, T0, B0, A0, O0.
  unfold flush_events. rewrite R0. splits; reflexivity.
Qed.

Lemma zero_duration_session_is_empty_example :
  fst (real_time_monitoring with_time "Lab" 0 world_timeout init) = Some (Returned tt) /\
  readings (snd (real_time_monitoring with_time "Lab" 0 world_timeout init)) = [0%float] /\
  timestamps (snd (real_time_monitoring with_time "Lab" 0 world_timeout init)) = [Seed] /\
  conn_committed (db_connection (snd (real_time_monitoring with_time "Lab" 0 world_timeout init))) = [] /\
  ani (snd (real_time_monitoring with_time "Lab" 0 world_timeout init)) = Some 0 /\
  output (snd (real_time_monitoring with_time "Lab" 0 world_timeout init))
    = [Print (MsgStarting "Lab"); Print MsgPressCtrlC; PltShow; PltPause;
       DbClose; Print MsgSessionEnded; PltClose].
Proof.
  apply (zero_duration_session_is_empty with_time "Lab" world_timeout
           (sample_tick 1000 0.005 0 None)
           [sample_tick 1005 0.02 5 None; sample_tick 1010 0.15 10 None;
            sample_tick 1060 0.08 60 None]); reflexivity.
Defined.

(** ** What the view shows *)

Lemma comprehension_seconds (first : datetime) (ts : list stamp) :
  forallb is_at ts = true ->
  comprehension (fun t => seconds_between t (At first)) ts
  = Returned (map (seconds_since first) ts).
Proof.
  induction ts as [|t ts IH]; cbn; intros H; [reflexivity|].
  apply andb_true_iff in H. destruct H as [Ht Hts].
  destruct t; [discriminate|]. cbn. now rewrite (IH Hts).
Qed.

Lemma last_map_cons {A B} (f : A -> B) (a : A) (l : list A) (d : A) (d' : B) :
  last (map f (a :: l)) d' = f (last (a :: l) d).
Proof.
  revert a. induction l as [|b l IH]; intros a; [reflexivity|].
  change (last (map f (a :: b :: l)) d') with (last (map f (b :: l)) d').
  change (last (a :: b :: l) d) with (last (b :: l) d). apply IH.
Qed.

Lemma total_seconds_self (d : datetime) : total_seconds d d = 0%float.
Proof. unfold total_seconds. rewrite Z.sub_diag. vm_compute. reflexivity. Qed.

(** X13. What [update_plot] draws on a well-shaped object that holds a
    reading behind the seed. The line gets one point per such reading: its values are those readings, its times
    are the seconds elapsed from the first reading to each timestamp, the
    first of them 0; the time axis ends 5 seconds after the last point and
    starts 60 seconds before it, or at 0 if that is later. The value axis is
    left alone unless the largest entry of [readings] is above its upper
    limit; then the limit becomes that entry times 1.1, and when this is
    not a finite number [set_ylim] raises [ValueError], the line and the
    time axis being already updated. *)
Theorem update_plot_line (s : system) (first : datetime) :
  shaped s = true ->
  nth_error (timestamps s) 1 = Some (At first) ->
  finite_limits (plot_window (plot_times first s)) = true ->
  let xs := plot_times first s in
  let drawn := set_data (xs, tl (readings s)) (set_xlim (plot_window xs) s) in
  let top := (readings_max s * 1.1)%float in
  List.length xs = List.length (tl (readings s)) /\
  hd_error xs = Some 0%float /\
  update_plot s =
    if (snd (ax_ylim s) <? readings_max s)%float
    then if finite_limits (0%float, top)
         then (Returned tt, set_ylim (0%float, top) drawn)
         else (Raised limits_error, drawn)
    else (Returned tt, drawn).
Proof.
  intros H N W. cbv zeta.
  unfold shaped in H. apply andb_true_iff in H. destruct H as [Ht Hl].
  apply Nat.eqb_eq in Hl.
  destruct (timestamps s) as [|[|] [|t1 rest]] eqn:T; try discriminate.
  cbn in N. injection N as ->.
  pose proof (last_is_at rest (At first) Seed Ht) as L.
  cbn in Ht.
  assert (E : comprehension (fun t => seconds_between t (At first)) (At first :: rest)
              = Returned (map (seconds_since first) (At first :: rest))).
  { apply comprehension_seconds. cbn. exact Ht. }
  assert (LS : seconds_between (last (Seed :: At first :: rest) Seed) (At first)
               = Returned (last (map (seconds_since first) (At first :: rest)) 0%float)).
  { change (last (Seed :: At first :: rest) Seed) with (last (At first :: rest) Seed).
    rewrite (last_map_cons (seconds_since first) (At first) rest Seed 0%float).
    destruct (last (At first :: rest) Seed); [discriminate|reflexivity]. }
  unfold plot_times, plot_window in *. rewrite T in *.
  change (tl (Seed :: At first :: rest)) with (At first :: rest) in *.
  splits.
  - rewrite length_map. destruct (readings s); cbn in *; lia.
  - cbn [map hd_error seconds_since]. now rewrite total_seconds_self.
  - unfold update_plot, ax_set_xlim, ax_set_ylim, bind, get, lift, modify, raise, ret.
    rewrite T. cbv beta iota.
    change (1 <? List.length (Seed :: At first :: rest))%nat with true. cbv iota.
    change (nth 1 (Seed :: At first :: rest) Seed) with (At first).
    change (tl (Seed :: At first :: rest)) with (At first :: rest).
    rewrite LS. cbv beta iota. rewrite W. cbv beta iota. rewrite E. cbv beta iota.
    unfold readings_max.
    destruct (readings s) as [|r0 rs] eqn:RS; [discriminate|].
    cbn [py_max tl fst snd ax_ylim set_xlim set_data].
    destruct (snd (ax_ylim s) <? fold_left max2 rs r0)%float; [|reflexivity].
    destruct (finite_limits (0%float, (fold_left max2 rs r0 * 1.1)%float));
      reflexivity.
Qed.

Lemma update_plot_line_example :
  let s := two_readings in
  let xs := plot_times (at_second 0) s in
  let drawn := set_data (xs, tl (readings s)) (set_xlim (plot_window xs) s) in
  let top := (readings_max s * 1.1)%float in
  List.length xs = List.length (tl (readings s)) /\
  hd_error xs = Some 0%float /\
  update_plot s =
    if (snd (ax_ylim s) <? readings_max s)%float
    then if finite_limits (0%float, top)
         then (Returned tt, set_ylim (0%float, top) drawn)
         else (Raised limits_error, drawn)
    else (Returned tt, drawn).
Proof.
  apply (update_plot_line two_readings (at_second 0)); reflexivity.
Defined.

(** On the seeds alone nothing is drawn, and an infinite reading makes the
    callback raise once the line and the time axis are set. *)
Example update_plot_on_seeds : update_plot init = (Returned tt, init).
Proof. reflexivity. Qed.

Example update_plot_infinite_reading :
  fst (update_plot infinite_reading) = Raised limits_error /\
  line_data (snd (update_plot infinite_reading)) = ([0; 5]%float, [0.005; infinity]%float) /\
  ax_xlim (snd (update_plot infinite_reading)) = (0, 10)%float /\
  ax_ylim (snd (update_plot infinite_reading)) = (0, 0.15)%float.
Proof. vm_compute. auto. Qed.

(** ** Answers that are not numbers *)

Lemma lstrip_keeps (b : Z) (l : text) :
  is_space b = false -> In b l -> In b (lstrip l).
Proof.
  intros S. induction l as [|c l IH]; cbn; [tauto|].
  intros [<- | I].
  - rewrite S. now left.
  - destruct (is_space c); [auto | now right].
Qed.

Lemma strip_keeps (b : Z) (l : text) :
  is_space b = false -> In b l -> In b (strip l).
Proof.
  intros S I. unfold strip. apply -> in_rev. apply lstrip_keeps; [exact S|].
  apply -> in_rev. now apply lstrip_keeps.
Qed.

Lemma digits_value_refuses (b : Z) (l : text) :
  is_digit b = false -> (b =? 95) = false -> In b l ->
  forall acc after, digits_value acc after l = None.
Proof.
  intros D U. induction l as [|c l IH]; cbn; [tauto|].
  intros [<- | I] acc after.
  - now rewrite D, U.
  - destruct (is_digit c); [now apply IH|].
    destruct ((c =? 95) && after); [now apply IH | reflexivity].
Qed.

Lemma unsigned_int_refuses (b : Z) (l : text) :
  is_digit b = false -> (b =? 95) = false -> In b l -> unsigned_int l = None.
Proof.
  intros D U I. unfold unsigned_int. destruct l as [|c l]; [reflexivity|].
  destruct (is_digit c && _); [|reflexivity].
  now apply (digits_value_refuses b).
Qed.

(** A character that no literal holds survives the first step of [int], or
    the question mark that step puts in its place does. *)
Lemma to_ascii_digits_keeps (u : unicode) (b : Z) (t : text) :
  In b t -> unacceptable u b = true ->
  exists c, In c (to_ascii_digits u t) /\ numeric_char c = false.
Proof.
  intros I N. induction t as [|c t IH]; [destruct I|]. cbn [to_ascii_digits].
  assert (Rest : In b t ->
                 forall x, exists c', In c' (x :: to_ascii_digits u t)
                                      /\ numeric_char c' = false).
  { intros J x. destruct (IH J) as (c' & K & M). exists c'. split; [now right | exact M]. }
  destruct (c <? 127) eqn:A.
  - destruct I as [-> | J]; [|now apply Rest].
    exists b. split; [now left|]. unfold unacceptable in N. rewrite A in N.
    now apply negb_true_iff in N.
  - destruct (uni_isspace u c) eqn:S.
    + destruct I as [-> | J]; [|now apply Rest].
      unfold unacceptable in N. rewrite A, S in N. discriminate.
    + destruct (uni_decimal u c) as [v|] eqn:D.
      * destruct I as [-> | J]; [|now apply Rest].
        unfold unacceptable in N. rewrite A, S, D in N. discriminate.
      * exists 63. split; [now left | reflexivity].
Qed.

Lemma to_ascii_keeps (u : unicode) (b : Z) (t : text) :
  In b t -> unacceptable u b = true ->
  exists c, In c (to_ascii u t) /\ numeric_char c = false.
Proof.
  intros I N. unfold to_ascii.
  destruct (forallb (fun c => c <? 128) t) eqn:A; [|now apply (to_ascii_digits_keeps u b)].
  exists b. split; [exact I|].
  rewrite forallb_forall in A. specialize (A b I). apply Z.ltb_lt in A.
  unfold unacceptable in N. destruct (Z.ltb_spec b 127) as [L|G].
  - now apply negb_true_iff in N.
  - assert (b = 127) by lia. subst b. reflexivity.
Qed.

Lemma py_int_refuses (u : unicode) (b : Z) (t : text) :
  In b t -> unacceptable u b = true -> py_int u t = None.
Proof.
  intros I N. destruct (to_ascii_keeps u b t I N) as (c & J & M).
  unfold numeric_char in M. rewrite !orb_false_iff in M.
  destruct M as ((((D & S) & U) & P) & Mi).
  unfold py_int. pose proof (strip_keeps c _ S J) as K.
  destruct (strip (to_ascii u t)) as [|x rest]; [reflexivity|].
  destruct (x =? 45) eqn:E1.
  - apply Z.eqb_eq in E1. subst x. destruct K as [<- | K]; [discriminate|].
    now rewrite (unsigned_int_refuses c rest D U K).
  - destruct (x =? 43) eqn:E2.
    + apply Z.eqb_eq in E2. subst x. destruct K as [<- | K]; [discriminate|].
      now apply (unsigned_int_refuses c).
    + now apply (unsigned_int_refuses c).
Qed.

(** X14. An answer to the duration prompt that contains a character no
    integer literal can hold is refused as a whole: the duration is the
    default of 60 minutes and the notice is printed; no prefix of it is
    used. Such a character is, below code point 127, anything but an ASCII
    digit, an underscore, a sign or one of the six blanks [int] skips (so a
    decimal point, a unit, a letter, the separators 28 to 31); from 127 on,
    anything the Unicode database knows neither as a blank nor as a decimal
    digit. A digit or a blank of another script is not such a character:
    the answer made of the fullwidth digits 1 and 2 is read as 12. *)
Theorem non_numeric_answer_gives_default (u : unicode) (answer : text) (b : Z) :
  In b answer -> unacceptable u b = true ->
  read_duration u answer = (60, [Print MsgInvalidDuration]).
Proof.
  intros I N. unfold read_duration.
  destruct answer as [|c rest]; [destruct I|].
  now rewrite (py_int_refuses u b (c :: rest) I N).
Qed.

Lemma non_numeric_answer_example :
  read_duration unicode_excerpt (text_of "1.5") = (60, [Print MsgInvalidDuration]).
Proof.
  apply (non_numeric_answer_gives_default unicode_excerpt (text_of "1.5") 46).
  - cbn. auto.
  - reflexivity.
Defined.

Example answers_beyond_ascii :
  read_duration unicode_excerpt [65297; 65298] = (12, []) /\
  read_duration unicode_excerpt [160; 1635; 1632; 8195] = (30, []) /\
  read_duration unicode_excerpt [31; 53] = (60, [Print MsgInvalidDuration]) /\
  read_duration unicode_excerpt [53; 8364] = (60, [Print MsgInvalidDuration]) /\
  snd (read_duration unicode_excerpt (repeat 49 4300)) = [] /\
  read_duration unicode_excerpt (repeat 49 4301) = (60, [Print MsgInvalidDuration]).
Proof. vm_compute. auto 10. Qed.

(** ** The store never leads the buffer *)

(** X15. At every point of a session started on a fresh object, whatever
    raises and wherever, the rows committed to the store are an initial
    segment of the rows of the buffer and miss at most the last of them: a
    row is committed only after its reading is in the buffer, and at most
    one reading, the one whose write was cut short, is not in the store. *)
Theorem store_lags_by_at_most_one (g : globals) (loc : string) (dur : Z) (w : world) :
  exists j,
    conn_committed (db_connection (snd (real_time_monitoring g loc dur w init)))
      = firstn j (buffer_rows loc (snd (real_time_monitoring g loc dur w init))) /\
    (j <= List.length (buffer_rows loc (snd (real_time_monitoring g loc dur w init)))
       <= j + 1)%nat.
Proof.
  destruct (session_spec g loc dur w init eq_refl eq_refl)
    as (k & t & j & evs & (B1 & B2 & B3) & R & T & C & _).
  cbn [init readings timestamps db_connection setup_database conn_committed app] in R, T, C.
  rewrite (buffer_rows_prefix loc _ _ _ t k ltac:(lia) R T), C.
  exists j. rewrite <- firstn_map, <- firstn_map, firstn_firstn, Nat.min_l by lia.
  split; [reflexivity|].
  rewrite length_firstn, length_map. lia.
Qed.

(** ** The threshold lines of the plot *)

Lemma loop_hlines (loc : string) (end_time : float) (script : list tick_io) :
  forall s, ax_hlines (snd (monitoring_loop loc end_time script s)) = ax_hlines s.
Proof.
  induction script as [|io rest IH]; intros s; cbn [monitoring_loop]; [reflexivity|].
  destruct (perform_spec io AtClock (io_clock io) s) as [-> | [e ->]]; [|reflexivity].
  destruct (io_clock io <? end_time)%float; [|reflexivity].
  pose proof (tick_spec loc io s) as T. cbv zeta in T.
  destruct (tick loc io s) as [[u|e] s1]; cbn [fst snd] in T;
    destruct T as (_ & _ & _ & _ & T5 & _); cbn [snd]; [rewrite IH|]; exact T5.
Qed.

Lemma session_setup_hlines (g : globals) (loc : string) (dur : Z) (w : world)
    (s : system) :
  ax_hlines (snd (session_setup g loc dur w s)) = ax_hlines s.
Proof.
  unfold session_setup. py_unfold. cbn.
  destruct (g_time g); cbn; [|reflexivity].
  destruct (float_of_int (dur * 60)); cbn; [|reflexivity].
  destruct (float_of_int (dur * 60 / 5)); cbn; [|reflexivity].
  destruct (int_of_float a0); cbn; [|reflexivity].
  destruct (a1 <? 0); cbn; [reflexivity|].
  match goal with
  | |- context [draw_frames ?n ?x] =>
      pose proof (draw_frames_frame n x) as D;
      destruct (draw_frames n x) as [[u|e'] s1]; cbn in *;
      destruct D as (D1 & D2 & D3 & D4 & D5 & D6)
  end; assumption.
Qed.

(** X16. The two dashed lines of the plot are the thresholds of the
    classifier, for the whole of any session started on a fresh object: the
    lines stay at the two values set by [__init__], a concentration is Low
    exactly when it is below the first line, High exactly when it is not
    below the second, and Medium in between. *)
Theorem plot_lines_are_the_thresholds (g : globals) (loc : string) (dur : Z)
    (w : world) :
  exists low high,
    ax_hlines (snd (real_time_monitoring g loc dur w init)) = [low; high] /\
    forall c,
      (calculate_risk_level c = "Low" <-> (c <? low)%float = true) /\
      (calculate_risk_level c = "Medium" <->
         (c <? low)%float = false /\ (c <? high)%float = true) /\
      (calculate_risk_level c = "High" <->
         (c <? low)%float = false /\ (c <? high)%float = false).
Proof.
  exists 0.01%float, 0.1%float. split.
  - unfold real_time_monitoring.
    pose proof (session_setup_hlines g loc dur w init) as U.
    destruct (session_setup g loc dur w init) as [[end_time|e] s1]; cbn [snd] in U;
      [|exact U].
    pose proof (loop_hlines loc end_time (w_ticks w) s1) as L.
    destruct (monitoring_loop loc end_time (w_ticks w) s1) as [[r1|] s2]; cbn [snd] in L.
    2: { cbn [snd]. now rewrite L, U. }
    unfold finally.
    assert (H : ax_hlines (snd (handlers w r1 s2)) = ax_hlines s2).
    { unfold handlers, perform_exit, bind, print, modify, raise, ret.
      destruct r1 as [u|[| |]]; try destruct (exit_fault w AtHandlerPrint);
        reflexivity. }
    destruct (handlers w r1 s2) as [r2 s3]. cbn [snd] in H.
    pose proof (cleanup_ani loc w s3) as (_ & CA).
    destruct (cleanup loc w s3) as [[u|e] s4]; cbn [snd] in *; now rewrite CA, H, L, U.
  - intros c. unfold calculate_risk_level.
    destruct (c <? 0.01)%float eqn:A.
    + rewrite (ltb_trans c 0.01 0.1 A eq_refl).
      splits; split; try reflexivity; try discriminate; intros [? ?]; discriminate.
    + destruct (c <? 0.1)%float;
        splits; split; try reflexivity; try discriminate; auto;
        intros [? ?]; discriminate.
Qed.
